(** * A shallow embedding of the hypersdk-wasm contract runtime

  The development follows the Go sources under [x/contracts]:
  - [runtime/contract.go]: [CallInfo], fuel helpers, [ContractContext]
    serialization and [ContractInstance.call];
  - [runtime/runtime.go]: the runtime's own size and count checks;
  - [runtime/validators]: [DefaultValidator] and its rules;
  - [simulator/state/state.go]: [SimulatorState] and [ContractState];
  - the test helper [prefixedState] / [prependAccountToKey].

  Go values are modelled as the code has them: [uint32]/[uint64] as [Z]
  with the wrap-around written out, byte slices as [list byte], fixed
  arrays ([codec.Address], [ids.ID]) as vectors of the right length, the
  [map[string][]byte] of the simulator as a [gmap], functions that return
  [error] as functions into [result], and mutation as state passing. *)

From Stdlib Require Import ZArith List String Lia Bool DecimalString.
From Stdlib Require Import Strings.Byte.
From stdpp Require Import base gmap list vector.
Import ListNotations.
Open Scope Z_scope.

(** ** Go primitives *)

Module Go.

Abbreviation bytes := (list byte).

(** Go's [error] values that occur in the modelled code: plain messages
    ([errors.New], [fmt.Errorf] without [%w]), [fmt.Errorf("msg: %w", err)],
    and the runtime's [*ValidationError] with its three fields. *)
#[warnings="-register-all"]
Inductive error : Type :=
| errorString (msg : string)
| wrapError (msg : string) (err : error)
| ValidationError (Message Rule : string) (Cause : option error).

(** The outcome of a Go call: a value, a returned [error], or a run-time
    panic (index out of range, nil dereference, failed type assertion). *)
Inductive result (A : Type) : Type :=
| Ok (a : A)
| Err (e : error)
| Panic (msg : string).
Arguments Ok {A} a.
Arguments Err {A} e.
Arguments Panic {A} msg.

Definition is_Ok {A} (r : result A) : bool :=
  match r with Ok _ => true | _ => false end.

(** Conversions to fixed-width integers. *)
Definition uint32 (z : Z) : Z := z mod 2 ^ 32.
Definition uint64 (z : Z) : Z := z mod 2 ^ 64.
Definition int32 (z : Z) : Z := (z + 2 ^ 31) mod 2 ^ 32 - 2 ^ 31.

Definition byte_of_Z (z : Z) : byte :=
  match Byte.of_N (Z.to_N (z mod 256)) with
  | Some b => b
  | None => x00
  end.

Definition Z_of_byte (b : byte) : Z := Z.of_N (Byte.to_N b).

Definition len {A} (l : list A) : Z := Z.of_nat (length l).

Definition bytes_of_string (s : string) : bytes := list_byte_of_string s.

(** [fmt.Sprintf("%d", n)]. *)
Definition itoa (n : Z) : string := NilZero.string_of_int (Z.to_int n).

(** [make([]byte, n)]. *)
Definition make (n : nat) : bytes := repeat x00 n.

(** The builtin [copy(dst, src)]: the first [min (len dst) (len src)]
    elements of [dst] are overwritten, nothing is appended. *)
Definition copy (dst src : bytes) : bytes :=
  let n := Nat.min (length dst) (length src) in
  firstn n src ++ skipn n dst.

(** [copy(dst[off:], src)], seen from [dst]; [dst[off:]] panics when
    [off] is outside [0 .. len dst]. *)
Definition copy_at (dst : bytes) (off : Z) (src : bytes) : result bytes :=
  if (off <? 0) || (len dst <? off) then
    Panic "slice bounds out of range"
  else
    Ok (firstn (Z.to_nat off) dst ++ copy (skipn (Z.to_nat off) dst) src).

(** [encoding/binary]: [BigEndian.PutUint64] into a fresh 8-byte slice,
    [BigEndian.Uint64] (which indexes [b[7]] first), and the little-endian
    writer used by borsh. *)
Definition PutUint64_BE (v : Z) : bytes :=
  [ byte_of_Z (Z.shiftr v 56); byte_of_Z (Z.shiftr v 48);
    byte_of_Z (Z.shiftr v 40); byte_of_Z (Z.shiftr v 32);
    byte_of_Z (Z.shiftr v 24); byte_of_Z (Z.shiftr v 16);
    byte_of_Z (Z.shiftr v 8);  byte_of_Z v ].

Definition Uint64_BE (b : bytes) : result Z :=
  match b with
  | b0 :: b1 :: b2 :: b3 :: b4 :: b5 :: b6 :: b7 :: _ =>
      Ok (Z.lor (Z_of_byte b7)
         (Z.lor (Z.shiftl (Z_of_byte b6) 8)
         (Z.lor (Z.shiftl (Z_of_byte b5) 16)
         (Z.lor (Z.shiftl (Z_of_byte b4) 24)
         (Z.lor (Z.shiftl (Z_of_byte b3) 32)
         (Z.lor (Z.shiftl (Z_of_byte b2) 40)
         (Z.lor (Z.shiftl (Z_of_byte b1) 48)
                (Z.shiftl (Z_of_byte b0) 56))))))))
  | _ => Panic "index out of range [7]"
  end.

Definition PutUint64_LE (v : Z) : bytes :=
  [ byte_of_Z v;               byte_of_Z (Z.shiftr v 8);
    byte_of_Z (Z.shiftr v 16); byte_of_Z (Z.shiftr v 24);
    byte_of_Z (Z.shiftr v 32); byte_of_Z (Z.shiftr v 40);
    byte_of_Z (Z.shiftr v 48); byte_of_Z (Z.shiftr v 56) ].

(** The value a little-endian byte string denotes. *)
Fixpoint LE_value (b : bytes) : Z :=
  match b with
  | [] => 0
  | x :: r => Z_of_byte x + 256 * LE_value r
  end.

End Go.
Import Go.

#[global] Instance byte_eq_decision : EqDecision byte := byte_eq_dec.
#[global] Instance byte_countable : Countable byte :=
inj_countable Byte.to_N Byte.of_N Byte.of_to_N.

(** ** [codec] and [ids]: fixed-size arrays *)

Module codec.

Definition AddressLen : nat := 33.

(** [type Address [AddressLen]byte] *)
Definition Address : Type := vec byte AddressLen.

(** [EmptyAddress], the zero value. *)
Definition EmptyAddress : Address := vreplicate AddressLen x00.

(** [a[:]] *)
Definition slice (a : Address) : bytes := vec_to_list a.

End codec.

Module ids.

Definition IDLen : nat := 32.

(** [type ID [IDLen]byte] *)
Definition ID : Type := vec byte IDLen.

Definition slice (i : ID) : bytes := vec_to_list i.

End ids.

(** [type ContractID []byte] (runtime/contract.go). *)
Definition ContractID : Type := bytes.

(** [codec.Address] implements [fmt.Stringer]; the method is declared in the
    [codec] package, outside the modelled sources, and is taken as a
    parameter.  [fmt.Sprintf("%s", addr)] is [String addr]. *)
Class AddressStringer := Address_String : codec.Address -> bytes.

(** ** [hypersdk/state.Mutable]: the key/value interface *)

Class Mutable (S : Type) := {
  Mutable_GetValue : S -> bytes -> result bytes * S;
  Mutable_Insert : S -> bytes -> bytes -> result unit * S;
  Mutable_Remove : S -> bytes -> result unit * S
}.

(** ** [simulator/state/state.go] *)

Module SimulatorState.

(** [type SimulatorState struct { id; data map[string][]byte; mu; mutable }].
    The lock and the C handle carry no data of their own.  A method
    receiver [s *SimulatorState] may be [nil]: receivers are
    [option t]. Go's [nil] and empty slices are both the empty list. *)
Record t : Type := mk { id : Z; data : gmap bytes bytes }.

Definition set_data (s : t) (d : gmap bytes bytes) : t :=
  {| id := id s; data := d |}.

(** [func balanceKey(addr codec.Address) string] *)
Definition balanceKey `{AddressStringer} (addr : codec.Address) : bytes :=
  bytes_of_string "balance:" ++ Address_String addr.

(** [func (s *SimulatorState) GetValue(ctx, key []byte) ([]byte, error)] *)
Definition GetValue (s : option t) (key : bytes) : result bytes :=
  match s with
  | None => Err (errorString "invalid state")
  | Some st =>
      if len key =? 0 then Err (errorString "empty key")
      else match data st !! key with
           | None => Ok []
           | Some value => Ok value
           end
  end.

(** [func (s *SimulatorState) Insert(ctx, key []byte, value []byte) error] *)
Definition Insert (s : option t) (key value : bytes)
  : result unit * option t :=
  match s with
  | None => (Err (errorString "invalid state"), s)
  | Some st =>
      if len key =? 0 then (Err (errorString "empty key"), s)
      else (Ok tt, Some (set_data st (<[key := value]> (data st))))
  end.

(** [func (s *SimulatorState) Remove(ctx, key []byte) error] *)
Definition Remove (s : option t) (key : bytes) : result unit * option t :=
  match s with
  | None => (Err (errorString "invalid state"), s)
  | Some st =>
      if len key =? 0 then (Err (errorString "empty key"), s)
      else (Ok tt, Some (set_data st (delete key (data st))))
  end.

(** [func (s *SimulatorState) GetAccountContract(ctx, account)
       (runtime.ContractID, error)].
    [var contractID runtime.ContractID] is a nil slice, and
    [copy(contractID[:], value)] copies into it. *)
Definition GetAccountContract (s : option t) (account : codec.Address)
  : result ContractID :=
  match s with
  | None => Err (errorString "nil state")
  | Some _ =>
      match GetValue s (codec.slice account) with
      | Ok value =>
          if negb (len value =? 32) then
            Err (errorString "invalid contract ID length")
          else
            let contractID : ContractID := [] in
            Ok (copy contractID value)
      | Err e => Err e
      | Panic m => Panic m
      end
  end.

(** [func (s *SimulatorState) SetAccountContract(ctx, account, contractID)
       error] *)
Definition SetAccountContract (s : option t) (account : codec.Address)
  (contractID : ContractID) : result unit * option t :=
  match s with
  | None => (Err (errorString "nil state"), s)
  | Some _ => Insert s (codec.slice account) contractID
  end.

(** [func (s *SimulatorState) GetContractBytes(ctx, contractID)
       ([]byte, error)] *)
Definition GetContractBytes (s : option t) (contractID : ContractID)
  : result bytes :=
  match s with
  | None => Err (errorString "nil state")
  | Some _ => GetValue s contractID
  end.

(** [func (s *SimulatorState) SetContractBytes(ctx, contractID, code)
       error] *)
Definition SetContractBytes (s : option t) (contractID : ContractID)
  (code : bytes) : result unit * option t :=
  match s with
  | None => (Err (errorString "nil state"), s)
  | Some _ => Insert s contractID code
  end.

(** [func (s *SimulatorState) GetBalance(ctx, addr) (uint64, error)];
    [binary.BigEndian.Uint64] panics on a stored value shorter than 8
    bytes. *)
Definition GetBalance `{AddressStringer} (s : option t)
  (addr : codec.Address) : result Z :=
  match s with
  | None => Err (errorString "nil state")
  | Some st =>
      match data st !! balanceKey addr with
      | None => Ok 0
      | Some value => Uint64_BE value
      end
  end.

(** [s.data[balanceKey(a)] = b] under the lock. *)
Definition store_balance `{AddressStringer} (st : t) (a : codec.Address)
  (b : bytes) : t :=
  set_data st (<[balanceKey a := b]> (data st)).

(** The second half of [TransferBalance] ("Update to balance"). *)
Definition credit `{AddressStringer} (st : t) (to : codec.Address)
  (amount : Z) : result unit * option t :=
  match GetBalance (Some st) to with
  | Ok toBalance =>
      let newToBalance := uint64 (toBalance + amount) in
      let toBalanceBytes := PutUint64_BE newToBalance in
      (Ok tt, Some (store_balance st to toBalanceBytes))
  | Err e => (Err e, Some st)
  | Panic m => (Panic m, Some st)
  end.

(** [func (s *SimulatorState) TransferBalance(ctx, from, to, amount) error] *)
Definition TransferBalance `{AddressStringer} (s : option t)
  (from to : codec.Address) (amount : Z) : result unit * option t :=
  match s with
  | None => (Err (errorString "nil state"), s)
  | Some st =>
      if bool_decide (from <> codec.EmptyAddress) then
        match GetBalance s from with
        | Ok fromBalance =>
            if fromBalance <? amount then
              (Err (errorString "insufficient balance"), s)
            else
              let newFromBalance := uint64 (fromBalance - amount) in
              let fromBalanceBytes := PutUint64_BE newFromBalance in
              credit (store_balance st from fromBalanceBytes) to amount
        | Err e => (Err e, s)
        | Panic m => (Panic m, s)
        end
      else credit st to amount
  end.

End SimulatorState.

Module ContractState.

(** [type ContractState struct { *SimulatorState; address codec.Address }] *)
Record t : Type := mk {
  SimulatorState : option SimulatorState.t;
  address : codec.Address
}.

(** The methods return the embedded state after the call. *)

(** [func (c *ContractState) GetValue(ctx, key []byte) ([]byte, error)] *)
Definition GetValue (c : t) (key : bytes) : result bytes :=
  if len key =? 0 then Err (errorString "empty key")
  else
    let prefixedKey := codec.slice (address c) ++ key in
    SimulatorState.GetValue (SimulatorState c) prefixedKey.

(** [func (c *ContractState) Insert(ctx, key, value []byte) error] *)
Definition Insert (c : t) (key value : bytes)
  : result unit * option SimulatorState.t :=
  if len key =? 0 then (Err (errorString "empty key"), SimulatorState c)
  else
    let prefixedKey := codec.slice (address c) ++ key in
    SimulatorState.Insert (SimulatorState c) prefixedKey value.

(** [func (c *ContractState) Remove(ctx, key []byte) error] *)
Definition Remove (c : t) (key : bytes)
  : result unit * option SimulatorState.t :=
  if len key =? 0 then (Err (errorString "empty key"), SimulatorState c)
  else
    let prefixedKey := codec.slice (address c) ++ key in
    SimulatorState.Remove (SimulatorState c) prefixedKey.

End ContractState.

(** [func (s *SimulatorState) GetContractState(address) state.Mutable] *)
Definition GetContractState (s : option SimulatorState.t)
  (address : codec.Address) : ContractState.t :=
  ContractState.mk s address.

(** ** [runtime/util_test.go]: the prefixed view used by the runtime tests *)

(** [func prependAccountToKey(account codec.Address, key []byte) []byte] *)
Definition prependAccountToKey (account : codec.Address) (key : bytes)
  : bytes :=
  let n := length (codec.slice account) in
  let result := make (n + length key + 1) in
  let result := copy result (codec.slice account) in
  let result := firstn n result ++ copy (skipn n result) (bytes_of_string "/") in
  let result := firstn (n + 1) result ++ copy (skipn (n + 1) result) key in
  result.

Module prefixedState.

(** [type prefixedState struct { address codec.Address; inner state.Mutable }];
    [inner] is a reference to a store whose current contents are passed in
    and returned. *)
Section Methods.
Context {S : Type} `{Mutable S}.

Definition GetValue (address : codec.Address) (inner : S) (key : bytes)
  : result bytes * S :=
  Mutable_GetValue inner (prependAccountToKey address key).

Definition Insert (address : codec.Address) (inner : S) (key value : bytes)
  : result unit * S :=
  Mutable_Insert inner (prependAccountToKey address key) value.

Definition Remove (address : codec.Address) (inner : S) (key : bytes)
  : result unit * S :=
  Mutable_Remove inner (prependAccountToKey address key).

End Methods.

End prefixedState.

(** [var _ state.Mutable = &SimulatorState{}] *)
#[global] Instance SimulatorState_Mutable : Mutable (option SimulatorState.t) := {
  Mutable_GetValue s key := (SimulatorState.GetValue s key, s);
  Mutable_Insert := SimulatorState.Insert;
  Mutable_Remove := SimulatorState.Remove
}.

(** ** [runtime]: balance interface, execution world, fuel *)

(** [type BalanceManager interface { GetBalance; TransferBalance }], the
    part of [StateManager] that [ContractInstance.call] uses.  [S] is the
    state of the object behind [callInfo.State]; a failing call may still
    have changed it. *)
Class BalanceManager (S : Type) := {
  BalanceManager_GetBalance : S -> codec.Address -> result Z * S;
  BalanceManager_TransferBalance :
    S -> codec.Address -> codec.Address -> Z -> result unit * S
}.

(** [var _ runtime.StateManager = &SimulatorState{}] *)
#[global] Instance SimulatorState_BalanceManager `{AddressStringer}
  : BalanceManager (option SimulatorState.t) := {
  BalanceManager_GetBalance s addr := (SimulatorState.GetBalance s addr, s);
  BalanceManager_TransferBalance := SimulatorState.TransferBalance
}.

Module TestStateManager.

(** [type TestStateManager struct { ContractManager; Balances
    map[codec.Address]uint64 }] (runtime/util_test.go); only the balances
    are modelled, as a map keyed by the 33 bytes of the address. *)
Definition t : Type := gmap bytes Z.

(** [func (t TestStateManager) GetBalance(_, address) (uint64, error)] *)
Definition GetBalance (m : t) (address : codec.Address) : result Z :=
  match m !! codec.slice address with
  | Some balance => Ok balance
  | None => Ok 0
  end.

(** [t.Balances[a] op= amount]: a missing entry reads as zero. *)
Definition balance_of (m : t) (a : codec.Address) : Z :=
  default 0 (m !! codec.slice a).

(** [func (t TestStateManager) TransferBalance(ctx, from, to, amount) error] *)
Definition TransferBalance (m : t) (from to : codec.Address) (amount : Z)
  : result unit * t :=
  match GetBalance m from with
  | Ok balance =>
      if balance <? amount then
        (Err (errorString "insufficient balance"), m)
      else
        let m := <[codec.slice from := uint64 (balance_of m from - amount)]> m in
        let m := <[codec.slice to := uint64 (balance_of m to + amount)]> m in
        (Ok tt, m)
  | Err e => (Err e, m)
  | Panic msg => (Panic msg, m)
  end.

End TestStateManager.

#[global] Instance TestStateManager_BalanceManager
  : BalanceManager TestStateManager.t := {
  BalanceManager_GetBalance m addr := (TestStateManager.GetBalance m addr, m);
  BalanceManager_TransferBalance := TestStateManager.TransferBalance
}.

(** What a guest function can observe and change while it runs: the state
    behind [callInfo.State] (through host imports), the fuel cell of the
    [wasmtime.Store] ([None] when the engine has fuel metering off), the
    linear memory exported as ["memory"], and [ContractInstance.result]
    (through [set_result]). *)
Record Machine (S : Type) : Type := mkMachine {
  state : S;
  fuel : option Z;
  memory : bytes;
  result_ : bytes
}.
Arguments mkMachine {S}.
Arguments state {S}.
Arguments fuel {S}.
Arguments memory {S}.
Arguments result_ {S}.

(** Host-side actions, recorded in the order in which they happen: the
    call of [State.TransferBalance], the call of the guest's allocator, the
    copy into linear memory, and the call of the guest entry point together
    with the linear memory it starts with. *)
Inductive Event : Type :=
| EvTransferBalance (from to : codec.Address) (amount : Z)
| EvAlloc (size : Z)
| EvMemoryWrite (offset : Z) (data : bytes)
| EvEntry (name : string) (offset : Z) (mem : bytes).

Record World (S : Type) : Type := mkWorld {
  machine : Machine S;
  trace : list Event
}.
Arguments mkWorld {S}.
Arguments machine {S}.
Arguments trace {S}.

(** Values returned by [wasmtime.Func.Call] as [interface{}]. *)
Inductive Val : Type :=
| ValNil
| ValI32 (v : Z)
| ValI64 (v : Z)
| ValOther.

(** A guest export, as [wasmtime.Extern]. A function is what running it
    does to the machine: it returns a value or an error (trap). *)
Inductive Extern (S : Type) : Type :=
| ExternFunc (f : Machine S -> Z -> result Val * Machine S)
| ExternMemory
| ExternOther.
Arguments ExternFunc {S}.
Arguments ExternMemory {S}.
Arguments ExternOther {S}.

(** [wasmtime.Instance]: [GetExport] by name. *)
Definition Instance (S : Type) : Type := string -> option (Extern S).

(** State and error passing over [World]. *)
Definition M (S A : Type) : Type := World S -> result A * World S.

Definition ret {S A} (a : A) : M S A := fun w => (Ok a, w).

Definition fail {S A} (e : error) : M S A := fun w => (Err e, w).

Definition panic {S A} (msg : string) : M S A := fun w => (Panic msg, w).

Definition bind {S A B} (m : M S A) (k : A -> M S B) : M S B :=
  fun w =>
    match m w with
    | (Ok a, w') => k a w'
    | (Err e, w') => (Err e, w')
    | (Panic msg, w') => (Panic msg, w')
    end.

Declare Scope go_scope.
Delimit Scope go_scope with go.
Notation "x <- m ;; k" := (bind m (fun x => k))
  (at level 100, m at next level, right associativity) : go_scope.
Notation "m ;;; k" := (bind m (fun _ => k))
  (at level 100, right associativity) : go_scope.

Definition lift {S A} (r : result A) : M S A := fun w => (r, w).

Definition emit {S} (e : Event) : M S unit :=
  fun w => (Ok tt, mkWorld (machine w) (trace w ++ [e])).

Definition with_machine {S} (f : Machine S -> Machine S) : M S unit :=
  fun w => (Ok tt, mkWorld (f (machine w)) (trace w)).

(** [store.GetFuel()] and [store.SetFuel(n)] of wasmtime: both fail when
    the engine was configured without fuel consumption. *)
Definition GetFuel {S} : M S Z :=
  fun w =>
    match fuel (machine w) with
    | Some remaining => (Ok remaining, w)
    | None => (Err (errorString "fuel is not configured in this store"), w)
    end.

Definition SetFuel {S} (n : Z) : M S unit :=
  fun w =>
    match fuel (machine w) with
    | Some _ =>
        let m := machine w in
        (Ok tt, mkWorld (mkMachine (state m) (Some n) (memory m) (result_ m))
                        (trace w))
    | None => (Err (errorString "fuel is not configured in this store"), w)
    end.

(** [type CallInfo struct]; [State] is the [state] of the machine and
    [inst] the instance the methods below are given. *)
Record CallInfo : Type := mkCallInfo {
  Actor : codec.Address;
  FunctionName : string;
  Contract : codec.Address;
  Params : bytes;
  Fuel : Z;
  Height : Z;
  Timestamp : Z;
  ActionID : ids.ID;
  Value : Z
}.

Open Scope go_scope.

(** [func (c *CallInfo) RemainingFuel() uint64] *)
Definition RemainingFuel {S} (c : CallInfo) : M S Z :=
  fun w =>
    match GetFuel w with
    | (Ok remaining, w') => (Ok remaining, w')
    | (_, w') => (Ok (Fuel c), w')
    end.

(** [func (c *CallInfo) AddFuel(fuel uint64)] *)
Definition AddFuel {S} (c : CallInfo) (fuel : Z) : M S unit :=
  fun w =>
    match GetFuel w with
    | (Ok remaining, w') =>
        match SetFuel (uint64 (remaining + fuel)) w' with
        | (_, w'') => (Ok tt, w'')
        end
    | (_, w') => (Ok tt, w')
    end.

(** [func (c *CallInfo) ConsumeFuel(fuel uint64) error] *)
Definition ConsumeFuel {S} (c : CallInfo) (fuel : Z) : M S unit :=
  remaining <- GetFuel ;;
  if remaining <? fuel then fail (errorString "out of fuel")
  else SetFuel (uint64 (remaining - fuel)).

(** ** [runtime/contract.go]: parameter marshalling and [call] *)

(** [const ( MemoryName = "memory"; AllocName = "alloc" )], declared in
    [runtime/resource_rules/validator_test.go], lines 302-307. *)
Definition AllocName : string := "alloc".
Definition MemoryName : string := "memory".

(** [type ContractContext struct] *)
Record ContractContext : Type := mkContractContext {
  ctx_Contract : codec.Address;
  ctx_Actor : codec.Address;
  ctx_Height : Z;
  ctx_Timestamp : Z;
  ctx_ActionID : ids.ID
}.

(** [borsh.NewEncoder(b).Encode(v)] on a [[33]byte] array writes its
    elements and nothing else; on a [uint64] it writes eight little-endian
    bytes.  [b] is the [bytes.Buffer] of [call], whose [Write] appends and
    never fails. *)
Definition borsh_Encode_Address (b : bytes) (a : codec.Address)
  : result bytes := Ok (b ++ codec.slice a).

Definition borsh_Encode_uint64 (b : bytes) (v : Z) : result bytes :=
  Ok (b ++ PutUint64_LE v).

Definition Buffer_Write (b : bytes) (p : bytes) : result bytes := Ok (b ++ p).

(** [func (c ContractContext) customSerialize(b io.Writer) error] *)
Definition customSerialize (c : ContractContext) (b : bytes) : result bytes :=
  match borsh_Encode_Address b (ctx_Contract c) with
  | Ok b =>
      match borsh_Encode_Address b (ctx_Actor c) with
      | Ok b =>
          match borsh_Encode_uint64 b (ctx_Height c) with
          | Ok b =>
              match borsh_Encode_uint64 b (ctx_Timestamp c) with
              | Ok b =>
                  let actionIDBytes := ids.slice (ctx_ActionID c) in
                  Buffer_Write b actionIDBytes
              | r => r
              end
          | r => r
          end
      | r => r
      end
  | r => r
  end.

Section Call.
Context {S : Type} `{BalanceManager S}.

(** [fn.Call(p.store, arg)] on a guest function. *)
Definition run_guest (f : Machine S -> Z -> result Val * Machine S)
  (arg : Z) : M S Val :=
  fun w => let (r, m) := f (machine w) arg in (r, mkWorld m (trace w)).

(** [copy(linearMem[dataOffset:], data)] on the memory of the store. *)
Definition write_memory (dataOffset : Z) (data : bytes) : M S unit :=
  fun w =>
    let m := machine w in
    match copy_at (memory m) dataOffset data with
    | Ok linearMem =>
        (Ok tt,
         mkWorld (mkMachine (state m) (fuel m) linearMem (result_ m))
                 (trace w ++ [EvMemoryWrite dataOffset data]))
    | Err e => (Err e, w)
    | Panic msg => (Panic msg, w)
    end.

(** [func (p *ContractInstance) writeToMemory(data []byte) (int32, error)].
    [GetExport] returns [nil] for a missing export, on which [.Func()] and
    [.Memory()] dereference a nil pointer. *)
Definition writeToMemory (p : Instance S) (data : bytes) : M S Z :=
  match p AllocName with
  | None => panic "invalid memory address or nil pointer dereference"
  | Some (ExternFunc allocFn) =>
      match p MemoryName with
      | None => panic "invalid memory address or nil pointer dereference"
      | Some ExternMemory =>
          let size := int32 (len data) in
          emit (EvAlloc size) ;;;
          dataOffsetIntf <- run_guest allocFn size ;;
          match dataOffsetIntf with
          | ValI32 dataOffset =>
              write_memory dataOffset data ;;;
              ret dataOffset
          | _ => panic "interface conversion: interface {} is not int32"
          end
      | Some _ =>
          fail (errorString ("memory " ++ MemoryName ++ " not found"))
      end
  | Some _ =>
      fail (errorString ("allocation function " ++ AllocName ++ " not found"))
  end.

(** [callInfo.State.TransferBalance(ctx, from, to, amount)] *)
Definition State_TransferBalance (from to : codec.Address) (amount : Z)
  : M S unit :=
  emit (EvTransferBalance from to amount) ;;;
  fun w =>
    let m := machine w in
    let (r, s) := BalanceManager_TransferBalance (state m) from to amount in
    (r, mkWorld (mkMachine s (fuel m) (memory m) (result_ m)) (trace w)).

(** [p.inst.GetFunc(p.store, name)]: [nil] unless the export is a function. *)
Definition GetFunc (p : Instance S) (name : string)
  : option (Machine S -> Z -> result Val * Machine S) :=
  match p name with
  | Some (ExternFunc f) => Some f
  | _ => None
  end.

(** [function.Call(p.store, paramsOffset)] on the entry point. *)
Definition call_entry (name : string)
  (function : Machine S -> Z -> result Val * Machine S) (paramsOffset : Z)
  : M S Val :=
  (fun w => emit (EvEntry name paramsOffset (memory (machine w))) w) ;;;
  run_guest function paramsOffset.

(** [func (p *ContractInstance) call(ctx, callInfo *CallInfo)
       ([]byte, error)] *)
Definition call (p : Instance S) (callInfo : CallInfo) : M S bytes :=
  remaining <- GetFuel ;;
  SetFuel (uint64 (remaining + Fuel callInfo)) ;;;
  (if Value callInfo >? 0 then
     State_TransferBalance (Actor callInfo) (Contract callInfo)
                           (Value callInfo)
   else ret tt) ;;;
  let contractCtx :=
    {| ctx_Contract := Contract callInfo;
       ctx_Actor := Actor callInfo;
       ctx_Height := Height callInfo;
       ctx_Timestamp := Timestamp callInfo;
       ctx_ActionID := ActionID callInfo |} in
  paramsBytes <- lift (customSerialize contractCtx []) ;;
  let paramsBytes := paramsBytes ++ Params callInfo in
  paramsOffset <- writeToMemory p paramsBytes ;;
  match GetFunc p (FunctionName callInfo) with
  | None =>
      fail (errorString
              ("function " ++ FunctionName callInfo ++ " does not exist"))
  | Some function =>
      call_entry (FunctionName callInfo) function paramsOffset ;;;
      fun w => (Ok (result_ (machine w)), w)
  end.

End Call.

(** ** [wasmtime]: what the validators read from a compiled module *)

Module wasmtime.

(** [wasmtime.ValKind], an integer type ([C.wasm_valkind_t]): the six
    named constants, and any other value the engine reports (a [v128]
    parameter, for one). *)
Inductive ValKind : Type :=
| KindI32 | KindI64 | KindF32 | KindF64 | KindExternref | KindFuncref
| KindOther (code : Z).

#[global] Instance ValKind_eq_dec : EqDecision ValKind.
Proof. solve_decision. Defined.

(** [*FuncType]: [Params()] and [Results()], as kinds. *)
Record FuncType : Type := mkFuncType {
  Params : list ValKind;
  Results : list ValKind
}.

(** [*MemoryType]: [Minimum() uint64] and [Maximum() (bool, uint64)]. *)
Record MemoryType : Type := mkMemoryType {
  mem_Minimum : Z;
  mem_Maximum : option Z
}.

(** [*TableType]: [Minimum() uint32] and [Maximum() (bool, uint32)]. *)
Record TableType : Type := mkTableType {
  tab_Minimum : Z;
  tab_Maximum : option Z
}.

(** [*ExternType]: exactly one of [FuncType()], [GlobalType()],
    [MemoryType()], [TableType()] is not [nil]. *)
Inductive ExternType : Type :=
| Func (ft : FuncType)
| Global
| Memory (mt : MemoryType)
| Table (tbl : TableType).

Definition FuncType_of (t : ExternType) : option FuncType :=
  match t with Func ft => Some ft | _ => None end.

Definition GlobalType_of (t : ExternType) : option unit :=
  match t with Global => Some tt | _ => None end.

Definition MemoryType_of (t : ExternType) : option MemoryType :=
  match t with Memory mt => Some mt | _ => None end.

Definition TableType_of (t : ExternType) : option TableType :=
  match t with Table tbl => Some tbl | _ => None end.

(** [*ExportType] *)
Record ExportType : Type := mkExport {
  exp_Name : string;
  exp_Type : ExternType
}.

(** [*ImportType]; [Name()] is a [*string]. *)
Record ImportType : Type := mkImport {
  imp_Module : string;
  imp_Name : option string;
  imp_Type : ExternType
}.

(** [*Module], through [Exports()] and [Imports()]. *)
Record Module : Type := mkModule {
  Exports : list ExportType;
  Imports : list ImportType
}.

(** [*Engine], through what [wasmtime.NewModule(engine, bytes)] returns. *)
Definition Engine : Type := bytes -> result Module.

Definition NewModule (engine : Engine) (wasm : bytes) : result Module :=
  engine wasm.

End wasmtime.

(** ** [runtime/limits.go] and [runtime/validator.go] *)

(** [type ResourceLimits struct], all fields [uint32]. *)
Record ResourceLimits : Type := mkResourceLimits {
  MaxContractSize : Z;
  MaxFunctions : Z;
  MaxImports : Z;
  MaxExports : Z;
  MaxGlobals : Z;
  MaxInitialMemoryPages : Z;
  MaxMemoryPages : Z;
  MaxTableSize : Z
}.

(** [func DefaultResourceLimits() ResourceLimits]; [units.MiB] is [1 << 20]. *)
Definition DefaultResourceLimits : ResourceLimits :=
  {| MaxContractSize := 1 * 1048576;
     MaxFunctions := 1000;
     MaxImports := 100;
     MaxExports := 100;
     MaxGlobals := 100;
     MaxInitialMemoryPages := 4;
     MaxMemoryPages := 16;
     MaxTableSize := 10000 |}.

Definition ErrInvalidModule : error := errorString "invalid module".
Definition ErrResourceLimitExceeded : error :=
  errorString "resource limit exceeded".

(** [type SecurityRuleType string] and its four constants. *)
Abbreviation SecurityRuleType := string (only parsing).
Definition RuleTypeInstruction : SecurityRuleType := "instruction".
Definition RuleTypeFloatingPoint : SecurityRuleType := "floating_point".
Definition RuleTypeMemory : SecurityRuleType := "memory".
Definition RuleTypeCustom : SecurityRuleType := "custom".

(** [type SecurityRule struct]; a [nil] [Validator] is [None]. *)
Record SecurityRule : Type := mkSecurityRule {
  rule_Type : SecurityRuleType;
  rule_Name : string;
  AllowList : list string;
  DenyList : list string;
  Validator : option (wasmtime.Module -> result unit)
}.

(** [type ValidatorConfig struct] *)
Record ValidatorConfig : Type := mkValidatorConfig {
  cfg_ResourceLimits : ResourceLimits;
  DefaultRules : bool;
  CustomRules : list SecurityRule
}.

(** [func DefaultValidatorConfig() ValidatorConfig] *)
Definition DefaultValidatorConfig : ValidatorConfig :=
  {| cfg_ResourceLimits := DefaultResourceLimits;
     DefaultRules := true;
     CustomRules := [] |}.

(** [func NewValidationError(msg string, rule string, err error) error];
    a [nil] cause is [None]. *)
Definition NewValidationError (msg rule : string) (err : option error)
  : error :=
  ValidationError msg rule err.

(** A [for ... range] loop whose body may [return]: [None] goes on with the
    next element, [Some r] leaves the enclosing function with [r]. *)
Fixpoint range {A} (body : A -> option (result unit)) (l : list A)
  : option (result unit) :=
  match l with
  | [] => None
  | x :: rest =>
      match body x with
      | Some r => Some r
      | None => range body rest
      end
  end.

(** Falling off the end of a function that returns [error]. *)
Definition or_nil (o : option (result unit)) : result unit :=
  match o with
  | Some r => r
  | None => Ok tt
  end.

(** [if err := f(); err != nil { return wrap(err) }] *)
Definition return_if_err (r : result unit) (wrap : error -> error)
  : option (result unit) :=
  match r with
  | Ok _ => None
  | Err e => Some (Err (wrap e))
  | Panic msg => Some (Panic msg)
  end.

(** A [uint32] counter incremented once per element satisfying [P]. *)
Fixpoint count_up {A} (P : A -> bool) (l : list A) (count : Z) : Z :=
  match l with
  | [] => count
  | x :: rest => count_up P rest (if P x then uint32 (count + 1) else count)
  end.

(** Statements in sequence: the second runs when the first did not
    [return]. *)
Definition then_ (first second : option (result unit))
  : option (result unit) :=
  match first with
  | Some r => Some r
  | None => second
  end.

(** ** [runtime/validators]: [DefaultValidator] *)

Module validators.

Import wasmtime.

(** [type DefaultValidator struct] *)
Record DefaultValidator : Type := mkDefaultValidator {
  defaultRules : list SecurityRule;
  customRules : list SecurityRule;
  config : ValidatorConfig
}.

(** [func defaultSecurityRules() []runtime.SecurityRule] *)
Definition defaultSecurityRules : list SecurityRule :=
  [ {| rule_Type := RuleTypeInstruction;
       rule_Name := "default-instructions";
       AllowList := [];
       DenyList := [ "table.get"; "table.set"; "table.size"; "table.grow";
                     "table.fill"; "table.init"; "elem.drop"; "data.drop";
                     "table.copy" ]%string;
       Validator := None |};
    {| rule_Type := RuleTypeMemory;
       rule_Name := "default-memory";
       AllowList := [];
       DenyList := [ "memory.grow" ]%string;
       Validator := None |} ].

(** [func NewDefaultValidator(config)], which returns a validator and a
    [nil] error. *)
Definition NewDefaultValidator (config : ValidatorConfig)
  : result DefaultValidator :=
  Ok {| defaultRules :=
          if DefaultRules config then defaultSecurityRules else [];
        customRules := CustomRules config;
        config := config |}.

(** [func (v *DefaultValidator) AddCustomRule(rule)] *)
Definition AddCustomRule (v : DefaultValidator) (rule : SecurityRule)
  : DefaultValidator :=
  {| defaultRules := defaultRules v;
     customRules := customRules v ++ [rule];
     config := config v |}.

(** [type ValidatorOption func(v ModuleValidator) error], applied to a
    [*DefaultValidator]. *)
Definition ValidatorOption : Type := DefaultValidator -> result DefaultValidator.

(** [func NewDefaultValidatorWithOptions(opts ...ValidatorOption)] *)
Definition NewDefaultValidatorWithOptions (opts : list ValidatorOption)
  : result DefaultValidator :=
  fold_left
    (fun acc opt =>
       match acc with
       | Ok v =>
           match opt v with
           | Ok v' => Ok v'
           | Err err =>
               Err (wrapError "failed to apply validator option: " err)
           | Panic msg => Panic msg
           end
       | other => other
       end)
    opts
    (Ok {| defaultRules := defaultSecurityRules;
           customRules := [];
           config := DefaultValidatorConfig |}).

(** [rules.go]: the three ready-made options. *)
Definition WithDeterministicFloatingPoint : ValidatorOption :=
  fun dv =>
    Ok (AddCustomRule dv
          {| rule_Type := RuleTypeFloatingPoint;
             rule_Name := "strict-float";
             AllowList := [ "f32.add"; "f32.sub"; "f32.mul"; "f32.div";
                            "f64.add"; "f64.sub"; "f64.mul"; "f64.div" ]%string;
             DenyList := [ "f32.nearest"; "f32.ceil"; "f32.floor"; "f32.trunc";
                           "f64.nearest"; "f64.ceil"; "f64.floor";
                           "f64.trunc" ]%string;
             Validator := None |}).

Definition WithRestrictedInstructions : ValidatorOption :=
  fun dv =>
    Ok (AddCustomRule dv
          {| rule_Type := RuleTypeInstruction;
             rule_Name := "restricted-instructions";
             AllowList := [];
             DenyList := [ "memory.grow"; "memory.size"; "table.grow";
                           "table.size"; "unreachable" ]%string;
             Validator := None |}).

(** The [Validator] closure of [WithCustomMemoryLimits]; note the argument
    order of its [NewValidationError] calls. *)
Definition custom_memory_limits (maxPages : Z) (wmod : Module) : result unit :=
  or_nil (range
    (fun exp =>
       match MemoryType_of (exp_Type exp) with
       | Some memType =>
           let min := uint32 (mem_Minimum memType) in
           if min >? maxPages then
             Some (Err (NewValidationError "memory-limits"
                          "memory pages exceed custom limit"
                          (Some ErrResourceLimitExceeded)))
           else
             match mem_Maximum memType with
             | Some max =>
                 if uint32 max >? maxPages then
                   Some (Err (NewValidationError "memory-limits"
                                "memory pages exceed custom limit"
                                (Some ErrResourceLimitExceeded)))
                 else None
             | None => None
             end
       | None => None
       end)
    (Exports wmod)).

Definition WithCustomMemoryLimits (maxPages : Z) : ValidatorOption :=
  fun dv =>
    Ok (AddCustomRule dv
          {| rule_Type := RuleTypeMemory;
             rule_Name := "custom-memory-limits";
             AllowList := [];
             DenyList := [];
             Validator := Some (custom_memory_limits maxPages) |}).

(** The [switch kind] of [validateType]: it has no [default], so for any
    other kind [typeName] keeps its zero value, the empty string. *)
Definition typeName (kind : ValKind) : string :=
  match kind with
  | KindI32 => "i32"
  | KindI64 => "i64"
  | KindF32 => "f32"
  | KindF64 => "f64"
  | KindExternref => "externref"
  | KindFuncref => "funcref"
  | KindOther _ => ""
  end.

(** [func validateType(kind wasmtime.ValKind, rule) error] *)
Definition validateType (kind : ValKind) (rule : SecurityRule) : result unit :=
  if len (DenyList rule) =? 0 then Ok tt
  else
    let typeName := typeName kind in
    or_nil (range
      (fun denied =>
         if String.eqb denied typeName then
           Some (Err (errorString ("type " ++ typeName ++ " is not allowed")))
         else None)
      (DenyList rule)).

(** The two inner loops of [validateInstructions] over a signature. *)
Definition validate_signature (ft : FuncType) (rule : SecurityRule)
  (param_msg result_msg : string) : option (result unit) :=
  then_
    (range
       (fun param =>
          return_if_err (validateType param rule)
            (fun err => NewValidationError param_msg (rule_Name rule)
                          (Some err)))
       (Params ft))
    (range
       (fun result =>
          return_if_err (validateType result rule)
            (fun err => NewValidationError result_msg (rule_Name rule)
                          (Some err)))
       (Results ft)).

(** [func validateInstructions(mod, rule) error] *)
Definition validateInstructions (wmod : Module) (rule : SecurityRule)
  : result unit :=
  let exports := Exports wmod in
  let imports := Imports wmod in
  or_nil (then_
    (range
       (fun exp =>
          match FuncType_of (exp_Type exp) with
          | Some ft =>
              validate_signature ft rule
                ("invalid parameter type in export " ++ exp_Name exp)
                ("invalid result type in export " ++ exp_Name exp)
          | None => None
          end)
       exports)
    (range
       (fun imp =>
          match FuncType_of (imp_Type imp) with
          | Some ft =>
              let importName :=
                match imp_Name imp with Some name => name | None => ""%string end in
              validate_signature ft rule
                ("invalid parameter type in import " ++ imp_Module imp
                   ++ "::" ++ importName)
                ("invalid result type in import " ++ imp_Module imp
                   ++ "::" ++ importName)
          | None => None
          end)
       imports)).

(** [param.Kind() == KindF32 || param.Kind() == KindF64], with the
    package's own constants [KindF32 = 2] and [KindF64 = 3], the values
    wasmtime gives to the two float kinds. *)
Definition is_float (kind : ValKind) : bool :=
  bool_decide (kind = KindF32) || bool_decide (kind = KindF64).

(** The body shared by the two inner loops of [validateFloatingPoint]. *)
Definition float_check (rule : SecurityRule) (kind : ValKind)
  : option (result unit) :=
  if is_float kind then
    if len (AllowList rule) >? 0 then Some (Ok tt)
    else Some (Err (NewValidationError
                      "floating point operations not allowed"
                      (rule_Name rule) None))
  else None.

(** [func validateFloatingPoint(mod, rule) error] *)
Definition validateFloatingPoint (wmod : Module) (rule : SecurityRule)
  : result unit :=
  let exports := Exports wmod in
  or_nil (range
    (fun exp =>
       match FuncType_of (exp_Type exp) with
       | Some funcType =>
           then_ (range (float_check rule) (Params funcType))
                 (range (float_check rule) (Results funcType))
       | None => None
       end)
    exports).

(** [func validateMemoryOperations(mod, rule) error] *)
Definition validateMemoryOperations (wmod : Module) (rule : SecurityRule)
  : result unit :=
  or_nil (range
    (fun exp =>
       match MemoryType_of (exp_Type exp) with
       | Some memType =>
           then_
             (range
                (fun denied =>
                   if String.eqb denied "memory.grow" then
                     match mem_Maximum memType with
                     | None =>
                         Some (Err (NewValidationError
                                      "unbounded memory growth not allowed"
                                      (rule_Name rule) None))
                     | Some _ => None
                     end
                   else None)
                (DenyList rule))
             (if len (AllowList rule) >? 0 then Some (Ok tt) else None)
       | None => None
       end)
    (Exports wmod)).

(** The [switch rule.Type] in the loop of [ValidateSecurityRules]. *)
Definition apply_rule (wmod : Module) (rule : SecurityRule)
  : option (result unit) :=
  if String.eqb (rule_Type rule) RuleTypeInstruction then
    return_if_err (validateInstructions wmod rule) (fun err => err)
  else if String.eqb (rule_Type rule) RuleTypeFloatingPoint then
    return_if_err (validateFloatingPoint wmod rule) (fun err => err)
  else if String.eqb (rule_Type rule) RuleTypeMemory then
    return_if_err (validateMemoryOperations wmod rule) (fun err => err)
  else if String.eqb (rule_Type rule) RuleTypeCustom then
    match Validator rule with
    | Some validator =>
        return_if_err (validator wmod)
          (fun err => NewValidationError "custom validation failed"
                        (rule_Name rule) (Some err))
    | None => None
    end
  else None.

(** [func (v *DefaultValidator) ValidateSecurityRules(mod, rules) error] *)
Definition ValidateSecurityRules (wmod : Module) (rules : list SecurityRule)
  : result unit :=
  or_nil (range (apply_rule wmod) rules).

Definition is_func (t : ExternType) : bool :=
  match FuncType_of t with Some _ => true | None => false end.

Definition is_global (t : ExternType) : bool :=
  match GlobalType_of t with Some _ => true | None => false end.

Definition resource_limit_error (msg : string) : error :=
  NewValidationError msg "resource-limits" (Some ErrResourceLimitExceeded).

(** [ValidateResourceLimits], from ["Check function count"] to
    ["Check global count"]. *)
Definition check_counts (wmod : Module) (limits : ResourceLimits)
  : option (result unit) :=
  let exports := Exports wmod in
  let imports := Imports wmod in
  let funcCount := 0 in
  let funcCount := count_up (fun exp => is_func (exp_Type exp)) exports funcCount in
  let funcCount := count_up (fun imp => is_func (imp_Type imp)) imports funcCount in
  if funcCount >? MaxFunctions limits then
    Some (Err (resource_limit_error
                 ("function count " ++ itoa funcCount ++ " exceeds limit "
                    ++ itoa (MaxFunctions limits))))
  else if uint32 (len exports) >? MaxExports limits then
    Some (Err (resource_limit_error
                 ("export count " ++ itoa (len exports) ++ " exceeds limit "
                    ++ itoa (MaxExports limits))))
  else if uint32 (len imports) >? MaxImports limits then
    Some (Err (resource_limit_error
                 ("import count " ++ itoa (len imports) ++ " exceeds limit "
                    ++ itoa (MaxImports limits))))
  else
    let globalCount := 0 in
    let globalCount :=
      count_up (fun exp => is_global (exp_Type exp)) exports globalCount in
    let globalCount :=
      count_up (fun imp => is_global (imp_Type imp)) imports globalCount in
    if globalCount >? MaxGlobals limits then
      Some (Err (resource_limit_error
                   ("global count " ++ itoa globalCount ++ " exceeds limit "
                      ++ itoa (MaxGlobals limits))))
    else None.

(** The body of the loop under ["Check memory limits"]. *)
Definition check_memory_export (limits : ResourceLimits) (exp : ExportType)
  : option (result unit) :=
  match MemoryType_of (exp_Type exp) with
  | Some memType =>
      let min := uint32 (mem_Minimum memType) in
      if min >? MaxMemoryPages limits then
        Some (Err (resource_limit_error
                     ("minimum memory pages " ++ itoa min ++ " exceeds limit "
                        ++ itoa (MaxMemoryPages limits))))
      else
        match mem_Maximum memType with
        | Some maxVal =>
            if uint32 maxVal >? MaxMemoryPages limits then
              Some (Err (resource_limit_error
                           ("maximum memory pages " ++ itoa maxVal
                              ++ " exceeds limit "
                              ++ itoa (MaxMemoryPages limits))))
            else None
        | None => None
        end
  | None => None
  end.

Definition check_memory (wmod : Module) (limits : ResourceLimits)
  : option (result unit) :=
  range (check_memory_export limits) (Exports wmod).

(** The body of the loop under ["Check table limits"]. *)
Definition check_table_export (limits : ResourceLimits) (exp : ExportType)
  : option (result unit) :=
  match TableType_of (exp_Type exp) with
  | Some tableType =>
      let min := uint32 (tab_Minimum tableType) in
      if min >? MaxTableSize limits then
        Some (Err (resource_limit_error
                     ("minimum table size " ++ itoa min ++ " exceeds limit "
                        ++ itoa (MaxTableSize limits))))
      else
        match tab_Maximum tableType with
        | Some maxVal =>
            if uint32 maxVal >? MaxTableSize limits then
              Some (Err (resource_limit_error
                           ("maximum table size " ++ itoa maxVal
                              ++ " exceeds limit "
                              ++ itoa (MaxTableSize limits))))
            else None
        | None => None
        end
  | None => None
  end.

Definition check_tables (wmod : Module) (limits : ResourceLimits)
  : option (result unit) :=
  range (check_table_export limits) (Exports wmod).

(** [func (v *DefaultValidator) ValidateResourceLimits(mod, limits) error] *)
Definition ValidateResourceLimits (wmod : Module) (limits : ResourceLimits)
  : result unit :=
  or_nil (then_ (check_counts wmod limits)
         (then_ (check_memory wmod limits)
                (check_tables wmod limits))).

(** The first statement of [ValidateModule] (["Check contract size"]). *)
Definition check_size (v : DefaultValidator) (wasm : bytes)
  : option (result unit) :=
  let limit := MaxContractSize (cfg_ResourceLimits (config v)) in
  if uint32 (len wasm) >? limit then
    Some (Err (NewValidationError
                 ("contract size " ++ itoa (len wasm)
                    ++ " exceeds maximum allowed " ++ itoa limit)
                 "contract-size"
                 (Some ErrResourceLimitExceeded)))
  else None.

(** [func (v *DefaultValidator) ValidateModule(bytes, engine) error] *)
Definition ValidateModule (v : DefaultValidator) (wasm : bytes)
  (engine : Engine) : result unit :=
  or_nil (then_ (check_size v wasm)
    match NewModule engine wasm with
    | Ok wmod =>
        then_ (return_if_err (ValidateSecurityRules wmod (defaultRules v))
                             (fun err => err))
       (then_ (if len (customRules v) >? 0 then
                 return_if_err (ValidateSecurityRules wmod (customRules v))
                               (fun err => err)
               else None)
              (Some (ValidateResourceLimits wmod
                       (cfg_ResourceLimits (config v)))))
    | Err err =>
        Some (Err (NewValidationError "failed to parse module" "parse"
                     (Some err)))
    | Panic msg => Some (Panic msg)
    end).

End validators.

(** ** [runtime/runtime.go]: the checks of [WasmRuntime] itself *)

(** [cache.Cacher[string, *wasmtime.Module]] of avalanchego, through the
    two methods [getModule] calls. *)
Class Cacher (C : Type) := {
  Cacher_Get : C -> bytes -> option wasmtime.Module * C;
  Cacher_Put : C -> bytes -> wasmtime.Module -> C
}.

Module WasmRuntime.

Import wasmtime.

(** [type WasmRuntime struct], with the fields the two checks read. *)
Record t : Type := mk {
  engine : Engine;
  limits : ResourceLimits
}.

(** [func (r *WasmRuntime) validateModule(bytes []byte) error] *)
Definition validateModule (r : t) (wasm : bytes) : result unit :=
  match NewModule (engine r) wasm with
  | Ok wmod =>
      let exports := Exports wmod in
      let imports := Imports wmod in
      let funcCount := uint32 (len exports + len imports) in
      if funcCount >? MaxFunctions (limits r) then
        Err (NewValidationError
               ("function count " ++ itoa funcCount
                  ++ " exceeds maximum allowed "
                  ++ itoa (MaxFunctions (limits r)))
               "function-count" None)
      else if uint32 (len imports) >? MaxImports (limits r) then
        Err (NewValidationError
               ("import count " ++ itoa (len imports)
                  ++ " exceeds maximum allowed "
                  ++ itoa (MaxImports (limits r)))
               "import-count" None)
      else if uint32 (len exports) >? MaxExports (limits r) then
        Err (NewValidationError
               ("export count " ++ itoa (len exports)
                  ++ " exceeds maximum allowed "
                  ++ itoa (MaxExports (limits r)))
               "export-count" None)
      else Ok tt
  | Err err => Err (NewValidationError "failed to parse module" "" (Some err))
  | Panic msg => Panic msg
  end.

(** ["Validate contract size"] in [getModule]. *)
Definition check_size (r : t) (contractBytes : bytes) : option (result unit) :=
  if uint32 (len contractBytes) >? MaxContractSize (limits r) then
    Some (Err (NewValidationError
                 ("contract size " ++ itoa (len contractBytes)
                    ++ " exceeds maximum allowed size "
                    ++ itoa (MaxContractSize (limits r)))
                 "contract-size" None))
  else None.

(** [func (r *WasmRuntime) getModule(ctx, callInfo, id []byte)], given
    what [callInfo.State.GetContractBytes(ctx, id)] returns. *)
Definition getModule {C} `{Cacher C} (r : t)
  (GetContractBytes : bytes -> result bytes) (cache : C) (id : bytes)
  : result Module * C :=
  match Cacher_Get cache id with
  | (Some wmod, cache) => (Ok wmod, cache)
  | (None, cache) =>
      match GetContractBytes id with
      | Ok contractBytes =>
          match check_size r contractBytes with
          | Some (Err err) => (Err err, cache)
          | Some (Panic msg) => (Panic msg, cache)
          | _ =>
              match validateModule r contractBytes with
              | Ok _ =>
                  match NewModule (engine r) contractBytes with
                  | Ok wmod => (Ok wmod, Cacher_Put cache id wmod)
                  | Err err =>
                      (Err (NewValidationError "failed to create module" ""
                              (Some err)), cache)
                  | Panic msg => (Panic msg, cache)
                  end
              | Err err => (Err err, cache)
              | Panic msg => (Panic msg, cache)
              end
          end
      | Err err => (Err err, cache)
      | Panic msg => (Panic msg, cache)
      end
  end.

End WasmRuntime.

(** ** Vocabulary of the statements below *)

(** The world [w] with [n] in the fuel cell. *)
Definition set_fuel {S} (w : World S) (n : Z) : World S :=
  mkWorld (mkMachine (state (machine w)) (Some n) (memory (machine w))
                     (result_ (machine w)))
          (trace w).

(** A computation only ever appends to the trace. *)
Definition extends {S A} (m : M S A) : Prop :=
  forall w, exists evs, trace (snd (m w)) = trace w ++ evs.

(** A computation leaves the trace alone. *)
Definition silent {S A} (m : M S A) : Prop :=
  forall w, trace (snd (m w)) = trace w.

(** The error of [validateMemoryOperations]. *)
Definition unbounded_growth_error (rule : SecurityRule) : error :=
  NewValidationError "unbounded memory growth not allowed" (rule_Name rule)
                     None.

(** One of the three options of [rules.go]. *)
Definition ready_made (opt : validators.ValidatorOption) : Prop :=
  opt = validators.WithDeterministicFloatingPoint \/
  opt = validators.WithRestrictedInstructions \/
  exists maxPages, opt = validators.WithCustomMemoryLimits maxPages.

(** ** Concrete inputs for the examples *)

Module Fixtures.

(** One possible [String] method: the raw bytes of the address. *)
Definition raw_stringer : AddressStringer := codec.slice.

Definition addr1 : codec.Address := vreplicate codec.AddressLen x01.
Definition addr2 : codec.Address := vreplicate codec.AddressLen x02.
Definition action : ids.ID := vreplicate ids.IDLen x03.

Definition empty_state : option SimulatorState.t :=
  Some (SimulatorState.mk 0 ∅).

(** A simulator state in which [addr1] holds 1000. *)
Definition funded : SimulatorState.t :=
  @SimulatorState.store_balance raw_stringer (SimulatorState.mk 0 ∅) addr1
    (PutUint64_BE 1000).

(** Test balances in which [addr1] holds 100. *)
Definition poor : TestStateManager.t := {[ codec.slice addr1 := 100 ]}.

(** A guest whose allocator always answers [offset], and whose entry point
    [run] does nothing. *)
Definition guest (offset : Z) : Instance TestStateManager.t :=
  fun name =>
    if String.eqb name "alloc" then
      Some (ExternFunc (fun m _ => (Ok (ValI32 offset), m)))
    else if String.eqb name "memory" then Some ExternMemory
    else if String.eqb name "run" then
      Some (ExternFunc (fun m _ => (Ok ValNil, m)))
    else None.

Definition callInfo (params : bytes) (value : Z) : CallInfo :=
  {| Actor := addr1;
     FunctionName := "run";
     Contract := addr2;
     Params := params;
     Fuel := 1000;
     Height := 7;
     Timestamp := 9;
     ActionID := action;
     Value := value |}.

(** A fresh store: no fuel yet, [size] zero bytes of linear memory. *)
Definition world (balances : TestStateManager.t) (size : nat)
  : World TestStateManager.t :=
  mkWorld (mkMachine balances (Some 0) (make size) []) [].

(** The context prefix of [callInfo]. *)
Definition prefix : bytes :=
  codec.slice addr2 ++ codec.slice addr1 ++ PutUint64_LE 7 ++ PutUint64_LE 9
    ++ ids.slice action.

Import wasmtime validators.

Definition nop : ExternType := Func (mkFuncType [] []).

(** Two exported functions and one exported global. *)
Definition small_module : Module :=
  mkModule [ mkExport "f" nop; mkExport "g" nop; mkExport "counter" Global ]
           [].

(** A module that imports a memory of 17 pages without a maximum. *)
Definition imports_memory : Module :=
  mkModule []
           [ mkImport "env" (Some "memory"%string)
                      (Memory (mkMemoryType 17 None)) ].

(** A module that exports a memory of one page without a maximum. *)
Definition exports_unbounded : Module :=
  mkModule [ mkExport "memory" (Memory (mkMemoryType 1 None)) ] [].

(** A custom rule that rejects every module. *)
Definition always_fails : SecurityRule :=
  {| rule_Type := RuleTypeCustom;
     rule_Name := "always-fails";
     AllowList := [];
     DenyList := [];
     Validator := Some (fun _ => Err ErrInvalidModule) |}.

(** Limits that allow no function at all. *)
Definition no_functions : ResourceLimits :=
  {| MaxContractSize := 1048576;
     MaxFunctions := 0;
     MaxImports := 100;
     MaxExports := 100;
     MaxGlobals := 100;
     MaxInitialMemoryPages := 4;
     MaxMemoryPages := 16;
     MaxTableSize := 10000 |}.

Definition strict_validator : DefaultValidator :=
  {| defaultRules := defaultSecurityRules;
     customRules := [always_fails];
     config := {| cfg_ResourceLimits := no_functions;
                  DefaultRules := true;
                  CustomRules := [always_fails] |} |}.

Definition default_validator : DefaultValidator :=
  {| defaultRules := defaultSecurityRules;
     customRules := [];
     config := DefaultValidatorConfig |}.

(** An engine that compiles every input to the given module. *)
Definition engine_of (wmod : Module) : Engine := fun _ => Ok wmod.

(** The largest limit a [uint32] can hold, and a validator using it. *)
Definition largest_limits : ResourceLimits :=
  {| MaxContractSize := 4294967295;
     MaxFunctions := 1000;
     MaxImports := 100;
     MaxExports := 100;
     MaxGlobals := 100;
     MaxInitialMemoryPages := 4;
     MaxMemoryPages := 16;
     MaxTableSize := 10000 |}.

Definition largest_validator : DefaultValidator :=
  {| defaultRules := defaultSecurityRules;
     customRules := [];
     config := {| cfg_ResourceLimits := largest_limits;
                  DefaultRules := true;
                  CustomRules := [] |} |}.

(** A byte slice of [2 ^ 32] bytes. *)
Definition four_gib : bytes := repeat x00 (Z.to_nat 4294967296).

End Fixtures.

(** ** [runtime/runtime.go]: error text, instances and [CallContract] *)

(** [func (e *ValidationError) Error() string], with the [Error] methods of
    the other errors it prints through [%v]. *)
Fixpoint Error (e : error) : string :=
  match e with
  | errorString msg => msg
  | wrapError msg err => msg ++ Error err
  | ValidationError Message Rule Cause =>
      if negb (String.eqb Rule "") then
        match Cause with
        | Some cause =>
            "validation failed for rule " ++ Rule ++ ": " ++ Message ++ ": "
              ++ Error cause
        | None => "validation failed for rule " ++ Rule ++ ": " ++ Message
        end
      else
        match Cause with
        | Some cause => "validation error: " ++ Message ++ ": " ++ Error cause
        | None => "validation error: " ++ Message
        end
  end.

(** [func (e *ValidationError) Unwrap() error], and what [errors.Unwrap]
    gives for the other errors. *)
Definition Unwrap (e : error) : option error :=
  match e with
  | errorString _ => None
  | wrapError _ err => Some err
  | ValidationError _ _ Cause => Cause
  end.

(** [type ContractManager interface], through the two lookups that
    [CallContract] and [getModule] make.  In the implementations of the
    sources both only read the state. *)
Class ContractManager (S : Type) := {
  ContractManager_GetAccountContract : S -> codec.Address -> result ContractID;
  ContractManager_GetContractBytes : S -> ContractID -> result bytes
}.

#[global] Instance SimulatorState_ContractManager
  : ContractManager (option SimulatorState.t) := {
  ContractManager_GetAccountContract := SimulatorState.GetAccountContract;
  ContractManager_GetContractBytes := SimulatorState.GetContractBytes
}.

(** The engine and the linker of a [WasmRuntime], through what
    [wasmtime.NewStore] and [linker.Instantiate] do: a new store has fuel 0
    when the engine meters fuel and no fuel cell otherwise; instantiation
    runs on the machine of the new store, gives it the instance's linear
    memory, and may fail. *)
Record Linker (S : Type) : Type := mkLinker {
  fuel_metering : bool;
  Instantiate :
    Machine S -> wasmtime.Module -> result (Instance S) * Machine S
}.
Arguments mkLinker {S}.
Arguments fuel_metering {S}.
Arguments Instantiate {S}.

(** [wasmtime.NewStore(r.engine)] for a call against the state [s]. *)
Definition NewStore {S} (linker : Linker S) (s : S) : Machine S :=
  mkMachine s (if fuel_metering linker then Some 0 else None) [] [].

(** [func (r *WasmRuntime) getInstance(contractModule)]: the instance, or
    the wrapped error, and the machine of the store it created. *)
Definition getInstance {S} (linker : Linker S) (s : S)
  (contractModule : wasmtime.Module) : result (Instance S) * Machine S :=
  let store := NewStore linker s in
  match Instantiate linker store contractModule with
  | (Ok inst, m) => (Ok inst, m)
  | (Err err, m) =>
      (Err (NewValidationError "failed to instantiate module" "" (Some err)), m)
  | (Panic msg, m) => (Panic msg, m)
  end.

(** What a [WasmRuntime] and its surroundings hold between calls: the
    state behind [callInfo.State], the module cache, the [callerInfo] map
    (keyed by the store's context pointer) and the trace. *)
Record RuntimeState (S C : Type) : Type := mkRuntimeState {
  rs_state : S;
  rs_cache : C;
  rs_callerInfo : gmap Z CallInfo;
  rs_trace : list Event
}.
Arguments mkRuntimeState {S C}.
Arguments rs_state {S C}.
Arguments rs_cache {S C}.
Arguments rs_callerInfo {S C}.
Arguments rs_trace {S C}.

(** [func (r *WasmRuntime) setCallInfo(storeLike, info)] and
    [deleteCallInfo(storeLike)], on the map. *)
Definition setCallInfo (callerInfo : gmap Z CallInfo) (key : Z)
  (info : CallInfo) : gmap Z CallInfo :=
  <[key := info]> callerInfo.

Definition getCallInfo (callerInfo : gmap Z CallInfo) (key : Z)
  : option CallInfo :=
  callerInfo !! key.

Definition deleteCallInfo (callerInfo : gmap Z CallInfo) (key : Z)
  : gmap Z CallInfo :=
  delete key callerInfo.

(** [func (r *WasmRuntime) CallContract(ctx, callInfo) ([]byte, error)];
    [key] is [toMapKey] of the store that [getInstance] creates.  The
    deferred [deleteCallInfo] runs however [inst.call] ends. *)
Definition CallContract {S C} `{BalanceManager S} `{ContractManager S}
  `{Cacher C} (r : WasmRuntime.t) (linker : Linker S) (key : Z)
  (callInfo : CallInfo) (rs : RuntimeState S C)
  : result bytes * RuntimeState S C :=
  match ContractManager_GetAccountContract (rs_state rs) (Contract callInfo) with
  | Ok contractID =>
      match WasmRuntime.getModule r
              (ContractManager_GetContractBytes (rs_state rs))
              (rs_cache rs) contractID with
      | (Ok contractModule, cache) =>
          match getInstance linker (rs_state rs) contractModule with
          | (Ok inst, store) =>
              let callerInfo := setCallInfo (rs_callerInfo rs) key callInfo in
              let (res, w) := call inst callInfo (mkWorld store (rs_trace rs)) in
              (res,
               mkRuntimeState (state (machine w)) cache
                              (deleteCallInfo callerInfo key) (trace w))
          | (Err err, store) =>
              (Err err,
               mkRuntimeState (state store) cache (rs_callerInfo rs)
                              (rs_trace rs))
          | (Panic msg, store) =>
              (Panic msg,
               mkRuntimeState (state store) cache (rs_callerInfo rs)
                              (rs_trace rs))
          end
      | (Err err, cache) =>
          (Err err,
           mkRuntimeState (rs_state rs) cache (rs_callerInfo rs) (rs_trace rs))
      | (Panic msg, cache) =>
          (Panic msg,
           mkRuntimeState (rs_state rs) cache (rs_callerInfo rs) (rs_trace rs))
      end
  | Err err => (Err err, rs)
  | Panic msg => (Panic msg, rs)
  end.

(** ** [runtime/resources/balance.go] and [resource_rules/balance.go] *)

Definition ErrInvalidResourceData : error :=
  errorString "invalid resource data".
Definition ErrNegativeBalance : error := errorString "negative balance".
Definition ErrInvalidData : error := errorString "invalid balance data".

Module BalanceResource.

(** [type BalanceResource struct]; the resource type is the fixed
    ["Balance"] type with abilities [key] and [store]. *)
Record t : Type := mk {
  id : vec byte 32;
  owner : codec.Address;
  amount : Z;
  moved : bool
}.

(** [func NewBalanceResource(id, owner, amount) *BalanceResource] *)
Definition NewBalanceResource (id : vec byte 32) (owner : codec.Address)
  (amount : Z) : t :=
  {| id := id; owner := owner; amount := amount; moved := false |}.

(** [func (b *BalanceResource) Data() []byte] *)
Definition Data (b : t) : bytes := PutUint64_BE (amount b).

(** [func (b *BalanceResource) Marshal() ([]byte, error)] *)
Definition Marshal (b : t) : result bytes := Ok (Data b).

(** [func (b *BalanceResource) Unmarshal(data []byte) error], with the
    resource after the call. *)
Definition Unmarshal (b : t) (data : bytes) : result unit * t :=
  if len data <? 8 then (Err ErrInvalidResourceData, b)
  else
    match Uint64_BE data with
    | Ok v =>
        (Ok tt,
         {| id := id b; owner := owner b; amount := v; moved := moved b |})
    | Err e => (Err e, b)
    | Panic msg => (Panic msg, b)
    end.

End BalanceResource.

(** [func ValidateBalanceNotNegative(resource core.Resource) error], given
    what [resource.Data()] returns; a nil resource is [None]. *)
Definition ValidateBalanceNotNegative (resource : option bytes) : result unit :=
  match resource with
  | None => Panic "invalid memory address or nil pointer dereference"
  | Some data =>
      if len data <? 8 then Err ErrInvalidData
      else
        match Uint64_BE data with
        | Ok amount =>
            if amount =? 0 then Err ErrNegativeBalance else Ok tt
        | Err e => Err e
        | Panic msg => Panic msg
        end
  end.

(** ** Further concrete inputs *)

Module Scenarios.

Import Fixtures.

Definition empty_simulator : SimulatorState.t := SimulatorState.mk 0 ∅.

Definition key_a : bytes := bytes_of_string "a".
Definition key_b : bytes := bytes_of_string "b".

(** A simulator state in which [addr1] holds the largest [uint64]. *)
Definition rich : SimulatorState.t :=
  @SimulatorState.store_balance raw_stringer empty_simulator addr1
    (PutUint64_BE 18446744073709551615).

(** A call of a function that [guest] does not export. *)
Definition call_missing (value : Z) : CallInfo :=
  {| Actor := addr1;
     FunctionName := "absent";
     Contract := addr2;
     Params := [];
     Fuel := 1000;
     Height := 7;
     Timestamp := 9;
     ActionID := action;
     Value := value |}.

(** The context of [callInfo]. *)
Definition context : ContractContext :=
  {| ctx_Contract := addr2;
     ctx_Actor := addr1;
     ctx_Height := 7;
     ctx_Timestamp := 9;
     ctx_ActionID := action |}.

(** A cache that never evicts. *)
Definition map_cache : Cacher (gmap bytes wasmtime.Module) :=
  {| Cacher_Get := fun c id => (c !! id, c);
     Cacher_Put := fun c id wmod => <[id := wmod]> c |}.

(** A linker whose instantiation always fails. *)
Definition failing_linker : Linker (option SimulatorState.t) :=
  mkLinker true (fun m _ => (Err (errorString "link error"), m)).

(** A call through a fresh runtime on an empty simulator state. *)
Definition fresh_runtime
  : RuntimeState (option SimulatorState.t) (gmap bytes wasmtime.Module) :=
  mkRuntimeState (Some empty_simulator) ∅ ∅ [].

(** A module that exports a memory of exactly two pages. *)
Definition two_pages : wasmtime.Module :=
  wasmtime.mkModule
    [ wasmtime.mkExport "memory"
        (wasmtime.Memory (wasmtime.mkMemoryType 2 (Some 2))) ]
    [].

(** Balance resources of 100 and of 0. *)
Definition hundred : BalanceResource.t :=
  BalanceResource.NewBalanceResource (vreplicate 32 x00) addr1 100.
Definition nothing : BalanceResource.t :=
  BalanceResource.NewBalanceResource (vreplicate 32 x00) addr1 0.

End Scenarios.

(** * Properties *)

(** ** Bytes and fixed-width integers *)

Module GoFacts.

Lemma Z_of_byte_range (b : byte) : 0 <= Z_of_byte b < 256.
Proof.
  unfold Z_of_byte. pose proof (Byte.to_N_bounded b). lia.
Qed.

Lemma Z_of_byte_of_Z (z : Z) : Z_of_byte (byte_of_Z z) = z mod 256.
Proof.
  unfold Z_of_byte, byte_of_Z.
  assert (Hr : 0 <= z mod 256 < 256) by (apply Z.mod_pos_bound; lia).
  destruct (Byte.of_N (Z.to_N (z mod 256))) as [b|] eqn:E.
  - apply Byte.to_of_N in E. rewrite E. lia.
  - apply Byte.of_N_None_iff in E. lia.
Qed.

Lemma byte_of_Z_of_byte (b : byte) : byte_of_Z (Z_of_byte b) = b.
Proof.
  unfold byte_of_Z. pose proof (Z_of_byte_range b) as Hr.
  rewrite Z.mod_small by exact Hr.
  unfold Z_of_byte. rewrite N2Z.id, Byte.of_to_N. reflexivity.
Qed.

(** One byte of a big- or little-endian encoding, seen bit by bit. *)
Lemma shifted_byte_bit (v k n : Z) :
  0 <= k -> 0 <= n ->
  Z.testbit (Z.shiftl (Z_of_byte (byte_of_Z (Z.shiftr v k))) k) n
  = (k <=? n) && (n <? k + 8) && Z.testbit v n.
Proof.
  intros Hk Hn.
  rewrite Z.shiftl_spec by lia. rewrite Z_of_byte_of_Z.
  change 256 with (2 ^ 8).
  destruct (Z.leb_spec k n) as [Hle|Hlt].
  - rewrite Z.testbit_mod_pow2 by lia.
    rewrite Z.shiftr_spec by lia.
    replace (n - k + k) with n by lia.
    destruct (Z.ltb_spec (n - k) 8), (Z.ltb_spec n (k + 8)); try lia; reflexivity.
  - rewrite Z.testbit_neg_r by lia. reflexivity.
Qed.

Lemma testbit_uint64_high (v n : Z) :
  0 <= v < 2 ^ 64 -> 64 <= n -> Z.testbit v n = false.
Proof.
  intros Hv Hn.
  destruct (Z.eq_dec v 0) as [->|Hnz]; [apply Z.testbit_0_l|].
  apply Z.bits_above_log2; [lia|].
  assert (Z.log2 v < 64) by (apply Z.log2_lt_pow2; lia). lia.
Qed.

Ltac decide_bounds :=
  repeat match goal with
  | |- context [?a <=? ?b] =>
      first [ rewrite (proj2 (Z.leb_le a b)) by lia
            | rewrite (proj2 (Z.leb_gt a b)) by lia ]
  | |- context [?a <? ?b] =>
      first [ rewrite (proj2 (Z.ltb_lt a b)) by lia
            | rewrite (proj2 (Z.ltb_ge a b)) by lia ]
  end.

(** [binary.BigEndian.Uint64] reads back what [PutUint64] wrote. *)
Lemma Uint64_BE_PutUint64_BE (v : Z) :
  0 <= v < 2 ^ 64 -> Uint64_BE (PutUint64_BE v) = Ok v.
Proof.
  intros Hv. unfold PutUint64_BE, Uint64_BE. f_equal.
  apply Z.bits_inj'. intros n Hn.
  rewrite <- (Z.shiftl_0_r (Z_of_byte (byte_of_Z v))).
  rewrite <- (Z.shiftr_0_r v) at 1.
  rewrite !Z.lor_spec.
  rewrite !shifted_byte_bit by lia.
  destruct (Z.testbit v n) eqn:Hb.
  - assert (Hlt : n < 64).
    { destruct (Z.lt_ge_cases n 64) as [|Hge]; [assumption|].
      rewrite (testbit_uint64_high v n Hv Hge) in Hb. discriminate. }
    assert (Hcase : n < 8 \/ 8 <= n < 16 \/ 16 <= n < 24 \/ 24 <= n < 32 \/
                    32 <= n < 40 \/ 40 <= n < 48 \/ 48 <= n < 56 \/ 56 <= n)
      by lia.
    decompose [or] Hcase; decide_bounds; reflexivity.
  - rewrite !andb_false_r. reflexivity.
Qed.

Lemma length_PutUint64_BE (v : Z) : length (PutUint64_BE v) = 8%nat.
Proof. reflexivity. Qed.

Lemma length_PutUint64_LE (v : Z) : length (PutUint64_LE v) = 8%nat.
Proof. reflexivity. Qed.

(** The eight bytes written by the little-endian encoder denote the value,
    least significant byte first. *)
Lemma LE_value_PutUint64_LE (v : Z) :
  0 <= v < 2 ^ 64 -> LE_value (PutUint64_LE v) = v.
Proof.
  intros Hv. unfold PutUint64_LE, LE_value.
  rewrite !Z_of_byte_of_Z, !Z.shiftr_div_pow2 by lia.
  rewrite <- (Z.mod_small v (2 ^ 64)) at 9 by lia.
  change (2 ^ 64) with (256 * (256 * (256 * (256 * (256 * (256 * (256 * 256))))))).
  rewrite !Z.rem_mul_r by lia.
  rewrite !Z.div_div by lia.
  change (2 ^ 8) with 256. change (2 ^ 16) with (256 * 256).
  change (2 ^ 24) with (256 * 256 * 256).
  change (2 ^ 32) with (256 * 256 * 256 * 256).
  change (2 ^ 40) with (256 * 256 * 256 * 256 * 256).
  change (2 ^ 48) with (256 * 256 * 256 * 256 * 256 * 256).
  change (2 ^ 56) with (256 * 256 * 256 * 256 * 256 * 256 * 256).
  lia.
Qed.

(** [copy] into a destination at least as long as the source. *)
Lemma copy_fits (dst src : bytes) :
  (length src <= length dst)%nat ->
  copy dst src = src ++ skipn (length src) dst.
Proof.
  intros Hle. unfold copy.
  rewrite Nat.min_r by lia. rewrite firstn_all. reflexivity.
Qed.

Lemma copy_length (dst src : bytes) : length (copy dst src) = length dst.
Proof.
  unfold copy. rewrite length_app, length_firstn, length_skipn. lia.
Qed.

(** [copy] into a nil or empty slice copies nothing. *)
Lemma copy_nil (src : bytes) : copy [] src = [].
Proof. unfold copy. simpl. reflexivity. Qed.

End GoFacts.

(** ** Contract-scoped keys *)

Module KeyFacts.

Import GoFacts.

Lemma length_slice (a : codec.Address) : length (codec.slice a) = 33%nat.
Proof. unfold codec.slice. apply length_vec_to_list. Qed.

Lemma len_slice_nonzero (a : codec.Address) : (len (codec.slice a) =? 0) = false.
Proof. unfold len. rewrite length_slice. reflexivity. Qed.

Lemma skipn_make (n k : nat) : skipn n (make (n + k)) = make k.
Proof.
  unfold make. induction n as [|n IH]; simpl; [reflexivity | exact IH].
Qed.

Lemma copy_make (src : bytes) (k : nat) :
  copy (make (length src + k)) src = src ++ make k.
Proof.
  rewrite copy_fits by (unfold make; rewrite repeat_length; lia).
  rewrite skipn_make. reflexivity.
Qed.

(** The three [copy] calls of [prependAccountToKey] lay out the account,
    the separator and the key one after the other. *)
Lemma prependAccountToKey_spec (account : codec.Address) (key : bytes) :
  prependAccountToKey account key
  = codec.slice account ++ bytes_of_string "/" ++ key.
Proof.
  unfold prependAccountToKey.
  set (a := codec.slice account).
  replace (length a + length key + 1)%nat
    with (length a + (1 + length key))%nat by lia.
  rewrite copy_make.
  rewrite !take_app_length, !drop_app_length.
  change (make (1 + length key))
    with (make (length (bytes_of_string "/") + length key)).
  rewrite copy_make.
  rewrite !app_assoc.
  replace (length a + 1)%nat with (length (a ++ bytes_of_string "/"))
    by (rewrite length_app; reflexivity).
  rewrite take_app_length, drop_app_length.
  replace (make (length key)) with (make (length key + 0))
    by (f_equal; lia).
  rewrite copy_make. unfold make. simpl repeat. rewrite app_nil_r.
  reflexivity.
Qed.

End KeyFacts.

(** ** The simulator state *)

Module StateFacts.

Import GoFacts KeyFacts Fixtures.

(** C2 (as amended).  The runtime's [prefixedState] forwards every get,
    insert and remove, for every key, under the 33 address bytes followed
    by ['/'] and the key.  The simulator's [ContractState] forwards them
    under the 33 address bytes followed directly by the key, and an empty
    key is refused with ["empty key"] before anything is forwarded. *)
Theorem state_operations_key_prefix :
  (forall (S : Type) (MS : Mutable S) (A : codec.Address) (inner : S)
          (key value : bytes),
      let k := codec.slice A ++ bytes_of_string "/" ++ key in
      length (codec.slice A) = 33%nat /\
      prefixedState.GetValue A inner key = Mutable_GetValue inner k /\
      prefixedState.Insert A inner key value = Mutable_Insert inner k value /\
      prefixedState.Remove A inner key = Mutable_Remove inner k)
  /\
  (forall (s : option SimulatorState.t) (A : codec.Address)
          (key value : bytes),
      let c := GetContractState s A in
      let k := codec.slice A ++ key in
      match key with
      | [] =>
          ContractState.GetValue c key = Err (errorString "empty key") /\
          ContractState.Insert c key value
            = (Err (errorString "empty key"), s) /\
          ContractState.Remove c key = (Err (errorString "empty key"), s)
      | _ :: _ =>
          ContractState.GetValue c key = SimulatorState.GetValue s k /\
          ContractState.Insert c key value = SimulatorState.Insert s k value /\
          ContractState.Remove c key = SimulatorState.Remove s k
      end).
Proof.
  split.
  - intros S MS A inner key value k. subst k.
    unfold prefixedState.GetValue, prefixedState.Insert, prefixedState.Remove.
    rewrite prependAccountToKey_spec.
    repeat split; try reflexivity. apply length_slice.
  - intros s A key value c k. subst c k.
    destruct key as [|b key]; [repeat split|].
    unfold ContractState.GetValue, ContractState.Insert, ContractState.Remove.
    assert (Hlen : (len (b :: key) =? 0) = false)
      by (unfold len; apply Z.eqb_neq; simpl length; lia).
    rewrite Hlen. repeat split.
Qed.

(** C2, as stated, fails on the simulator: an insert through the contract
    view of [addr1] with key ["k"] is not the insert under
    [addr1 ++ "/" ++ "k"]; afterwards the value is found under
    [addr1 ++ "k"] and nothing is stored under the separated key. *)
Lemma ContractState_key_has_no_separator :
  let c := GetContractState empty_state addr1 in
  let key := bytes_of_string "k" in
  let value := bytes_of_string "v" in
  let separated := codec.slice addr1 ++ bytes_of_string "/" ++ key in
  ContractState.Insert c key value
    <> SimulatorState.Insert empty_state separated value /\
  SimulatorState.GetValue (snd (ContractState.Insert c key value))
    (codec.slice addr1 ++ key) = Ok value /\
  SimulatorState.GetValue (snd (ContractState.Insert c key value))
    separated = Ok [].
Proof.
  cbv zeta. split; [|split; vm_compute; reflexivity].
  intros Heq.
  apply (f_equal (fun r => SimulatorState.GetValue (snd r)
                   (codec.slice addr1 ++ bytes_of_string "k"))) in Heq.
  vm_compute in Heq. discriminate Heq.
Qed.

(** C9.  After [SetAccountContract(a, id)] on a simulator state,
    [GetAccountContract(a)] never returns [id]: for a 32-byte [id] it
    returns the empty ContractID, and for any other length the error
    ["invalid contract ID length"]. *)
Theorem GetAccountContract_after_SetAccountContract
  (st : SimulatorState.t) (a : codec.Address) (id : ContractID) :
  let s' := snd (SimulatorState.SetAccountContract (Some st) a id) in
  fst (SimulatorState.SetAccountContract (Some st) a id) = Ok tt /\
  SimulatorState.GetAccountContract s' a
    = (if len id =? 32 then Ok []
       else Err (errorString "invalid contract ID length")) /\
  SimulatorState.GetAccountContract s' a <> Ok id.
Proof.
  cbv zeta.
  unfold SimulatorState.SetAccountContract, SimulatorState.Insert.
  rewrite len_slice_nonzero. simpl fst. simpl snd.
  unfold SimulatorState.GetAccountContract, SimulatorState.GetValue.
  rewrite len_slice_nonzero. simpl SimulatorState.data.
  rewrite lookup_insert_eq.
  split; [reflexivity|].
  destruct (len id =? 32) eqn:Hlen; simpl negb; cbv iota.
  - rewrite copy_nil. split; [reflexivity|].
    intros Heq. injection Heq as <-. discriminate Hlen.
  - split; [reflexivity | discriminate].
Qed.

(** C9 at a concrete input: the contract ID of 32 bytes [0x09], set for
    [addr1] on the empty state, is read back as the empty ContractID. *)
Example GetAccountContract_loses_id :
  let id := repeat x09 32 in
  SimulatorState.GetAccountContract
    (snd (SimulatorState.SetAccountContract empty_state addr1 id)) addr1
  = Ok [].
Proof. vm_compute. reflexivity. Qed.

End StateFacts.

(** ** Balances of the simulator state *)

Module BalanceFacts.

Import GoFacts KeyFacts.

Lemma lor_range (n a b : Z) :
  0 <= n -> 0 <= a < 2 ^ n -> 0 <= b < 2 ^ n -> 0 <= Z.lor a b < 2 ^ n.
Proof.
  intros Hn Ha Hb.
  assert (Hnn : 0 <= Z.lor a b) by (apply Z.lor_nonneg; lia).
  split; [exact Hnn|].
  destruct (Z.eq_dec (Z.lor a b) 0) as [Hz|Hz]; [lia|].
  apply Z.log2_lt_pow2; [lia|].
  rewrite Z.log2_lor by lia.
  assert (Hla : a = 0 \/ Z.log2 a < n).
  { destruct (Z.eq_dec a 0); [left; assumption | right].
    apply Z.log2_lt_pow2; lia. }
  assert (Hlb : b = 0 \/ Z.log2 b < n).
  { destruct (Z.eq_dec b 0); [left; assumption | right].
    apply Z.log2_lt_pow2; lia. }
  destruct Hla as [->|Hla], Hlb as [->|Hlb].
  - exfalso. apply Hz. reflexivity.
  - change (Z.log2 0) with 0. pose proof (Z.log2_nonneg b). lia.
  - change (Z.log2 0) with 0. pose proof (Z.log2_nonneg a). lia.
  - lia.
Qed.

Lemma shifted_byte_range (b : byte) (k : Z) :
  0 <= k <= 56 -> 0 <= Z.shiftl (Z_of_byte b) k < 2 ^ 64.
Proof.
  intros Hk. pose proof (Z_of_byte_range b) as Hb.
  rewrite Z.shiftl_mul_pow2 by lia.
  assert (Hp : 0 < 2 ^ k) by (apply Z.pow_pos_nonneg; lia).
  assert (Hle : 2 ^ k <= 2 ^ 56) by (apply Z.pow_le_mono_r; lia).
  change (2 ^ 64) with (256 * 2 ^ 56). nia.
Qed.

(** A decoded balance is a [uint64]. *)
Lemma Uint64_BE_range (b : bytes) (v : Z) :
  Uint64_BE b = Ok v -> 0 <= v < 2 ^ 64.
Proof.
  destruct b as [|b0 [|b1 [|b2 [|b3 [|b4 [|b5 [|b6 [|b7 r]]]]]]]];
    simpl; try discriminate.
  intros Heq. injection Heq as <-.
  rewrite <- (Z.shiftl_0_r (Z_of_byte b7)).
  repeat (apply lor_range; [lia | apply shifted_byte_range; lia |]).
  apply shifted_byte_range; lia.
Qed.

Section WithStringer.
Context `{AddressStringer}.

Lemma GetBalance_range (s : option SimulatorState.t) (a : codec.Address)
  (v : Z) :
  SimulatorState.GetBalance s a = Ok v -> 0 <= v < 2 ^ 64.
Proof.
  unfold SimulatorState.GetBalance. destruct s as [st|]; [|discriminate].
  destruct (SimulatorState.data st !! SimulatorState.balanceKey a) as [value|].
  - apply Uint64_BE_range.
  - intros Heq. injection Heq as <-. lia.
Qed.

Lemma GetBalance_store_balance_eq (st : SimulatorState.t)
  (a : codec.Address) (v : Z) :
  0 <= v < 2 ^ 64 ->
  SimulatorState.GetBalance
    (Some (SimulatorState.store_balance st a (PutUint64_BE v))) a = Ok v.
Proof.
  intros Hv. unfold SimulatorState.GetBalance, SimulatorState.store_balance.
  simpl SimulatorState.data. rewrite lookup_insert_eq.
  apply Uint64_BE_PutUint64_BE. exact Hv.
Qed.

Lemma GetBalance_store_balance_ne (st : SimulatorState.t)
  (a b : codec.Address) (x : bytes) :
  SimulatorState.balanceKey a <> SimulatorState.balanceKey b ->
  SimulatorState.GetBalance (Some (SimulatorState.store_balance st a x)) b
  = SimulatorState.GetBalance (Some st) b.
Proof.
  intros Hne. unfold SimulatorState.GetBalance, SimulatorState.store_balance.
  simpl SimulatorState.data. rewrite lookup_insert_ne by exact Hne.
  reflexivity.
Qed.

Lemma uint64_range (z : Z) : 0 <= uint64 z < 2 ^ 64.
Proof. unfold uint64. apply Z.mod_pos_bound. lia. Qed.

(** The second half of [TransferBalance]: the destination's balance grows
    by [amount] in [uint64] arithmetic. *)
Lemma credit_spec (st : SimulatorState.t) (to : codec.Address)
  (amount toBalance : Z) :
  SimulatorState.GetBalance (Some st) to = Ok toBalance ->
  let s' := Some (SimulatorState.store_balance st to
                    (PutUint64_BE (uint64 (toBalance + amount)))) in
  SimulatorState.credit st to amount = (Ok tt, s') /\
  SimulatorState.GetBalance s' to = Ok (uint64 (toBalance + amount)).
Proof.
  intros Hto. cbv zeta. unfold SimulatorState.credit. rewrite Hto.
  split; [reflexivity|].
  apply GetBalance_store_balance_eq, uint64_range.
Qed.

(** C10 (as amended).  With the empty address as source, the simulator's
    [TransferBalance] reads and writes only the destination's balance and
    never answers ["insufficient balance"]; the destination's balance
    becomes [toBalance + amount] as a [uint64].  With any other source
    whose balance is [fromBalance]: if [fromBalance < amount] the call
    fails with ["insufficient balance"] and the state is unchanged;
    otherwise the source is written back with [fromBalance - amount] and
    then the destination, read after that write, with its balance plus
    [amount].  The [TransferBalance] of the runtime tests' state manager
    has no minting source: it checks the balance of every source, the
    empty address included, and an empty address without an entry cannot
    send any positive amount. *)
Theorem TransferBalance_mint_or_checked
  (st : SimulatorState.t) (from to : codec.Address) (amount : Z) :
  0 <= amount < 2 ^ 64 ->
  (fst (SimulatorState.TransferBalance (Some st) codec.EmptyAddress to amount)
     <> Err (errorString "insufficient balance")) /\
  (forall toBalance,
      SimulatorState.GetBalance (Some st) to = Ok toBalance ->
      let s' := Some (SimulatorState.store_balance st to
                        (PutUint64_BE (uint64 (toBalance + amount)))) in
      SimulatorState.TransferBalance (Some st) codec.EmptyAddress to amount
        = (Ok tt, s') /\
      SimulatorState.GetBalance s' to = Ok (uint64 (toBalance + amount))) /\
  (from <> codec.EmptyAddress ->
   forall fromBalance,
     SimulatorState.GetBalance (Some st) from = Ok fromBalance ->
     (fromBalance < amount ->
      SimulatorState.TransferBalance (Some st) from to amount
        = (Err (errorString "insufficient balance"), Some st)) /\
     (amount <= fromBalance ->
      let st1 := SimulatorState.store_balance st from
                   (PutUint64_BE (fromBalance - amount)) in
      SimulatorState.GetBalance (Some st1) from = Ok (fromBalance - amount) /\
      forall toBalance,
        SimulatorState.GetBalance (Some st1) to = Ok toBalance ->
        let s' := Some (SimulatorState.store_balance st1 to
                          (PutUint64_BE (uint64 (toBalance + amount)))) in
        SimulatorState.TransferBalance (Some st) from to amount = (Ok tt, s') /\
        SimulatorState.GetBalance s' to = Ok (uint64 (toBalance + amount)) /\
        (SimulatorState.balanceKey from <> SimulatorState.balanceKey to ->
         SimulatorState.GetBalance (Some st) to = Ok toBalance /\
         SimulatorState.GetBalance s' from = Ok (fromBalance - amount)))) /\
  (forall (balances : TestStateManager.t) (source : codec.Address),
      (forall balance,
          TestStateManager.GetBalance balances source = Ok balance ->
          balance < amount ->
          TestStateManager.TransferBalance balances source to amount
          = (Err (errorString "insufficient balance"), balances)) /\
      (balances !! codec.slice codec.EmptyAddress = None -> 0 < amount ->
       TestStateManager.TransferBalance balances codec.EmptyAddress to amount
       = (Err (errorString "insufficient balance"), balances))).
Proof.
  intros Hamount.
  assert (Htests : forall (balances : TestStateManager.t) (source : codec.Address),
      (forall balance,
          TestStateManager.GetBalance balances source = Ok balance ->
          balance < amount ->
          TestStateManager.TransferBalance balances source to amount
          = (Err (errorString "insufficient balance"), balances)) /\
      (balances !! codec.slice codec.EmptyAddress = None -> 0 < amount ->
       TestStateManager.TransferBalance balances codec.EmptyAddress to amount
       = (Err (errorString "insufficient balance"), balances))).
  { intros balances source. split.
    - intros balance Hget Hlt. unfold TestStateManager.TransferBalance.
      rewrite Hget. rewrite (proj2 (Z.ltb_lt _ _) Hlt). reflexivity.
    - intros Hnone Hpos.
      unfold TestStateManager.TransferBalance, TestStateManager.GetBalance.
      rewrite Hnone. rewrite (proj2 (Z.ltb_lt _ _) Hpos). reflexivity. }
  assert (Hmint : forall s,
    SimulatorState.TransferBalance (Some s) codec.EmptyAddress to amount
    = SimulatorState.credit s to amount).
  { intros s. unfold SimulatorState.TransferBalance.
    rewrite bool_decide_eq_false_2; [reflexivity|].
    intros Hne. apply Hne. reflexivity. }
  split; [|split; [|split; [|exact Htests]]].
  - rewrite Hmint. unfold SimulatorState.credit.
    destruct (SimulatorState.GetBalance (Some st) to) as [b|e|m] eqn:Hto;
      simpl fst; try discriminate.
    intros Heq. injection Heq as ->.
    unfold SimulatorState.GetBalance in Hto.
    destruct (SimulatorState.data st !! SimulatorState.balanceKey to);
      [|discriminate].
    unfold Uint64_BE in Hto.
    repeat (destruct l as [|? l]; try discriminate).
  - intros toBalance Hto. rewrite Hmint. apply credit_spec. exact Hto.
  - intros Hfrom fromBalance Hfb.
    pose proof (GetBalance_range _ _ _ Hfb) as Hrange.
    unfold SimulatorState.TransferBalance.
    rewrite bool_decide_eq_true_2 by exact Hfrom.
    rewrite Hfb. split.
    + intros Hlt. rewrite (proj2 (Z.ltb_lt _ _) Hlt). reflexivity.
    + intros Hge. cbv zeta.
      rewrite (proj2 (Z.ltb_ge _ _) Hge).
      assert (Hsub : uint64 (fromBalance - amount) = fromBalance - amount)
        by (unfold uint64; apply Z.mod_small; lia).
      rewrite Hsub.
      split; [apply GetBalance_store_balance_eq; lia|].
      intros toBalance Hto.
      destruct (credit_spec _ _ amount _ Hto) as [Hc Hg].
      split; [exact Hc|]. split; [exact Hg|].
      intros Hkeys. split.
      * rewrite <- Hto. symmetry. apply GetBalance_store_balance_ne, Hkeys.
      * rewrite GetBalance_store_balance_ne by (intros E; apply Hkeys; symmetry; exact E).
        apply GetBalance_store_balance_eq. lia.
Qed.

End WithStringer.

End BalanceFacts.

(** ** Fuel *)

Module FuelFacts.

(** C3.  On a store whose fuel cell holds [remaining], [ConsumeFuel n]
    returns the error ["out of fuel"] and changes nothing when
    [remaining < n], and otherwise succeeds and leaves exactly
    [remaining - n]. *)
Theorem ConsumeFuel_spec {S} (c : CallInfo) (n remaining : Z) (w : World S) :
  0 <= n ->
  remaining < 2 ^ 64 ->
  fuel (machine w) = Some remaining ->
  (remaining < n ->
   ConsumeFuel c n w = (Err (errorString "out of fuel"), w)) /\
  (n <= remaining ->
   ConsumeFuel c n w = (Ok tt, set_fuel w (remaining - n)) /\
   fuel (machine (snd (ConsumeFuel c n w))) = Some (remaining - n)).
Proof.
  intros Hn Hr Hfuel.
  unfold ConsumeFuel, bind, GetFuel. rewrite Hfuel. split.
  - intros Hlt. rewrite (proj2 (Z.ltb_lt _ _) Hlt). reflexivity.
  - intros Hge. rewrite (proj2 (Z.ltb_ge _ _) Hge).
    unfold SetFuel. rewrite Hfuel.
    assert (Hsub : uint64 (remaining - n) = remaining - n)
      by (unfold uint64; apply Z.mod_small; lia).
    rewrite Hsub. split; reflexivity.
Qed.

End FuelFacts.

(** ** [ContractInstance.call] *)

Module CallFacts.

Import GoFacts KeyFacts.

(** [customSerialize] appends the five fields in order and never fails. *)
Lemma customSerialize_spec (c : ContractContext) (b : bytes) :
  customSerialize c b
  = Ok (b ++ codec.slice (ctx_Contract c) ++ codec.slice (ctx_Actor c)
          ++ PutUint64_LE (ctx_Height c) ++ PutUint64_LE (ctx_Timestamp c)
          ++ ids.slice (ctx_ActionID c)).
Proof.
  unfold customSerialize, borsh_Encode_Address, borsh_Encode_uint64,
    Buffer_Write.
  rewrite <- !app_assoc. reflexivity.
Qed.

(** Where an in-range [copy] puts its source. *)
Lemma copy_at_read (mem : bytes) (off : Z) (data mem' : bytes) :
  copy_at mem off data = Ok mem' ->
  length mem' = length mem /\
  (off + len data <= len mem ->
   firstn (length data) (skipn (Z.to_nat off) mem') = data).
Proof.
  unfold copy_at.
  destruct ((off <? 0) || (len mem <? off)) eqn:Hb; [discriminate|].
  apply orb_false_iff in Hb. destruct Hb as [H0 Hlen].
  apply Z.ltb_ge in H0. apply Z.ltb_ge in Hlen. unfold len in *.
  intros Heq. injection Heq as <-. split.
  - rewrite length_app, copy_length, length_firstn, length_skipn. lia.
  - intros Hfit.
    assert (Hoff : length (firstn (Z.to_nat off) mem) = Z.to_nat off)
      by (rewrite length_firstn; lia).
    rewrite <- Hoff at 1. rewrite drop_app_length.
    rewrite copy_fits by (rewrite length_skipn; lia).
    apply take_app_length.
Qed.

Section WithState.
Context {S : Type} `{BalanceManager S}.

Lemma silent_extends {A} (m : M S A) : silent m -> extends m.
Proof. intros Hs w. exists []. rewrite app_nil_r. apply Hs. Qed.

Lemma silent_ret {A} (a : A) : silent (@ret S A a).
Proof. intros w. reflexivity. Qed.

Lemma silent_fail {A} (e : error) : silent (@fail S A e).
Proof. intros w. reflexivity. Qed.

Lemma silent_panic {A} (msg : string) : silent (@panic S A msg).
Proof. intros w. reflexivity. Qed.

Lemma silent_lift {A} (r : result A) : silent (@lift S A r).
Proof. intros w. reflexivity. Qed.

Lemma silent_GetFuel : silent (@GetFuel S).
Proof. intros w. unfold GetFuel. destruct (fuel (machine w)); reflexivity. Qed.

Lemma silent_SetFuel (n : Z) : silent (@SetFuel S n).
Proof. intros w. unfold SetFuel. destruct (fuel (machine w)); reflexivity. Qed.

Lemma silent_run_guest f (arg : Z) : silent (run_guest (S := S) f arg).
Proof.
  intros w. unfold run_guest. destruct (f (machine w) arg). reflexivity.
Qed.

Lemma extends_emit (e : Event) : extends (@emit S e).
Proof. intros w. exists [e]. reflexivity. Qed.

Lemma extends_bind {A B} (m : M S A) (k : A -> M S B) :
  extends m -> (forall a, extends (k a)) -> extends (bind m k).
Proof.
  intros Hm Hk w. unfold bind.
  destruct (Hm w) as [evs Hevs].
  destruct (m w) as [[a|e|msg] w1]; simpl in Hevs.
  - destruct (Hk a w1) as [evs' Hevs']. exists (evs ++ evs').
    rewrite Hevs', Hevs, app_assoc. reflexivity.
  - exists evs. exact Hevs.
  - exists evs. exact Hevs.
Qed.

Lemma extends_write_memory (off : Z) (data : bytes) :
  extends (write_memory (S := S) off data).
Proof.
  intros w. unfold write_memory.
  destruct (copy_at (memory (machine w)) off data).
  - exists [EvMemoryWrite off data]. reflexivity.
  - exists []. rewrite app_nil_r. reflexivity.
  - exists []. rewrite app_nil_r. reflexivity.
Qed.

Lemma extends_State_TransferBalance (from to : codec.Address) (amount : Z) :
  extends (State_TransferBalance (S := S) from to amount).
Proof.
  intros w. unfold State_TransferBalance, bind, emit. simpl.
  destruct (BalanceManager_TransferBalance (state (machine w)) from to amount)
    as [r s].
  exists [EvTransferBalance from to amount]. reflexivity.
Qed.

Create HintDb trace_db.
#[local] Hint Resolve silent_extends silent_ret silent_fail silent_panic
  silent_lift silent_GetFuel silent_SetFuel silent_run_guest extends_emit
  extends_write_memory extends_State_TransferBalance : trace_db.

Lemma extends_writeToMemory (p : Instance S) (data : bytes) :
  extends (writeToMemory p data).
Proof.
  unfold writeToMemory.
  destruct (p AllocName) as [[allocFn| |]|]; auto with trace_db.
  destruct (p MemoryName) as [[f| |]|]; auto with trace_db.
  apply extends_bind; [auto with trace_db|]. intros _.
  apply extends_bind; [auto with trace_db|]. intros [ |dataOffset| | ];
    auto with trace_db.
  apply extends_bind; auto with trace_db.
Qed.

Lemma extends_call_entry (name : string) f (off : Z) :
  extends (call_entry (S := S) name f off).
Proof.
  unfold call_entry. apply extends_bind; [|auto with trace_db].
  intros w. eexists. reflexivity.
Qed.

(** Everything [call] does after the balance transfer. *)
Lemma extends_after_transfer (p : Instance S) (callInfo : CallInfo)
  (paramsBytes : bytes) :
  extends (paramsOffset <- writeToMemory p paramsBytes ;;
           match GetFunc p (FunctionName callInfo) with
           | None =>
               fail (errorString
                       ("function " ++ FunctionName callInfo
                          ++ " does not exist"))
           | Some function =>
               call_entry (FunctionName callInfo) function paramsOffset ;;;
               fun w => (Ok (result_ (machine w)), w)
           end).
Proof.
  apply extends_bind; [apply extends_writeToMemory|]. intros off.
  destruct (GetFunc p (FunctionName callInfo)); [|auto with trace_db].
  apply extends_bind; [apply extends_call_entry|]. intros _.
  apply silent_extends. intros w. reflexivity.
Qed.


Ltac run_call H :=
  repeat first
    [ progress cbn [fst snd machine trace state fuel memory result_] in H
    | match type of H with
      | context [match ?x with _ => _ end] =>
          lazymatch x with
          | context [match _ with _ => _ end] => fail
          | _ => destruct x eqn:?
          end
      end ].

Ltac new_events H :=
  rewrite <- ?app_assoc in H;
  first [ apply app_inv_head in H
        | rewrite <- (app_nil_r (trace _)) in H at 1;
          apply app_inv_head in H ].

Ltac find_event Hin :=
  repeat match type of Hin with
  | In _ (_ :: _) => destruct Hin as [Hin|Hin]; [try discriminate Hin|]
  | In _ [] => destruct Hin
  end.

(** C4 (as amended).  Whenever [call] reaches the guest entry point, it
    calls the function named in the CallInfo; what came just before is the
    allocator call for the buffer's length and the copy of the buffer to
    the offset the allocator returned, and that offset is the entry point's
    argument.  The buffer is the 114-byte context (33 contract bytes, 33
    actor bytes, height and timestamp as eight little-endian bytes each, 32
    action-id bytes) followed by the caller's params; if the region the
    allocator returned lies inside linear memory, the memory the entry
    point starts with holds exactly that buffer at the offset.  The last
    part says the same of the guest's functions themselves: the exported
    allocator, run on the machine with the fuel added and the value
    transferred, returned the offset; the copy of the buffer to that offset
    produced the memory; the exported function of that name was run with
    that memory and with the offset as its one argument; and what [call]
    returns and leaves behind is what that run returned and left behind. *)
Theorem call_parameter_buffer (p : Instance S) (callInfo : CallInfo)
  (w : World S) (evs : list Event) (name : string) (offset : Z)
  (mem : bytes) :
  trace (snd (call p callInfo w)) = trace w ++ evs ->
  In (EvEntry name offset mem) evs ->
  let prefix :=
    codec.slice (Contract callInfo) ++ codec.slice (Actor callInfo)
      ++ PutUint64_LE (Height callInfo) ++ PutUint64_LE (Timestamp callInfo)
      ++ ids.slice (ActionID callInfo) in
  let buffer := prefix ++ Params callInfo in
  name = FunctionName callInfo /\
  length prefix = 114%nat /\
  (0 <= Height callInfo < 2 ^ 64 ->
   LE_value (PutUint64_LE (Height callInfo)) = Height callInfo) /\
  (0 <= Timestamp callInfo < 2 ^ 64 ->
   LE_value (PutUint64_LE (Timestamp callInfo)) = Timestamp callInfo) /\
  (exists pre,
      evs = pre ++ [ EvAlloc (int32 (len buffer));
                     EvMemoryWrite offset buffer;
                     EvEntry name offset mem ]) /\
  (offset + len buffer <= len mem ->
   firstn (length buffer) (skipn (Z.to_nat offset) mem) = buffer) /\
  (exists remaining balances allocFn function afterAlloc returned afterEntry,
      fuel (machine w) = Some remaining /\
      (if Value callInfo >? 0 then
         BalanceManager_TransferBalance (state (machine w)) (Actor callInfo)
           (Contract callInfo) (Value callInfo) = (Ok tt, balances)
       else balances = state (machine w)) /\
      p AllocName = Some (ExternFunc allocFn) /\
      allocFn (mkMachine balances (Some (uint64 (remaining + Fuel callInfo)))
                         (memory (machine w)) (result_ (machine w)))
              (int32 (len buffer))
      = (Ok (ValI32 offset), afterAlloc) /\
      copy_at (memory afterAlloc) offset buffer = Ok mem /\
      p name = Some (ExternFunc function) /\
      function (mkMachine (state afterAlloc) (fuel afterAlloc) mem
                          (result_ afterAlloc)) offset
      = (returned, afterEntry) /\
      machine (snd (call p callInfo w)) = afterEntry /\
      fst (call p callInfo w)
      = match returned with
        | Ok _ => Ok (result_ afterEntry)
        | Err e => Err e
        | Panic msg => Panic msg
        end).
Proof.
  intros Htrace Hin prefix buffer.
  assert (Hprefix : length prefix = 114%nat).
  { unfold prefix. rewrite !length_app, !length_slice, !length_PutUint64_LE.
    unfold ids.slice. rewrite length_vec_to_list. vm_compute. reflexivity. }
  assert (Hmain :
    name = FunctionName callInfo /\
    (exists pre,
      evs = pre ++ [ EvAlloc (int32 (len buffer));
                     EvMemoryWrite offset buffer;
                     EvEntry name offset mem ]) /\
    (offset + len buffer <= len mem ->
     firstn (length buffer) (skipn (Z.to_nat offset) mem) = buffer) /\
    (exists remaining balances allocFn function afterAlloc returned afterEntry,
      fuel (machine w) = Some remaining /\
      (if Value callInfo >? 0 then
         BalanceManager_TransferBalance (state (machine w)) (Actor callInfo)
           (Contract callInfo) (Value callInfo) = (Ok tt, balances)
       else balances = state (machine w)) /\
      p AllocName = Some (ExternFunc allocFn) /\
      allocFn (mkMachine balances (Some (uint64 (remaining + Fuel callInfo)))
                         (memory (machine w)) (result_ (machine w)))
              (int32 (len buffer))
      = (Ok (ValI32 offset), afterAlloc) /\
      copy_at (memory afterAlloc) offset buffer = Ok mem /\
      p name = Some (ExternFunc function) /\
      function (mkMachine (state afterAlloc) (fuel afterAlloc) mem
                          (result_ afterAlloc)) offset
      = (returned, afterEntry) /\
      machine (snd (call p callInfo w)) = afterEntry /\
      fst (call p callInfo w)
      = match returned with
        | Ok _ => Ok (result_ afterEntry)
        | Err e => Err e
        | Panic msg => Panic msg
        end)).
  { remember (call p callInfo w) as R eqn:HR.
    unfold call in HR. rewrite customSerialize_spec in HR.
    cbn [ctx_Contract ctx_Actor ctx_Height ctx_Timestamp ctx_ActionID app]
      in HR.
    fold prefix in HR.
    unfold bind at 4, lift in HR. fold buffer in HR.
    unfold writeToMemory, State_TransferBalance, call_entry, run_guest,
      write_memory, GetFunc, GetFuel, SetFuel, bind, ret, fail, panic,
      emit in HR.
    run_call HR; subst R;
      cbn [fst snd machine trace state fuel memory result_] in Htrace |- *;
      new_events Htrace; subst evs; cbn [app] in *;
      find_event Hin.
    all: injection Hin as <- <- <-.
    all: (split; [reflexivity|]); split;
      [ first [ exists []; reflexivity | eexists [_]; reflexivity ] |].
    all: split;
      [ intros Hfit;
        match goal with
        | Hc : copy_at _ _ _ = Ok _ |- _ =>
            destruct (copy_at_read _ _ _ _ Hc) as [Hlen Hread];
            apply Hread; unfold len in *; rewrite <- Hlen; exact Hfit
        end |].
    all: repeat match goal with
         | u : unit |- _ => destruct u
         | Hs : Some _ = Some _ |- _ => injection Hs as Hs; subst
         end.
    all: eexists _, _, _, _, _, _, _.
    all: repeat (split; [first [eassumption | reflexivity]|]).
    all: reflexivity. }
  destruct Hmain as [Hname [Hevs [Hread Hreal]]].
  split; [exact Hname|]. split; [exact Hprefix|].
  split; [apply LE_value_PutUint64_LE|].
  split; [apply LE_value_PutUint64_LE|].
  split; [exact Hevs|]. split; [exact Hread | exact Hreal].
Qed.

End WithState.

End CallFacts.

(** ** Loops *)

Module LoopFacts.

Lemma range_app {A} (body : A -> option (result unit)) (l1 l2 : list A) :
  range body (l1 ++ l2) = then_ (range body l1) (range body l2).
Proof.
  induction l1 as [|x l1 IH]; simpl; [reflexivity|].
  destruct (body x); [reflexivity | exact IH].
Qed.

Lemma range_None_iff {A} (body : A -> option (result unit)) (l : list A) :
  range body l = None <-> (forall x, In x l -> body x = None).
Proof.
  induction l as [|x l IH]; simpl.
  - split; [intros _ y [] | reflexivity].
  - destruct (body x) eqn:Hx.
    + split; [discriminate|]. intros Hall.
      rewrite (Hall x (or_introl eq_refl)) in Hx. discriminate.
    + rewrite IH. split.
      * intros Hall y [<-|Hy]; [exact Hx | apply Hall, Hy].
      * intros Hall y Hy. apply Hall. right. exact Hy.
Qed.

(** The loop returns what its body returns at some element. *)
Lemma range_Some {A} (body : A -> option (result unit)) (l : list A)
  (r : result unit) :
  range body l = Some r -> exists x, In x l /\ body x = Some r.
Proof.
  induction l as [|x l IH]; simpl; [discriminate|].
  destruct (body x) eqn:Hx.
  - intros Heq. injection Heq as <-. exists x. split; [left; reflexivity | exact Hx].
  - intros Hr. destruct (IH Hr) as [y [Hy Hb]]. exists y.
    split; [right; exact Hy | exact Hb].
Qed.

(** A counter that cannot reach [2 ^ 32] counts the elements that satisfy
    the test. *)
Lemma count_up_filter {A} (P : A -> bool) (l : list A) (count : Z) :
  0 <= count -> count + len l < 2 ^ 32 ->
  count_up P l count = count + len (filter P l).
Proof.
  unfold len. revert count.
  induction l as [|x l IH]; intros count H0 Hlt; simpl.
  - lia.
  - simpl length in Hlt. destruct (P x) eqn:HP.
    + rewrite filter_cons_True by (rewrite HP; exact I).
      assert (Hw : uint32 (count + 1) = count + 1)
        by (unfold uint32; apply Z.mod_small; lia).
      rewrite Hw, IH by lia. simpl length. lia.
    + rewrite filter_cons_False by (rewrite HP; exact id).
      apply IH; lia.
Qed.

Lemma len_filter_le {A} (P : A -> bool) (l : list A) :
  0 <= len (filter P l) <= len l.
Proof.
  unfold len. split; [lia|].
  apply Nat2Z.inj_le. induction l as [|x l IH]; simpl; [lia|].
  destruct (P x) eqn:HP.
  - rewrite filter_cons_True by (rewrite HP; exact I). simpl. lia.
  - rewrite filter_cons_False by (rewrite HP; exact id). lia.
Qed.

End LoopFacts.

(** ** The validators *)

Module ValidatorFacts.

Import wasmtime validators LoopFacts.

Lemma uint32_small (z : Z) : 0 <= z < 2 ^ 32 -> uint32 z = z.
Proof. intros Hz. unfold uint32. apply Z.mod_small. exact Hz. Qed.

(** Every error of [ValidateResourceLimits] carries the rule
    ["resource-limits"] and the cause [ErrResourceLimitExceeded]. *)
Lemma check_counts_error (wmod : Module) (limits : ResourceLimits)
  (r : result unit) :
  check_counts wmod limits = Some r ->
  exists msg, r = Err (resource_limit_error msg).
Proof.
  unfold check_counts.
  repeat match goal with
  | |- context [if ?c then _ else _] => destruct c
  end; intros Heq; try discriminate Heq;
    injection Heq as <-; eexists; reflexivity.
Qed.

Lemma check_memory_export_error (limits : ResourceLimits) (exp : ExportType)
  (r : result unit) :
  check_memory_export limits exp = Some r ->
  exists msg, r = Err (resource_limit_error msg).
Proof.
  unfold check_memory_export.
  destruct (MemoryType_of (exp_Type exp)) as [memType|]; [|discriminate].
  destruct (uint32 (mem_Minimum memType) >? MaxMemoryPages limits).
  - intros Heq. injection Heq as <-. eexists. reflexivity.
  - destruct (mem_Maximum memType) as [maxVal|]; [|discriminate].
    destruct (uint32 maxVal >? MaxMemoryPages limits); [|discriminate].
    intros Heq. injection Heq as <-. eexists. reflexivity.
Qed.

Lemma check_table_export_error (limits : ResourceLimits) (exp : ExportType)
  (r : result unit) :
  check_table_export limits exp = Some r ->
  exists msg, r = Err (resource_limit_error msg).
Proof.
  unfold check_table_export.
  destruct (TableType_of (exp_Type exp)) as [tableType|]; [|discriminate].
  destruct (uint32 (tab_Minimum tableType) >? MaxTableSize limits).
  - intros Heq. injection Heq as <-. eexists. reflexivity.
  - destruct (tab_Maximum tableType) as [maxVal|]; [|discriminate].
    destruct (uint32 maxVal >? MaxTableSize limits); [|discriminate].
    intros Heq. injection Heq as <-. eexists. reflexivity.
Qed.

Lemma ValidateResourceLimits_total (wmod : Module) (limits : ResourceLimits) :
  ValidateResourceLimits wmod limits = Ok tt \/
  exists msg, ValidateResourceLimits wmod limits = Err (resource_limit_error msg).
Proof.
  unfold ValidateResourceLimits, check_memory, check_tables.
  destruct (check_counts wmod limits) as [r|] eqn:Hc.
  - right. destruct (check_counts_error _ _ _ Hc) as [msg ->].
    exists msg. reflexivity.
  - simpl then_.
    destruct (range (check_memory_export limits) (Exports wmod)) as [r|] eqn:Hm.
    + right. destruct (range_Some _ _ _ Hm) as [exp [_ Hexp]].
      destruct (check_memory_export_error _ _ _ Hexp) as [msg ->].
      exists msg. reflexivity.
    + simpl then_.
      destruct (range (check_table_export limits) (Exports wmod)) as [r|] eqn:Ht.
      * right. destruct (range_Some _ _ _ Ht) as [exp [_ Hexp]].
        destruct (check_table_export_error _ _ _ Hexp) as [msg ->].
        exists msg. reflexivity.
      * left. reflexivity.
Qed.


(** A loop whose body can only return [r] returns [r] as soon as the body
    returns at some element. *)
Lemma range_only (A : Type) (body : A -> option (result unit)) (l : list A)
  (r : result unit) (x : A) :
  (forall y, In y l -> body y = None \/ body y = Some r) ->
  In x l -> body x = Some r -> range body l = Some r.
Proof.
  induction l as [|y l IH]; simpl; intros Hall Hin Hx; [destruct Hin|].
  destruct (Hall y (or_introl eq_refl)) as [Hy|Hy]; rewrite Hy; [|reflexivity].
  destruct Hin as [->|Hin]; [rewrite Hx in Hy; discriminate|].
  apply IH; [|exact Hin | exact Hx].
  intros z Hz. apply Hall. right. exact Hz.
Qed.

Lemma check_memory_None_iff (wmod : Module) (limits : ResourceLimits) :
  check_memory wmod limits = None <->
  (forall exp memType,
      In exp (Exports wmod) -> exp_Type exp = Memory memType ->
      uint32 (mem_Minimum memType) <= MaxMemoryPages limits /\
      (forall maxVal, mem_Maximum memType = Some maxVal ->
                      uint32 maxVal <= MaxMemoryPages limits)).
Proof.
  unfold check_memory. rewrite range_None_iff. split.
  - intros Hall exp memType Hin Hty. specialize (Hall exp Hin).
    unfold check_memory_export in Hall. rewrite Hty in Hall. simpl in Hall.
    destruct (Z.gtb_spec (uint32 (mem_Minimum memType)) (MaxMemoryPages limits));
      [discriminate|].
    split; [lia|]. intros maxVal Hmax. rewrite Hmax in Hall.
    destruct (Z.gtb_spec (uint32 maxVal) (MaxMemoryPages limits));
      [discriminate | lia].
  - intros Hall exp Hin. unfold check_memory_export.
    destruct (exp_Type exp) as [ft| |memType|tbl] eqn:Hty; try reflexivity.
    simpl. destruct (Hall exp memType Hin Hty) as [Hmin Hmax].
    destruct (Z.gtb_spec (uint32 (mem_Minimum memType)) (MaxMemoryPages limits));
      [lia|].
    destruct (mem_Maximum memType) as [maxVal|]; [|reflexivity].
    specialize (Hmax maxVal eq_refl).
    destruct (Z.gtb_spec (uint32 maxVal) (MaxMemoryPages limits));
      [lia | reflexivity].
Qed.

Lemma validateMemoryOperations_unbounded (wmod : Module) (rule : SecurityRule)
  (exp : ExportType) (memType : MemoryType) :
  In exp (Exports wmod) -> exp_Type exp = Memory memType ->
  mem_Maximum memType = None ->
  In "memory.grow"%string (DenyList rule) -> AllowList rule = [] ->
  validateMemoryOperations wmod rule = Err (unbounded_growth_error rule).
Proof.
  intros Hin Hty Hmax Hdeny Hallow.
  unfold validateMemoryOperations.
  rewrite (range_only _ _ _ (Err (unbounded_growth_error rule)) exp);
    [reflexivity | | exact Hin |].
  - intros exp' _. rewrite Hallow. simpl (len [] >? 0).
    destruct (MemoryType_of (exp_Type exp')) as [mt|]; [|left; reflexivity].
    destruct (range _ (DenyList rule)) as [r|] eqn:Hr; [|left; reflexivity].
    right. simpl then_. f_equal.
    destruct (range_Some _ _ _ Hr) as [d [_ Hd]].
    destruct (String.eqb d "memory.grow"); [|discriminate].
    destruct (mem_Maximum mt); [discriminate|].
    injection Hd as <-. reflexivity.
  - rewrite Hty. simpl MemoryType_of. cbv iota. rewrite Hallow.
    rewrite (range_only _ _ _ (Err (unbounded_growth_error rule))
               "memory.grow"%string); [reflexivity | | exact Hdeny |].
    + intros d _. destruct (String.eqb d "memory.grow"); [|left; reflexivity].
      rewrite Hmax. right. reflexivity.
    + rewrite Hmax. reflexivity.
Qed.

(** The rule ["default-instructions"] lists instruction names, and
    [validateType] compares them with type names: it never rejects. *)
Lemma validateInstructions_passes (wmod : Module) (rule : SecurityRule) :
  (forall kind, validateType kind rule = Ok tt) ->
  validateInstructions wmod rule = Ok tt.
Proof.
  intros Hty.
  assert (Hsig : forall ft m1 m2, validate_signature ft rule m1 m2 = None).
  { intros ft m1 m2. unfold validate_signature.
    replace (range _ (Params ft)) with (@None (result unit)).
    - simpl then_. apply range_None_iff. intros k _. rewrite Hty. reflexivity.
    - symmetry. apply range_None_iff. intros k _. rewrite Hty. reflexivity. }
  unfold validateInstructions. cbv zeta.
  replace (range _ (Exports wmod)) with (@None (result unit)).
  - simpl then_.
    replace (range _ (Imports wmod)) with (@None (result unit)); [reflexivity|].
    symmetry. apply range_None_iff. intros imp _.
    destruct (FuncType_of (imp_Type imp)); [apply Hsig | reflexivity].
  - symmetry. apply range_None_iff. intros exp _.
    destruct (FuncType_of (exp_Type exp)); [apply Hsig | reflexivity].
Qed.

Lemma ValidateSecurityRules_default_unbounded (wmod : Module)
  (exp : ExportType) (memType : MemoryType) :
  In exp (Exports wmod) -> exp_Type exp = Memory memType ->
  mem_Maximum memType = None ->
  ValidateSecurityRules wmod defaultSecurityRules
  = Err (NewValidationError "unbounded memory growth not allowed"
                            "default-memory" None).
Proof.
  intros Hin Hty Hmax.
  unfold ValidateSecurityRules, defaultSecurityRules. simpl range.
  unfold apply_rule at 1. simpl String.eqb. cbv iota.
  rewrite validateInstructions_passes
    by (intros kind; destruct kind; vm_compute; reflexivity).
  simpl return_if_err. cbv iota.
  unfold apply_rule. simpl String.eqb. cbv iota.
  rewrite (validateMemoryOperations_unbounded wmod _ exp memType Hin Hty Hmax);
    [reflexivity | left; reflexivity | reflexivity].
Qed.

(** C7 (as amended).  The memory check of [ValidateResourceLimits] looks at
    the exported memories: it lets a module through exactly when every
    exported memory has its minimum, and its maximum if declared, at most
    [MaxMemoryPages] (as [uint32] values), and an exported memory beyond
    that makes [ValidateResourceLimits] reject with rule
    ["resource-limits"]; a single exported memory with minimum
    [MaxMemoryPages] passes and with [MaxMemoryPages + 1] fails.  Under a
    memory rule that denies ["memory.grow"] and has no allow list, and so
    under the default rules, a module that exports a memory without a
    maximum is rejected. *)
Theorem exported_memory_checks (wmod : Module) (limits : ResourceLimits) :
  (check_memory wmod limits = None <->
   (forall exp memType,
       In exp (Exports wmod) -> exp_Type exp = Memory memType ->
       uint32 (mem_Minimum memType) <= MaxMemoryPages limits /\
       (forall maxVal, mem_Maximum memType = Some maxVal ->
                       uint32 maxVal <= MaxMemoryPages limits))) /\
  (forall exp memType,
      In exp (Exports wmod) -> exp_Type exp = Memory memType ->
      (uint32 (mem_Minimum memType) > MaxMemoryPages limits \/
       exists maxVal, mem_Maximum memType = Some maxVal /\
                      uint32 maxVal > MaxMemoryPages limits) ->
      exists msg,
        ValidateResourceLimits wmod limits = Err (resource_limit_error msg)) /\
  (0 <= MaxMemoryPages limits -> MaxMemoryPages limits + 1 < 2 ^ 32 ->
   forall name imports,
     let declares min :=
       mkModule [mkExport name (Memory (mkMemoryType min None))] imports in
     check_memory (declares (MaxMemoryPages limits)) limits = None /\
     exists msg,
       check_memory (declares (MaxMemoryPages limits + 1)) limits
       = Some (Err (resource_limit_error msg))) /\
  (forall exp memType,
      In exp (Exports wmod) -> exp_Type exp = Memory memType ->
      mem_Maximum memType = None ->
      (forall rule,
          In "memory.grow"%string (DenyList rule) -> AllowList rule = [] ->
          validateMemoryOperations wmod rule
          = Err (NewValidationError "unbounded memory growth not allowed"
                                    (rule_Name rule) None)) /\
      ValidateSecurityRules wmod defaultSecurityRules
      = Err (NewValidationError "unbounded memory growth not allowed"
                                "default-memory" None)).
Proof.
  split; [apply check_memory_None_iff|]. split; [|split].
  - intros exp memType Hin Hty Hover.
    destruct (ValidateResourceLimits_total wmod limits) as [Hok|Herr];
      [|exact Herr].
    exfalso. unfold ValidateResourceLimits in Hok.
    destruct (check_counts wmod limits) as [r|] eqn:Hc.
    { destruct (check_counts_error _ _ _ Hc) as [msg ->]. discriminate Hok. }
    simpl then_ in Hok.
    destruct (check_memory wmod limits) as [r|] eqn:Hm.
    { unfold check_memory in Hm.
      destruct (range_Some _ _ _ Hm) as [exp' [_ Hexp']].
      destruct (check_memory_export_error _ _ _ Hexp') as [msg ->].
      discriminate Hok. }
    destruct (proj1 (check_memory_None_iff wmod limits) Hm exp memType Hin Hty)
      as [Hmin Hmax].
    destruct Hover as [Hover|[maxVal [Hsome Hover]]]; [lia|].
    specialize (Hmax maxVal Hsome). lia.
  - intros H0 Hlt name imports declares. subst declares.
    unfold check_memory, check_memory_export. simpl.
    rewrite !uint32_small by lia.
    destruct (Z.gtb_spec (MaxMemoryPages limits) (MaxMemoryPages limits));
      [lia|].
    destruct (Z.gtb_spec (MaxMemoryPages limits + 1) (MaxMemoryPages limits));
      [|lia].
    split; [reflexivity | eexists; reflexivity].
  - intros exp memType Hin Hty Hmax. split.
    + intros rule Hdeny Hallow.
      apply (validateMemoryOperations_unbounded wmod rule exp memType);
        assumption.
    + apply (ValidateSecurityRules_default_unbounded wmod exp memType);
        assumption.
Qed.

(** A rule either lets the loop go on or returns an error; [nil] is only
    returned after the last rule. *)
Lemma apply_rule_not_Ok (wmod : Module) (rule : SecurityRule) (u : unit) :
  apply_rule wmod rule <> Some (Ok u).
Proof.
  unfold apply_rule.
  repeat match goal with
  | |- context [if ?c then _ else _] => destruct c
  end;
  try match goal with
  | |- context [Validator rule] => destruct (Validator rule)
  end;
  try discriminate;
  match goal with
  | |- return_if_err ?r _ <> _ => destruct r; discriminate
  end.
Qed.

Lemma ValidateSecurityRules_Ok_iff (wmod : Module) (rules : list SecurityRule) :
  ValidateSecurityRules wmod rules = Ok tt <->
  range (apply_rule wmod) rules = None.
Proof.
  unfold ValidateSecurityRules. split.
  - destruct (range (apply_rule wmod) rules) as [r|] eqn:Hr; [|reflexivity].
    simpl. intros ->. destruct (range_Some _ _ _ Hr) as [rule [_ Hrule]].
    exfalso. exact (apply_rule_not_Ok _ _ _ Hrule).
  - intros ->. reflexivity.
Qed.

(** Rules are applied in list order and the first error is returned. *)
Lemma ValidateSecurityRules_first_error (wmod : Module)
  (passed : list SecurityRule) (rule : SecurityRule)
  (rest : list SecurityRule) (e : error) :
  ValidateSecurityRules wmod passed = Ok tt ->
  apply_rule wmod rule = Some (Err e) ->
  ValidateSecurityRules wmod (passed ++ rule :: rest) = Err e.
Proof.
  intros Hpassed Hrule. apply ValidateSecurityRules_Ok_iff in Hpassed.
  unfold ValidateSecurityRules. rewrite range_app, Hpassed. simpl.
  rewrite Hrule. reflexivity.
Qed.

Lemma apply_rule_custom (wmod : Module) (rule : SecurityRule)
  (validator : Module -> result unit) (err : error) :
  rule_Type rule = RuleTypeCustom -> Validator rule = Some validator ->
  validator wmod = Err err ->
  apply_rule wmod rule
  = Some (Err (NewValidationError "custom validation failed"
                                  (rule_Name rule) (Some err))).
Proof.
  intros Hty Hval Herr. unfold apply_rule. rewrite Hty, Hval, Herr.
  reflexivity.
Qed.

(** C8 (as amended).  [ValidateModule] checks, in this order and stopping
    at the first failure: the size; that the bytes parse; the default
    security rules; the custom rules; and last the resource limits
    (counts, then exported memories, then exported tables).  Within a rule
    list the rules are applied in list order, and [AddCustomRule] appends,
    so custom rules run in registration order.  A failing custom rule
    is reported as ["custom validation failed"] under the rule's name,
    whatever the resource limits would have said.  Within the counts the
    order is function count, export count, import count, global count:
    the error reported is that of the first of the four that is exceeded. *)
Theorem ValidateModule_order (v : DefaultValidator) (wasm : bytes)
  (engine : Engine) :
  (forall r, check_size v wasm = Some r -> ValidateModule v wasm engine = r) /\
  (check_size v wasm = None ->
   (forall err,
       NewModule engine wasm = Err err ->
       ValidateModule v wasm engine
       = Err (NewValidationError "failed to parse module" "parse" (Some err)))
   /\
   (forall wmod,
       NewModule engine wasm = Ok wmod ->
       (forall e,
           ValidateSecurityRules wmod (defaultRules v) = Err e ->
           ValidateModule v wasm engine = Err e) /\
       (ValidateSecurityRules wmod (defaultRules v) = Ok tt ->
        (forall e,
            ValidateSecurityRules wmod (customRules v) = Err e ->
            ValidateModule v wasm engine = Err e) /\
        (ValidateSecurityRules wmod (customRules v) = Ok tt ->
         ValidateModule v wasm engine
         = ValidateResourceLimits wmod (cfg_ResourceLimits (config v)))))) /\
  (forall wmod passed rule rest e,
      ValidateSecurityRules wmod passed = Ok tt ->
      apply_rule wmod rule = Some (Err e) ->
      ValidateSecurityRules wmod (passed ++ rule :: rest) = Err e) /\
  (forall wmod rule validator err,
      rule_Type rule = RuleTypeCustom -> Validator rule = Some validator ->
      validator wmod = Err err ->
      apply_rule wmod rule
      = Some (Err (NewValidationError "custom validation failed"
                                      (rule_Name rule) (Some err)))) /\
  (forall rule, customRules (AddCustomRule v rule) = customRules v ++ [rule]) /\
  (forall wmod limits,
      (forall r, check_counts wmod limits = Some r ->
                 ValidateResourceLimits wmod limits = r) /\
      (check_counts wmod limits = None ->
       (forall r, check_memory wmod limits = Some r ->
                  ValidateResourceLimits wmod limits = r) /\
       (check_memory wmod limits = None ->
        ValidateResourceLimits wmod limits = or_nil (check_tables wmod limits)))) /\
  (forall wmod limits,
      len (Exports wmod) + len (Imports wmod) < 2 ^ 32 ->
      let functions :=
        len (filter (fun exp => is_func (exp_Type exp)) (Exports wmod))
        + len (filter (fun imp => is_func (imp_Type imp)) (Imports wmod)) in
      let globals :=
        len (filter (fun exp => is_global (exp_Type exp)) (Exports wmod))
        + len (filter (fun imp => is_global (imp_Type imp)) (Imports wmod)) in
      check_counts wmod limits
      = if functions >? MaxFunctions limits then
          Some (Err (resource_limit_error
                       ("function count " ++ itoa functions ++ " exceeds limit "
                          ++ itoa (MaxFunctions limits))))
        else if len (Exports wmod) >? MaxExports limits then
          Some (Err (resource_limit_error
                       ("export count " ++ itoa (len (Exports wmod))
                          ++ " exceeds limit " ++ itoa (MaxExports limits))))
        else if len (Imports wmod) >? MaxImports limits then
          Some (Err (resource_limit_error
                       ("import count " ++ itoa (len (Imports wmod))
                          ++ " exceeds limit " ++ itoa (MaxImports limits))))
        else if globals >? MaxGlobals limits then
          Some (Err (resource_limit_error
                       ("global count " ++ itoa globals ++ " exceeds limit "
                          ++ itoa (MaxGlobals limits))))
        else None).
Proof.
  split; [|split; [|split; [|split; [|split; [|split]]]]].
  - intros r Hsize. unfold ValidateModule. rewrite Hsize. reflexivity.
  - intros Hsize. unfold ValidateModule. rewrite Hsize. simpl then_. split.
    + intros err Hparse. rewrite Hparse. reflexivity.
    + intros wmod Hparse. rewrite Hparse. split.
      * intros e Hdef. rewrite Hdef. reflexivity.
      * intros Hdef. rewrite Hdef. simpl. split.
        -- intros e Hcus. rewrite Hcus.
           destruct (customRules v) as [|rule rules]; [discriminate Hcus|].
           assert (Hpos : (len (rule :: rules) >? 0) = true)
             by (unfold len; apply Z.gtb_lt; simpl length; lia).
           rewrite Hpos. reflexivity.
        -- intros Hcus. rewrite Hcus.
           destruct (len (customRules v) >? 0); reflexivity.
  - apply ValidateSecurityRules_first_error.
  - apply apply_rule_custom.
  - intros rule. reflexivity.
  - intros wmod limits. unfold ValidateResourceLimits. split.
    + intros r Hc. rewrite Hc. reflexivity.
    + intros Hc. rewrite Hc. simpl then_. split.
      * intros r Hm. rewrite Hm. reflexivity.
      * intros Hm. rewrite Hm. reflexivity.
  - intros wmod limits Hsmall functions globals.
    pose proof (len_filter_le (fun exp => is_func (exp_Type exp)) (Exports wmod)) as Hfe.
    pose proof (len_filter_le (fun imp => is_func (imp_Type imp)) (Imports wmod)) as Hfi.
    pose proof (len_filter_le (fun exp => is_global (exp_Type exp)) (Exports wmod)) as Hge.
    pose proof (len_filter_le (fun imp => is_global (imp_Type imp)) (Imports wmod)) as Hgi.
    unfold check_counts. cbv zeta.
    rewrite (count_up_filter _ (Exports wmod) 0) by lia.
    rewrite (count_up_filter _ (Imports wmod)) by lia.
    rewrite (count_up_filter _ (Exports wmod) 0) by lia.
    rewrite (count_up_filter _ (Imports wmod)) by lia.
    rewrite !uint32_small by (unfold len in *; lia).
    rewrite !Z.add_0_l. reflexivity.
Qed.

(** The size comparison is made on [uint32(len(bytes))]. *)
Lemma check_size_boundary (v : DefaultValidator) (wasm : bytes) :
  let limit := MaxContractSize (cfg_ResourceLimits (config v)) in
  0 <= limit -> limit + 1 < 2 ^ 32 ->
  (len wasm = limit -> check_size v wasm = None) /\
  (len wasm = limit + 1 ->
   exists msg cause,
     check_size v wasm = Some (Err (ValidationError msg "contract-size" cause))).
Proof.
  intros limit H0 Hlt. unfold check_size. fold limit. split; intros Hlen.
  - rewrite Hlen, uint32_small by lia.
    destruct (Z.gtb_spec limit limit); [lia | reflexivity].
  - rewrite Hlen, uint32_small by lia.
    destruct (Z.gtb_spec (limit + 1) limit); [|lia].
    eexists. eexists. reflexivity.
Qed.

End ValidatorFacts.

(** ** The statements at concrete inputs *)

Module Examples.

Import wasmtime validators Fixtures.


(** Ten units of fuel, five consumed. *)
Lemma ConsumeFuel_spec_witness :
  let w := set_fuel (world poor 0) 10 in
  let ci := callInfo [] 0 in
  0 <= 5 /\ 10 < 2 ^ 64 /\ fuel (machine w) = Some 10 /\
  ConsumeFuel ci 5 w = (Ok tt, set_fuel w 5) /\
  ConsumeFuel ci 11 w = (Err (errorString "out of fuel"), w).
Proof.
  cbv zeta.
  assert (H5 : 0 <= 5) by lia.
  assert (H11 : 0 <= 11) by lia.
  assert (Hr : 10 < 2 ^ 64) by reflexivity.
  split; [exact H5|]. split; [exact Hr|]. split; [reflexivity|]. split.
  - destruct (FuelFacts.ConsumeFuel_spec (callInfo [] 0) 5 10
                (set_fuel (world poor 0) 10) H5 Hr eq_refl) as [_ Hok].
    destruct Hok as [Hok _]; [lia | exact Hok].
  - destruct (FuelFacts.ConsumeFuel_spec (callInfo [] 0) 11 10
                (set_fuel (world poor 0) 10) H11 Hr eq_refl) as [Hout _].
    apply Hout. lia.
Defined.

(** A call without attached value, with the allocator answering 16: the
    entry point [run] is called with 16 and finds the 114 context bytes
    and the two params bytes there. *)
Lemma call_parameter_buffer_witness :
  let w := world poor 256 in
  let ci := callInfo (bytes_of_string "hi") 0 in
  let w' := snd (call (guest 16) ci w) in
  trace w' = trace w ++ trace w' /\
  In (EvEntry "run" 16 (memory (machine w'))) (trace w') /\
  length prefix = 114%nat /\
  firstn 116 (skipn 16 (memory (machine w'))) = prefix ++ bytes_of_string "hi".
Proof.
  cbv zeta.
  assert (Htrace :
    trace (snd (call (guest 16) (callInfo (bytes_of_string "hi") 0)
                     (world poor 256)))
    = trace (world poor 256)
        ++ trace (snd (call (guest 16) (callInfo (bytes_of_string "hi") 0)
                            (world poor 256))))
    by reflexivity.
  assert (Hin :
    In (EvEntry "run" 16
          (memory (machine (snd (call (guest 16)
                                   (callInfo (bytes_of_string "hi") 0)
                                   (world poor 256))))))
       (trace (snd (call (guest 16) (callInfo (bytes_of_string "hi") 0)
                         (world poor 256)))))
    by (vm_compute; right; right; left; reflexivity).
  destruct (CallFacts.call_parameter_buffer _ _ _ _ _ _ _ Htrace Hin)
    as (_ & Hlen & _ & _ & _ & Hread & _).
  split; [exact Htrace|]. split; [exact Hin|]. split; [exact Hlen|].
  apply Hread. vm_compute. discriminate.
Defined.

(** C4, as stated, fails: with empty params the buffer copied for the
    entry point is the context prefix alone, and it is 114 bytes long, not
    106. *)
Lemma context_prefix_is_not_106_bytes :
  let w' := snd (call (guest 16) (callInfo [] 0) (world poor 256)) in
  trace w'
  = [ EvAlloc 114; EvMemoryWrite 16 prefix;
      EvEntry "run" 16 (memory (machine w')) ] /\
  length prefix = 114%nat /\
  length prefix <> 106%nat.
Proof.
  cbv zeta. split; [vm_compute; reflexivity|].
  split; [reflexivity | vm_compute; discriminate].
Qed.

Lemma len_four_gib : len four_gib = 4294967296.
Proof.
  unfold len, four_gib. rewrite repeat_length. apply Z2Nat.id. discriminate.
Qed.

(** C5.  With [MaxContractSize = 4294967295], bytecode of
    [MaxContractSize + 1 = 2 ^ 32] bytes passes the size check of
    [ValidateModule] and of [getModule]: [uint32(len(bytes))] is 0. *)
Theorem check_size_wraps_at_four_gib :
  len four_gib
  = MaxContractSize (cfg_ResourceLimits (config largest_validator)) + 1 /\
  validators.check_size largest_validator four_gib = None /\
  (forall engine,
      WasmRuntime.check_size (WasmRuntime.mk engine largest_limits) four_gib
      = None) /\
  ValidateModule largest_validator four_gib (engine_of small_module) = Ok tt.
Proof.
  assert (Hsize : validators.check_size largest_validator four_gib = None).
  { unfold validators.check_size. rewrite len_four_gib. reflexivity. }
  split; [rewrite len_four_gib; reflexivity|].
  split; [exact Hsize|]. split.
  - intros engine. unfold WasmRuntime.check_size. rewrite len_four_gib.
    reflexivity.
  - unfold ValidateModule. rewrite Hsize. reflexivity.
Qed.

(** The runtime is always built with the default limits
    ([MaxContractSize] of one MiB); the size check of [getModule] lets the
    same [2 ^ 32] bytes through under them too. *)
Example getModule_size_check_under_default_limits :
  len four_gib > MaxContractSize DefaultResourceLimits /\
  (forall engine,
      WasmRuntime.check_size (WasmRuntime.mk engine DefaultResourceLimits)
        four_gib
      = None).
Proof.
  split; [rewrite len_four_gib; reflexivity|].
  intros engine. unfold WasmRuntime.check_size. rewrite len_four_gib.
  reflexivity.
Qed.


(** An exported memory without a maximum, under the default rules. *)
Lemma exported_memory_checks_witness :
  In (mkExport "memory" (Memory (mkMemoryType 1 None)))
     (Exports exports_unbounded) /\
  check_memory exports_unbounded DefaultResourceLimits = None /\
  ValidateSecurityRules exports_unbounded defaultSecurityRules
  = Err (NewValidationError "unbounded memory growth not allowed"
                            "default-memory" None).
Proof.
  assert (Hin : In (mkExport "memory" (Memory (mkMemoryType 1 None)))
                   (Exports exports_unbounded))
    by (left; reflexivity).
  destruct (ValidatorFacts.exported_memory_checks exports_unbounded
              DefaultResourceLimits) as (Hiff & _ & _ & Hgrow).
  split; [exact Hin|]. split.
  - apply Hiff. intros exp memType [<-|[]] Hty.
    injection Hty as <-. simpl. split; [vm_compute; discriminate|].
    intros maxVal Hmax. discriminate Hmax.
  - destruct (Hgrow _ (mkMemoryType 1 None) Hin eq_refl eq_refl) as [_ Hdef].
    exact Hdef.
Defined.

(** C7, as stated, fails: a module that imports a memory of 17 pages
    without a maximum passes the memory check under the default limit of
    16 pages, passes the default rules although they deny [memory.grow],
    and is accepted by [ValidateModule]. *)
Lemma imported_memory_is_not_checked :
  MaxMemoryPages DefaultResourceLimits = 16 /\
  check_memory imports_memory DefaultResourceLimits = None /\
  ValidateResourceLimits imports_memory DefaultResourceLimits = Ok tt /\
  ValidateSecurityRules imports_memory defaultSecurityRules = Ok tt /\
  ValidateModule default_validator [] (engine_of imports_memory) = Ok tt.
Proof. repeat split; vm_compute; reflexivity. Qed.

(** One function against limits that allow none, and a custom rule that
    always fails: the custom rule's error is what comes back. *)
Lemma ValidateModule_order_witness :
  validators.check_size strict_validator [] = None /\
  NewModule (engine_of small_module) [] = Ok small_module /\
  ValidateSecurityRules small_module (defaultRules strict_validator) = Ok tt /\
  ValidateModule strict_validator [] (engine_of small_module)
  = Err (NewValidationError "custom validation failed" "always-fails"
                            (Some ErrInvalidModule)).
Proof.
  assert (Hsize : validators.check_size strict_validator [] = None)
    by reflexivity.
  assert (Hdef : ValidateSecurityRules small_module
                   (defaultRules strict_validator) = Ok tt)
    by (vm_compute; reflexivity).
  destruct (ValidatorFacts.ValidateModule_order strict_validator []
              (engine_of small_module)) as (_ & Hsteps & _).
  destruct (Hsteps Hsize) as [_ Hparsed].
  destruct (Hparsed small_module eq_refl) as [_ Hrules].
  destruct (Hrules Hdef) as [Hcustom _].
  split; [exact Hsize|]. split; [reflexivity|]. split; [exact Hdef|].
  apply Hcustom. vm_compute. reflexivity.
Defined.

(** C8, as stated, fails: [small_module] breaks the function limit of
    [no_functions] and the custom rule [always_fails]; [ValidateModule]
    rejects it with the custom rule's error, not the resource-limit one. *)
Lemma custom_rule_error_comes_first :
  ValidateResourceLimits small_module
    (cfg_ResourceLimits (config strict_validator))
  = Err (resource_limit_error "function count 2 exceeds limit 0") /\
  ValidateSecurityRules small_module (customRules strict_validator)
  = Err (NewValidationError "custom validation failed" "always-fails"
                            (Some ErrInvalidModule)) /\
  ValidateModule strict_validator [] (engine_of small_module)
  = Err (NewValidationError "custom validation failed" "always-fails"
                            (Some ErrInvalidModule)) /\
  ValidateModule strict_validator [] (engine_of small_module)
  <> ValidateResourceLimits small_module
       (cfg_ResourceLimits (config strict_validator)).
Proof.
  split; [vm_compute; reflexivity|]. split; [vm_compute; reflexivity|].
  split; [vm_compute; reflexivity|]. vm_compute. discriminate.
Qed.

(** [addr1] holds 1000 and sends 400 to [addr2]; 1001 is refused; minting
    5 to [addr2] needs no balance anywhere. *)
Lemma TransferBalance_mint_or_checked_witness :
  0 <= 400 < 2 ^ 64 /\
  addr1 <> codec.EmptyAddress /\
  @SimulatorState.GetBalance raw_stringer (Some funded) addr1 = Ok 1000 /\
  (exists s',
      @SimulatorState.TransferBalance raw_stringer (Some funded) addr1 addr2 400
      = (Ok tt, s') /\
      @SimulatorState.GetBalance raw_stringer s' addr1 = Ok 600 /\
      @SimulatorState.GetBalance raw_stringer s' addr2 = Ok 400).
Proof.
  assert (Hamount : 0 <= 400 < 2 ^ 64) by lia.
  assert (Hne : addr1 <> codec.EmptyAddress) by (vm_compute; discriminate).
  assert (Hfrom : @SimulatorState.GetBalance raw_stringer (Some funded) addr1
                  = Ok 1000) by (vm_compute; reflexivity).
  destruct (@BalanceFacts.TransferBalance_mint_or_checked raw_stringer
              funded addr1 addr2 400 Hamount) as (_ & _ & Hchecked & _).
  destruct (Hchecked Hne 1000 Hfrom) as [_ Hok].
  destruct Hok as [_ Hto]; [lia|].
  destruct (Hto 0) as (Htransfer & Hbal2 & Hkeys); [vm_compute; reflexivity|].
  destruct Hkeys as [_ Hbal1]; [vm_compute; discriminate|].
  split; [exact Hamount|]. split; [exact Hne|]. split; [exact Hfrom|].
  eexists. split; [exact Htransfer|]. split; [exact Hbal1 | exact Hbal2].
Defined.


(** The runtime's own [validateModule] is coarser than the validator's
    count check: it counts every export and import as a function and does
    not look at globals. *)
Example validateModule_counts_every_entry :
  let limits := mkResourceLimits 1048576 2 100 100 0 4 16 10000 in
  WasmRuntime.validateModule
    (WasmRuntime.mk (engine_of small_module) limits) []
  = Err (NewValidationError
           "function count 3 exceeds maximum allowed 2" "function-count" None)
  /\
  check_counts small_module limits
  = Some (Err (resource_limit_error "global count 1 exceeds limit 0")).
Proof. split; vm_compute; reflexivity. Qed.

(** C10, as stated, fails for the balance manager of the runtime tests:
    a transfer of 5 from the empty address fails with ["insufficient
    balance"] there, while the simulator state mints the 5. *)
Example TestStateManager_does_not_mint :
  TestStateManager.TransferBalance ∅ codec.EmptyAddress addr1 5
  = (Err (errorString "insufficient balance"), ∅) /\
  fst (@SimulatorState.TransferBalance raw_stringer
         (Some (SimulatorState.mk 0 ∅)) codec.EmptyAddress addr1 5)
  = Ok tt.
Proof. split; reflexivity. Qed.

End Examples.

(** * Further properties of the code *)

(** ** The key/value store of the simulator *)

Module StoreLaws.

Import GoFacts KeyFacts.

Lemma len_nonempty (key : bytes) : key <> [] -> (len key =? 0) = false.
Proof.
  intros Hne. destruct key as [|b key]; [contradiction|].
  unfold len. apply Z.eqb_neq. simpl length. lia.
Qed.

(** X1.  On a simulator state, after [Insert(key, value)] with a non-empty
    key, [GetValue(key)] returns [value] and every other key reads as
    before; after [Remove(key)], [GetValue(key)] returns the empty value
    without an error and every other key reads as before. *)
Theorem Insert_Remove_GetValue (st : SimulatorState.t) (key other value : bytes) :
  key <> [] ->
  let inserted := snd (SimulatorState.Insert (Some st) key value) in
  let removed := snd (SimulatorState.Remove inserted key) in
  fst (SimulatorState.Insert (Some st) key value) = Ok tt /\
  SimulatorState.GetValue inserted key = Ok value /\
  fst (SimulatorState.Remove inserted key) = Ok tt /\
  SimulatorState.GetValue removed key = Ok [] /\
  (other <> key ->
   SimulatorState.GetValue inserted other = SimulatorState.GetValue (Some st) other /\
   SimulatorState.GetValue removed other = SimulatorState.GetValue (Some st) other).
Proof.
  intros Hne. cbv zeta.
  unfold SimulatorState.Insert. rewrite (len_nonempty key Hne). simpl fst. simpl snd.
  unfold SimulatorState.Remove. rewrite (len_nonempty key Hne). simpl fst. simpl snd.
  unfold SimulatorState.GetValue. rewrite (len_nonempty key Hne).
  simpl SimulatorState.data.
  rewrite lookup_insert_eq, lookup_delete_eq.
  repeat split.
  - destruct (len other =? 0); [reflexivity|].
    rewrite lookup_insert_ne by congruence. reflexivity.
  - destruct (len other =? 0); [reflexivity|].
    rewrite lookup_delete_ne, lookup_insert_ne by congruence. reflexivity.
Qed.

(** X2.  [GetContractBytes(id)] after [SetContractBytes(id, code)] returns
    [code] when [id] is not empty; with the empty [id] both calls fail with
    ["empty key"] and nothing is stored. *)
Theorem SetContractBytes_GetContractBytes (st : SimulatorState.t)
  (contractID : ContractID) (code : bytes) :
  let set := SimulatorState.SetContractBytes (Some st) contractID code in
  match contractID with
  | [] =>
      set = (Err (errorString "empty key"), Some st) /\
      SimulatorState.GetContractBytes (Some st) contractID
      = Err (errorString "empty key")
  | _ :: _ =>
      fst set = Ok tt /\
      SimulatorState.GetContractBytes (snd set) contractID = Ok code
  end.
Proof.
  cbv zeta. destruct contractID as [|b contractID]; [split; reflexivity|].
  unfold SimulatorState.SetContractBytes, SimulatorState.Insert.
  rewrite len_nonempty by discriminate. simpl fst. simpl snd.
  unfold SimulatorState.GetContractBytes, SimulatorState.GetValue.
  rewrite len_nonempty by discriminate. simpl SimulatorState.data.
  rewrite lookup_insert_eq. split; reflexivity.
Qed.

Lemma slice_app_inj (a1 a2 : codec.Address) (k1 k2 : bytes) :
  codec.slice a1 ++ k1 = codec.slice a2 ++ k2 -> a1 = a2 /\ k1 = k2.
Proof.
  intros Heq.
  apply app_inj_1 in Heq; [|rewrite !length_slice; reflexivity].
  destruct Heq as [Ha Hk]. split; [|exact Hk].
  apply vec_to_list_inj2. exact Ha.
Qed.

(** X3.  Contract views of two different addresses are isolated: an
    [Insert] or a [Remove] through the view of [a1] changes nothing that
    the view of [a2] reads, whatever the keys; through its own view a
    contract reads back what it inserted under a non-empty key. *)
Theorem ContractState_isolation (st : SimulatorState.t)
  (a1 a2 : codec.Address) (k1 k2 value : bytes) :
  a1 <> a2 ->
  let c1 := GetContractState (Some st) a1 in
  let read s := ContractState.GetValue (GetContractState s a2) k2 in
  read (snd (ContractState.Insert c1 k1 value)) = read (Some st) /\
  read (snd (ContractState.Remove c1 k1)) = read (Some st) /\
  (k1 <> [] ->
   ContractState.GetValue
     (GetContractState (snd (ContractState.Insert c1 k1 value)) a1) k1
   = Ok value).
Proof.
  intros Hne. cbv zeta.
  assert (Hkeys : codec.slice a1 ++ k1 <> codec.slice a2 ++ k2).
  { intros Heq. apply slice_app_inj in Heq. destruct Heq as [Ha _].
    contradiction. }
  unfold ContractState.Insert, ContractState.Remove, ContractState.GetValue,
    GetContractState.
  simpl ContractState.SimulatorState. simpl ContractState.address.
  destruct k1 as [|b1 k1].
  - simpl. repeat split; try reflexivity. intros Hk. contradiction.
  - rewrite (len_nonempty (b1 :: k1)) by discriminate.
    assert (Hlen : (len (codec.slice a1 ++ b1 :: k1) =? 0) = false)
      by (apply len_nonempty; destruct (codec.slice a1); discriminate).
    unfold SimulatorState.Insert, SimulatorState.Remove. rewrite Hlen.
    simpl snd. unfold SimulatorState.GetValue. simpl SimulatorState.data.
    rewrite Hlen. rewrite lookup_insert_eq.
    repeat split.
    + destruct (len k2 =? 0); [reflexivity|].
      destruct (len (codec.slice a2 ++ k2) =? 0); [reflexivity|].
      rewrite lookup_insert_ne by exact Hkeys. reflexivity.
    + destruct (len k2 =? 0); [reflexivity|].
      destruct (len (codec.slice a2 ++ k2) =? 0); [reflexivity|].
      rewrite lookup_delete_ne by exact Hkeys. reflexivity.
Qed.

(** X4.  A contract view never writes a key of 33 bytes or fewer: after an
    [Insert] or [Remove] through any view, such a key reads as before, and
    so does every account's contract entry. *)
Theorem ContractState_keeps_short_keys (st : SimulatorState.t)
  (a account : codec.Address) (key value short : bytes) :
  (length short <= 33)%nat ->
  let c := GetContractState (Some st) a in
  let inserted := snd (ContractState.Insert c key value) in
  let removed := snd (ContractState.Remove c key) in
  SimulatorState.GetValue inserted short = SimulatorState.GetValue (Some st) short /\
  SimulatorState.GetValue removed short = SimulatorState.GetValue (Some st) short /\
  SimulatorState.GetAccountContract inserted account
  = SimulatorState.GetAccountContract (Some st) account /\
  SimulatorState.GetAccountContract removed account
  = SimulatorState.GetAccountContract (Some st) account.
Proof.
  intros Hshort. cbv zeta.
  assert (Hframe : forall k, (length k <= 33)%nat ->
    SimulatorState.GetValue (snd (ContractState.Insert (GetContractState (Some st) a) key value)) k
    = SimulatorState.GetValue (Some st) k /\
    SimulatorState.GetValue (snd (ContractState.Remove (GetContractState (Some st) a) key)) k
    = SimulatorState.GetValue (Some st) k).
  { intros k Hk.
    unfold ContractState.Insert, ContractState.Remove, GetContractState.
    simpl ContractState.SimulatorState. simpl ContractState.address.
    destruct key as [|b key]; [split; reflexivity|].
    rewrite (len_nonempty (b :: key)) by discriminate.
    assert (Hlen : (len (codec.slice a ++ b :: key) =? 0) = false)
      by (apply len_nonempty; destruct (codec.slice a); discriminate).
    assert (Hne : codec.slice a ++ b :: key <> k).
    { intros <-. rewrite length_app, length_slice in Hk. simpl in Hk. lia. }
    unfold SimulatorState.Insert, SimulatorState.Remove. rewrite Hlen.
    simpl snd. unfold SimulatorState.GetValue. simpl SimulatorState.data.
    destruct (len k =? 0); [split; reflexivity|].
    rewrite lookup_insert_ne, lookup_delete_ne by exact Hne.
    split; reflexivity. }
  destruct (Hframe short Hshort) as [Hi Hr].
  split; [exact Hi|]. split; [exact Hr|].
  assert (Hacc : (length (codec.slice account) <= 33)%nat)
    by (rewrite length_slice; lia).
  destruct (Hframe (codec.slice account) Hacc) as [Hai Har].
  unfold SimulatorState.GetAccountContract.
  destruct (snd (ContractState.Insert (GetContractState (Some st) a) key value))
    as [sti|] eqn:Ei.
  - destruct (snd (ContractState.Remove (GetContractState (Some st) a) key))
      as [str|] eqn:Er.
    + rewrite Hai, Har. split; reflexivity.
    + exfalso. revert Er.
      unfold ContractState.Remove, GetContractState, SimulatorState.Remove.
      simpl. destruct (len key =? 0); [discriminate|].
      destruct (len (codec.slice a ++ key) =? 0); discriminate.
  - exfalso. revert Ei.
    unfold ContractState.Insert, GetContractState, SimulatorState.Insert.
    simpl. destruct (len key =? 0); [discriminate|].
    destruct (len (codec.slice a ++ key) =? 0); discriminate.
Qed.

(** X5.  [prependAccountToKey] is injective in the account and the key,
    and its result is 34 bytes longer than the key: two prefixed views
    never share a forwarded key unless account and key agree. *)
Theorem prependAccountToKey_injective (a1 a2 : codec.Address)
  (k1 k2 : bytes) :
  length (prependAccountToKey a1 k1) = (34 + length k1)%nat /\
  (prependAccountToKey a1 k1 = prependAccountToKey a2 k2 ->
   a1 = a2 /\ k1 = k2).
Proof.
  rewrite !prependAccountToKey_spec. split.
  - rewrite !length_app, length_slice. reflexivity.
  - intros Heq. apply slice_app_inj in Heq. destruct Heq as [Ha Hk].
    split; [exact Ha|]. simpl in Hk. injection Hk as Hk. exact Hk.
Qed.

End StoreLaws.

(** ** Balances *)

Module BalanceLaws.

Import GoFacts KeyFacts BalanceFacts.

Section WithStringer.
Context `{AddressStringer}.

Lemma balanceKey_nonempty (a : codec.Address) :
  (len (SimulatorState.balanceKey a) =? 0) = false.
Proof.
  apply StoreLaws.len_nonempty. unfold SimulatorState.balanceKey.
  simpl. discriminate.
Qed.

(** X6.  [GetBalance] answers 0 for an address with no balance entry, and
    panics on an entry shorter than 8 bytes, which the generic [Insert]
    can put under the balance key; [TransferBalance] from such an address
    panics too and leaves the state as it was. *)
Theorem GetBalance_missing_or_short (st : SimulatorState.t)
  (a to : codec.Address) (value : bytes) (amount : Z) :
  (length value < 8)%nat ->
  a <> codec.EmptyAddress ->
  let corrupted :=
    snd (SimulatorState.Insert (Some st) (SimulatorState.balanceKey a) value) in
  (SimulatorState.data st !! SimulatorState.balanceKey a = None ->
   SimulatorState.GetBalance (Some st) a = Ok 0) /\
  SimulatorState.GetBalance corrupted a = Panic "index out of range [7]" /\
  SimulatorState.TransferBalance corrupted a to amount
  = (Panic "index out of range [7]", corrupted).
Proof.
  intros Hshort Hne. cbv zeta.
  unfold SimulatorState.Insert. rewrite balanceKey_nonempty. simpl snd.
  assert (Hpanic :
    SimulatorState.GetBalance
      (Some (SimulatorState.set_data st
               (<[SimulatorState.balanceKey a := value]> (SimulatorState.data st))))
      a = Panic "index out of range [7]").
  { unfold SimulatorState.GetBalance. simpl SimulatorState.data.
    rewrite lookup_insert_eq.
    do 8 (destruct value as [|? value]; [reflexivity|]).
    simpl in Hshort. lia. }
  split; [|split].
  - intros Hnone. unfold SimulatorState.GetBalance. rewrite Hnone. reflexivity.
  - exact Hpanic.
  - unfold SimulatorState.TransferBalance.
    rewrite bool_decide_eq_true_2 by exact Hne.
    rewrite Hpanic. reflexivity.
Qed.

(** X7.  A successful transfer between two addresses with different
    balance keys, whose credit does not overflow, moves exactly [amount]:
    the source reads [amount] less, the destination [amount] more, their
    sum is unchanged, and no other entry of the store changes. *)
Theorem TransferBalance_conserves (st : SimulatorState.t)
  (from to : codec.Address) (amount fromBalance toBalance : Z) (key : bytes) :
  from <> codec.EmptyAddress ->
  SimulatorState.balanceKey from <> SimulatorState.balanceKey to ->
  SimulatorState.GetBalance (Some st) from = Ok fromBalance ->
  SimulatorState.GetBalance (Some st) to = Ok toBalance ->
  0 <= amount <= fromBalance ->
  toBalance + amount < 2 ^ 64 ->
  exists st',
    SimulatorState.TransferBalance (Some st) from to amount = (Ok tt, Some st') /\
    SimulatorState.GetBalance (Some st') from = Ok (fromBalance - amount) /\
    SimulatorState.GetBalance (Some st') to = Ok (toBalance + amount) /\
    (fromBalance - amount) + (toBalance + amount) = fromBalance + toBalance /\
    SimulatorState.id st' = SimulatorState.id st /\
    (key <> SimulatorState.balanceKey from ->
     key <> SimulatorState.balanceKey to ->
     SimulatorState.data st' !! key = SimulatorState.data st !! key).
Proof.
  intros Hne Hkeys Hfrom Hto Hamount Hfit.
  pose proof (GetBalance_range _ _ _ Hfrom) as Hfr.
  pose proof (GetBalance_range _ _ _ Hto) as Htr.
  unfold SimulatorState.TransferBalance.
  rewrite bool_decide_eq_true_2 by exact Hne.
  rewrite Hfrom. rewrite (proj2 (Z.ltb_ge _ _)) by lia. cbv zeta.
  assert (Hsub : uint64 (fromBalance - amount) = fromBalance - amount)
    by (unfold uint64; apply Z.mod_small; lia).
  assert (Hadd : uint64 (toBalance + amount) = toBalance + amount)
    by (unfold uint64; apply Z.mod_small; lia).
  rewrite Hsub.
  set (st1 := SimulatorState.store_balance st from
                (PutUint64_BE (fromBalance - amount))).
  assert (Hto1 : SimulatorState.GetBalance (Some st1) to = Ok toBalance)
    by (subst st1; rewrite GetBalance_store_balance_ne by exact Hkeys; exact Hto).
  destruct (credit_spec st1 to amount toBalance Hto1) as [Hc Hg].
  rewrite Hadd in Hc, Hg.
  eexists. split; [exact Hc|]. split; [|split; [exact Hg|]].
  - rewrite GetBalance_store_balance_ne by congruence.
    subst st1. apply GetBalance_store_balance_eq. lia.
  - split; [lia|]. split; [reflexivity|].
    intros Hk1 Hk2. unfold SimulatorState.store_balance. subst st1.
    unfold SimulatorState.store_balance. simpl SimulatorState.data.
    rewrite !lookup_insert_ne by congruence. reflexivity.
Qed.

(** X8.  A transfer from an address to itself, with sufficient balance,
    succeeds and leaves its balance as it was. *)
Theorem TransferBalance_to_self (st : SimulatorState.t) (a : codec.Address)
  (amount balance : Z) :
  a <> codec.EmptyAddress ->
  SimulatorState.GetBalance (Some st) a = Ok balance ->
  0 <= amount <= balance ->
  exists st',
    SimulatorState.TransferBalance (Some st) a a amount = (Ok tt, Some st') /\
    SimulatorState.GetBalance (Some st') a = Ok balance.
Proof.
  intros Hne Hbal Hamount.
  pose proof (GetBalance_range _ _ _ Hbal) as Hr.
  unfold SimulatorState.TransferBalance.
  rewrite bool_decide_eq_true_2 by exact Hne.
  rewrite Hbal. rewrite (proj2 (Z.ltb_ge _ _)) by lia. cbv zeta.
  assert (Hsub : uint64 (balance - amount) = balance - amount)
    by (unfold uint64; apply Z.mod_small; lia).
  rewrite Hsub.
  set (st1 := SimulatorState.store_balance st a (PutUint64_BE (balance - amount))).
  assert (H1 : SimulatorState.GetBalance (Some st1) a = Ok (balance - amount))
    by (subst st1; apply GetBalance_store_balance_eq; lia).
  destruct (credit_spec st1 a amount (balance - amount) H1) as [Hc Hg].
  replace (uint64 (balance - amount + amount)) with balance in Hc, Hg
    by (unfold uint64; rewrite Z.mod_small; lia).
  eexists. split; [exact Hc | exact Hg].
Qed.

(** X9.  Credits are not checked for overflow: when the destination's
    balance plus [amount] reaches [2 ^ 64], minting succeeds and the
    destination is left with [2 ^ 64] less than the sum, which is less
    than it had. *)
Theorem mint_wraps_around (st : SimulatorState.t) (to : codec.Address)
  (amount toBalance : Z) :
  0 <= amount < 2 ^ 64 ->
  SimulatorState.GetBalance (Some st) to = Ok toBalance ->
  2 ^ 64 <= toBalance + amount ->
  exists st',
    SimulatorState.TransferBalance (Some st) codec.EmptyAddress to amount
    = (Ok tt, Some st') /\
    SimulatorState.GetBalance (Some st') to = Ok (toBalance + amount - 2 ^ 64) /\
    toBalance + amount - 2 ^ 64 < toBalance.
Proof.
  intros Hamount Hto Hover.
  pose proof (GetBalance_range _ _ _ Hto) as Hr.
  unfold SimulatorState.TransferBalance.
  rewrite bool_decide_eq_false_2 by (intros Hne; apply Hne; reflexivity).
  destruct (credit_spec st to amount toBalance Hto) as [Hc Hg].
  assert (Hw : uint64 (toBalance + amount) = toBalance + amount - 2 ^ 64).
  { unfold uint64. symmetry.
    apply (Z.mod_unique _ _ 1); [left; lia | lia]. }
  rewrite Hw in Hc, Hg.
  eexists. split; [exact Hc|]. split; [exact Hg | lia].
Qed.

End WithStringer.

(** X10.  The balance manager of the runtime tests: a transfer of more
    than the source holds fails with ["insufficient balance"] and changes
    nothing; otherwise, between two different addresses and without
    overflow, the source reads [amount] less and the destination [amount]
    more.  The empty address is a source like any other. *)
Theorem TestStateManager_TransferBalance (m : TestStateManager.t)
  (from to : codec.Address) (amount fromBalance toBalance : Z) :
  TestStateManager.GetBalance m from = Ok fromBalance ->
  TestStateManager.GetBalance m to = Ok toBalance ->
  (fromBalance < amount ->
   TestStateManager.TransferBalance m from to amount
   = (Err (errorString "insufficient balance"), m)) /\
  (amount <= fromBalance -> from <> to ->
   0 <= fromBalance - amount < 2 ^ 64 -> 0 <= toBalance + amount < 2 ^ 64 ->
   let m' := snd (TestStateManager.TransferBalance m from to amount) in
   fst (TestStateManager.TransferBalance m from to amount) = Ok tt /\
   TestStateManager.GetBalance m' from = Ok (fromBalance - amount) /\
   TestStateManager.GetBalance m' to = Ok (toBalance + amount)).
Proof.
  intros Hfrom Hto.
  unfold TestStateManager.TransferBalance. rewrite Hfrom.
  unfold TestStateManager.GetBalance, TestStateManager.balance_of in *.
  unfold TestStateManager.t in *. split.
  - intros Hlt. rewrite (proj2 (Z.ltb_lt _ _) Hlt). reflexivity.
  - intros Hge Hne Hr1 Hr2. cbv zeta.
    rewrite (proj2 (Z.ltb_ge _ _)) by lia. simpl fst. simpl snd.
    assert (Hkeys : codec.slice from <> codec.slice to).
    { intros Heq. apply Hne. apply vec_to_list_inj2. exact Heq. }
    assert (Hbf : default 0 (m !! codec.slice from) = fromBalance)
      by (destruct (m !! codec.slice from); simpl; congruence).
    assert (Hbt : default 0 (m !! codec.slice to) = toBalance)
      by (destruct (m !! codec.slice to); simpl; congruence).
    rewrite Hbf.
    rewrite (lookup_insert_ne m (codec.slice from) (codec.slice to)) by exact Hkeys.
    rewrite Hbt.
    rewrite lookup_insert_ne by congruence.
    rewrite !lookup_insert_eq.
    unfold uint64. rewrite !Z.mod_small by lia.
    repeat split.
Qed.

End BalanceLaws.

(** ** Fuel helpers *)

Module FuelLaws.

(** X11.  On a metered store [AddFuel(n)] followed by [ConsumeFuel(n)]
    gives back the fuel there was, as long as the sum fits a [uint64];
    when it does not, [AddFuel] wraps around and leaves less fuel than
    before.  On a store without metering [AddFuel] changes nothing and
    [RemainingFuel] answers the [Fuel] of the CallInfo. *)
Theorem AddFuel_then_ConsumeFuel {S} (c : CallInfo) (n remaining : Z)
  (w : World S) :
  0 <= n < 2 ^ 64 -> 0 <= remaining < 2 ^ 64 ->
  (fuel (machine w) = Some remaining ->
   (remaining + n < 2 ^ 64 ->
    fst (RemainingFuel c (snd (AddFuel c n w))) = Ok (remaining + n) /\
    ConsumeFuel c n (snd (AddFuel c n w)) = (Ok tt, set_fuel w remaining)) /\
   (2 ^ 64 <= remaining + n ->
    fst (RemainingFuel c (snd (AddFuel c n w)))
    = Ok (remaining + n - 2 ^ 64) /\
    remaining + n - 2 ^ 64 < remaining)) /\
  (fuel (machine w) = None ->
   AddFuel c n w = (Ok tt, w) /\ RemainingFuel c w = (Ok (Fuel c), w)).
Proof.
  intros Hn Hr. split.
  - intros Hfuel.
    assert (Hadd : AddFuel c n w = (Ok tt, set_fuel w (uint64 (remaining + n)))).
    { destruct w as [[s f m r] t]. simpl in Hfuel. subst f. reflexivity. }
    rewrite Hadd. simpl snd. split.
    + intros Hfit.
      assert (Hu : uint64 (remaining + n) = remaining + n)
        by (unfold uint64; apply Z.mod_small; lia).
      rewrite Hu. split; [reflexivity|].
      unfold ConsumeFuel, bind, GetFuel, SetFuel. simpl.
      rewrite (proj2 (Z.ltb_ge _ _)) by lia.
      replace (uint64 (remaining + n - n)) with remaining
        by (unfold uint64; rewrite Z.mod_small; lia).
      reflexivity.
    + intros Hover.
      assert (Hu : uint64 (remaining + n) = remaining + n - 2 ^ 64).
      { unfold uint64. symmetry.
        apply (Z.mod_unique _ _ 1); [left; lia | lia]. }
      rewrite Hu. split; [reflexivity | lia].
  - intros Hfuel. unfold AddFuel, RemainingFuel, GetFuel. rewrite Hfuel.
    split; reflexivity.
Qed.

(** X12.  [ConsumeFuel] never raises the fuel, whatever it returns, and
    consuming [a] and then [b] is consuming [a + b] at once whenever
    [a + b] is available. *)
Theorem ConsumeFuel_composes {S} (c : CallInfo) (a b remaining : Z)
  (w : World S) :
  0 <= a -> 0 <= b -> remaining < 2 ^ 64 ->
  fuel (machine w) = Some remaining ->
  (exists left,
      fuel (machine (snd (ConsumeFuel c a w))) = Some left /\
      left <= remaining /\
      (left = remaining \/ left = remaining - a)) /\
  (a + b <= remaining ->
   snd (ConsumeFuel c b (snd (ConsumeFuel c a w)))
   = snd (ConsumeFuel c (a + b) w) /\
   fst (ConsumeFuel c b (snd (ConsumeFuel c a w))) = Ok tt).
Proof.
  intros Ha Hb Hr Hfuel.
  assert (Hok : forall n, 0 <= n -> n <= remaining ->
    ConsumeFuel c n w = (Ok tt, set_fuel w (remaining - n))).
  { intros n Hn Hle. destruct w as [[s f m r] t]. simpl in Hfuel. subst f.
    unfold ConsumeFuel, bind, GetFuel, SetFuel. simpl.
    rewrite (proj2 (Z.ltb_ge _ _)) by lia.
    unfold uint64. rewrite Z.mod_small by lia. reflexivity. }
  split.
  - destruct (Z.lt_ge_cases remaining a) as [Hlt|Hge].
    + exists remaining. unfold ConsumeFuel, bind, GetFuel. rewrite Hfuel.
      rewrite (proj2 (Z.ltb_lt _ _) Hlt). simpl.
      split; [exact Hfuel|]. split; [lia | left; reflexivity].
    + exists (remaining - a). rewrite Hok by lia. simpl.
      split; [reflexivity|]. split; [lia | right; reflexivity].
  - intros Hsum. rewrite (Hok a) by lia. rewrite (Hok (a + b)) by lia.
    simpl snd.
    unfold ConsumeFuel, bind, GetFuel, SetFuel. simpl.
    rewrite (proj2 (Z.ltb_ge _ _)) by lia.
    unfold uint64. rewrite Z.mod_small by lia.
    unfold set_fuel. simpl.
    replace (remaining - a - b) with (remaining - (a + b)) by lia.
    split; reflexivity.
Qed.

End FuelLaws.

(** ** [call], [writeToMemory] and the parameter buffer *)

Module CallLaws.

Import GoFacts KeyFacts.

Ltac step_call H :=
  repeat first
    [ progress cbn [fst snd machine trace state fuel memory result_] in H
    | match type of H with
      | context [match ?x with _ => _ end] =>
          lazymatch x with
          | context [match _ with _ => _ end] => fail
          | _ => destruct x eqn:?
          end
      end ].

Ltac unfold_call H :=
  unfold call in H; rewrite CallFacts.customSerialize_spec in H;
  cbn [ctx_Contract ctx_Actor ctx_Height ctx_Timestamp ctx_ActionID app] in H;
  unfold writeToMemory, State_TransferBalance, call_entry, run_guest,
    write_memory, GetFunc, GetFuel, SetFuel, bind, ret, fail, panic, lift,
    emit in H.

(** [PutUint64_LE] writes different bytes for different [uint64]s. *)
Lemma PutUint64_LE_inj (a b : Z) :
  0 <= a < 2 ^ 64 -> 0 <= b < 2 ^ 64 ->
  PutUint64_LE a = PutUint64_LE b -> a = b.
Proof.
  intros Ha Hb Heq. apply (f_equal LE_value) in Heq.
  rewrite !LE_value_PutUint64_LE in Heq by assumption. exact Heq.
Qed.

(** X13.  The parameter buffer can be read back without ambiguity: two
    buffers (serialized context followed by the params) that are equal come
    from the same context and the same params, for heights and timestamps
    that are [uint64] values. *)
Theorem customSerialize_injective (c1 c2 : ContractContext)
  (b1 b2 params1 params2 : bytes) :
  0 <= ctx_Height c1 < 2 ^ 64 -> 0 <= ctx_Height c2 < 2 ^ 64 ->
  0 <= ctx_Timestamp c1 < 2 ^ 64 -> 0 <= ctx_Timestamp c2 < 2 ^ 64 ->
  customSerialize c1 [] = Ok b1 ->
  customSerialize c2 [] = Ok b2 ->
  b1 ++ params1 = b2 ++ params2 ->
  c1 = c2 /\ params1 = params2.
Proof.
  intros Hh1 Hh2 Ht1 Ht2 H1 H2 Heq.
  assert (Hbuf : forall c b, customSerialize c [] = Ok b ->
    b = codec.slice (ctx_Contract c) ++ codec.slice (ctx_Actor c)
          ++ PutUint64_LE (ctx_Height c) ++ PutUint64_LE (ctx_Timestamp c)
          ++ ids.slice (ctx_ActionID c)).
  { intros c b Hb. rewrite CallFacts.customSerialize_spec in Hb.
    apply (f_equal (fun r => match r with Ok x => x | _ => [] end)) in Hb.
    symmetry. exact Hb. }
  apply Hbuf in H1, H2. subst b1 b2.
  rewrite <- !app_assoc in Heq.
  apply app_inj_1 in Heq; [|rewrite !length_slice; reflexivity].
  destruct Heq as [Hc Heq].
  apply app_inj_1 in Heq; [|rewrite !length_slice; reflexivity].
  destruct Heq as [Ha Heq].
  apply app_inj_1 in Heq; [|reflexivity].
  destruct Heq as [Hh Heq].
  apply app_inj_1 in Heq; [|reflexivity].
  destruct Heq as [Ht Heq].
  apply app_inj_1 in Heq;
    [|unfold ids.slice; rewrite !length_vec_to_list; reflexivity].
  destruct Heq as [Hi Hp].
  apply vec_to_list_inj2 in Hc. apply vec_to_list_inj2 in Ha.
  apply vec_to_list_inj2 in Hi.
  apply PutUint64_LE_inj in Hh; [|assumption..].
  apply PutUint64_LE_inj in Ht; [|assumption..].
  destruct c1, c2; simpl in *; subst. split; reflexivity.
Qed.

Section WithState.
Context {S : Type} `{BalanceManager S}.

(** X14.  One [call] does at most four things, in this order: one balance
    transfer (only when [Value > 0]), one call of the allocator for the
    length of the buffer, one copy of the buffer into linear memory, and one
    call of the entry point named in the CallInfo at the offset of the
    copy.  It stops early on the first failure, and it returns a result
    only after all of them: the store meters fuel, the transfer (if any)
    succeeded, the exported allocator returned the offset, the copy of the
    buffer to that offset succeeded, and the exported function of that name,
    run on the memory holding the buffer with the offset as its argument,
    returned without a trap; the result is what that run left in the
    result slot, and the machine is the one it left behind. *)
Theorem call_trace_shape (p : Instance S) (callInfo : CallInfo)
  (w : World S) :
  let transfer := EvTransferBalance (Actor callInfo) (Contract callInfo)
                                    (Value callInfo) in
  let buffer :=
    codec.slice (Contract callInfo) ++ codec.slice (Actor callInfo)
      ++ PutUint64_LE (Height callInfo) ++ PutUint64_LE (Timestamp callInfo)
      ++ ids.slice (ActionID callInfo) ++ Params callInfo in
  exists evs offset mem,
    let all :=
      (if Value callInfo >? 0 then [transfer] else [])
        ++ [ EvAlloc (int32 (len buffer));
             EvMemoryWrite offset buffer;
             EvEntry (FunctionName callInfo) offset mem ] in
    trace (snd (call p callInfo w)) = trace w ++ evs /\
    (exists rest, all = evs ++ rest) /\
    (forall r, fst (call p callInfo w) = Ok r ->
       evs = all /\
       r = result_ (machine (snd (call p callInfo w))) /\
       exists remaining balances allocFn function afterAlloc returned,
         fuel (machine w) = Some remaining /\
         (if Value callInfo >? 0 then
            BalanceManager_TransferBalance (state (machine w))
              (Actor callInfo) (Contract callInfo) (Value callInfo)
            = (Ok tt, balances)
          else balances = state (machine w)) /\
         p AllocName = Some (ExternFunc allocFn) /\
         p MemoryName = Some ExternMemory /\
         allocFn (mkMachine balances
                            (Some (uint64 (remaining + Fuel callInfo)))
                            (memory (machine w)) (result_ (machine w)))
                 (int32 (len buffer))
         = (Ok (ValI32 offset), afterAlloc) /\
         copy_at (memory afterAlloc) offset buffer = Ok mem /\
         p (FunctionName callInfo) = Some (ExternFunc function) /\
         function (mkMachine (state afterAlloc) (fuel afterAlloc) mem
                             (result_ afterAlloc)) offset
         = (Ok returned, machine (snd (call p callInfo w)))).
Proof.
  intros transfer buffer.
  remember (call p callInfo w) as R eqn:HR.
  unfold_call HR. rewrite <- !app_assoc in HR. fold buffer in HR.
  step_call HR; subst R; cbn [fst snd trace machine result_].
  all: rewrite <- ?app_assoc; cbn [app].
  all: eexists _, _, _; split;
    [ first [ reflexivity | symmetry; apply app_nil_r ] |].
  all: split; [eexists; cbn [app]; reflexivity|].
  all: intros res_ Hres_; try discriminate Hres_; injection Hres_ as <-.
  all: split; [reflexivity|]; split; [reflexivity|].
  all: repeat match goal with
       | u : unit |- _ => destruct u
       | Hs : Some _ = Some _ |- _ => injection Hs as Hs; subst
       end.
  all: eexists _, _, _, _, _, _.
  all: repeat (split; [first [eassumption | reflexivity]|]).
  all: first [eassumption | reflexivity].
  Unshelve. all: first [exact 0 | exact []].
Qed.

(** X15.  [call] never undoes the balance transfer.  When the transfer
    succeeded and the guest's functions leave the balances alone, the
    balances after [call] are those the transfer produced, whether [call]
    returns a result, an error (unknown function, trap, missing allocator)
    or panics. *)
Theorem call_does_not_roll_back (p : Instance S) (callInfo : CallInfo)
  (w : World S) (remaining : Z) (s' : S) :
  (forall name f m arg,
      p name = Some (ExternFunc f) -> state (snd (f m arg)) = state m) ->
  fuel (machine w) = Some remaining ->
  Value callInfo > 0 ->
  BalanceManager_TransferBalance (state (machine w)) (Actor callInfo)
    (Contract callInfo) (Value callInfo) = (Ok tt, s') ->
  state (machine (snd (call p callInfo w))) = s'.
Proof.
  intros Hguest Hfuel Hvalue Htransfer.
  assert (Hgt : (Value callInfo >? 0) = true) by (apply Z.gtb_lt; lia).
  destruct w as [[s0 f0 mem0 r0] t0].
  cbn [machine state fuel] in Hfuel, Htransfer. subst f0.
  remember (call p callInfo (mkWorld (mkMachine s0 (Some remaining) mem0 r0) t0))
    as R eqn:HR.
  unfold_call HR. rewrite Hgt in HR.
  cbn [fst snd machine trace state fuel memory result_] in HR.
  rewrite Htransfer in HR.
  step_call HR; subst R; cbn [fst snd trace machine state]; try reflexivity;
    repeat match goal with
    | Hp : _ ?name = Some (ExternFunc ?f), Hf : ?f ?m ?arg = (_, _) |- _ =>
        let Hs := fresh "Hs" in
        pose proof (Hguest name f m arg Hp) as Hs;
        rewrite Hf in Hs; cbn [snd state] in Hs; clear Hf
    end;
    congruence.
Qed.

(** X16.  A function name the instance does not export is found out only
    after the transfer, the allocation and the copy have been made: the
    error is ["function <name> does not exist"], the balances are the ones
    after the transfer and linear memory holds the buffer. *)
Theorem call_unknown_function (p : Instance S) (callInfo : CallInfo)
  (w : World S) (remaining offset : Z) (s' : S) allocFn (m1 : Machine S)
  (mem' : bytes) :
  let buffer :=
    codec.slice (Contract callInfo) ++ codec.slice (Actor callInfo)
      ++ PutUint64_LE (Height callInfo) ++ PutUint64_LE (Timestamp callInfo)
      ++ ids.slice (ActionID callInfo) ++ Params callInfo in
  let fuelled :=
    mkMachine s' (Some (uint64 (remaining + Fuel callInfo)))
              (memory (machine w)) (result_ (machine w)) in
  GetFunc p (FunctionName callInfo) = None ->
  fuel (machine w) = Some remaining ->
  Value callInfo > 0 ->
  BalanceManager_TransferBalance (state (machine w)) (Actor callInfo)
    (Contract callInfo) (Value callInfo) = (Ok tt, s') ->
  p AllocName = Some (ExternFunc allocFn) ->
  p MemoryName = Some ExternMemory ->
  allocFn fuelled (int32 (len buffer)) = (Ok (ValI32 offset), m1) ->
  copy_at (memory m1) offset buffer = Ok mem' ->
  call p callInfo w
  = (Err (errorString
            ("function " ++ FunctionName callInfo ++ " does not exist")),
     mkWorld (mkMachine (state m1) (fuel m1) mem' (result_ m1))
             (trace w ++ [ EvTransferBalance (Actor callInfo)
                             (Contract callInfo) (Value callInfo);
                           EvAlloc (int32 (len buffer));
                           EvMemoryWrite offset buffer ])).
Proof.
  intros buffer fuelled Hnone Hfuel Hvalue Htransfer Halloc Hmemory Hrun Hcopy.
  assert (Hgt : (Value callInfo >? 0) = true) by (apply Z.gtb_lt; lia).
  subst fuelled. destruct w as [[s0 f0 mem0 r0] t0].
  cbn [machine state fuel memory result_ trace] in *. subst f0.
  remember (call p callInfo (mkWorld (mkMachine s0 (Some remaining) mem0 r0) t0))
    as R eqn:HR.
  unfold_call HR. rewrite <- !app_assoc in HR. fold buffer in HR.
  rewrite Halloc, Hmemory, Hgt in HR.
  cbn [fst snd machine trace state fuel memory result_] in HR.
  rewrite Htransfer in HR.
  cbn [fst snd machine trace state fuel memory result_] in HR.
  rewrite Hrun in HR.
  cbn [fst snd machine trace state fuel memory result_] in HR.
  rewrite Hcopy in HR.
  cbn [fst snd machine trace state fuel memory result_] in HR.
  unfold GetFunc in Hnone.
  destruct (p (FunctionName callInfo)) as [[f| |]|]; [discriminate Hnone|..];
    rewrite <- ?app_assoc in HR; exact HR.
Qed.

(** X17.  What [writeToMemory] does to linear memory.  When the allocator
    answers an offset inside memory, the bytes before the offset and the
    bytes after the end of the data are untouched, memory keeps its length,
    and the region at the offset holds the data, cut to what fits; state,
    fuel and result slot are as the allocator left them.  When the offset
    is negative or beyond the end of memory the copy panics and memory is
    as the allocator left it. *)
Theorem writeToMemory_frame (p : Instance S) (data : bytes) (w : World S)
  allocFn (offset : Z) (m1 : Machine S) :
  p AllocName = Some (ExternFunc allocFn) ->
  p MemoryName = Some ExternMemory ->
  allocFn (machine w) (int32 (len data)) = (Ok (ValI32 offset), m1) ->
  let k := Z.to_nat offset in
  let after := machine (snd (writeToMemory p data w)) in
  (0 <= offset <= len (memory m1) ->
   fst (writeToMemory p data w) = Ok offset /\
   state after = state m1 /\ fuel after = fuel m1 /\
   result_ after = result_ m1 /\
   length (memory after) = length (memory m1) /\
   firstn k (memory after) = firstn k (memory m1) /\
   skipn (k + length data) (memory after)
   = skipn (k + length data) (memory m1) /\
   firstn (length data) (skipn k (memory after))
   = firstn (length (memory m1) - k) data) /\
  (offset < 0 \/ len (memory m1) < offset ->
   writeToMemory p data w
   = (Panic "slice bounds out of range",
      mkWorld m1 (trace w ++ [EvAlloc (int32 (len data))]))).
Proof.
  intros Halloc Hmemory Hrun k after.
  assert (Hw : writeToMemory p data w
    = match copy_at (memory m1) offset data with
      | Ok linearMem =>
          (Ok offset,
           mkWorld (mkMachine (state m1) (fuel m1) linearMem (result_ m1))
                   (trace w ++ [EvAlloc (int32 (len data));
                                EvMemoryWrite offset data]))
      | Err e => (Err e, mkWorld m1 (trace w ++ [EvAlloc (int32 (len data))]))
      | Panic msg =>
          (Panic msg, mkWorld m1 (trace w ++ [EvAlloc (int32 (len data))]))
      end).
  { unfold writeToMemory. rewrite Halloc, Hmemory.
    unfold run_guest, write_memory, bind, ret, emit.
    cbn [fst snd machine trace]. rewrite Hrun.
    cbn [fst snd machine trace].
    destruct (copy_at (memory m1) offset data);
      cbn [fst snd machine trace]; rewrite <- ?app_assoc; reflexivity. }
  split.
  - intros Hin. subst after. rewrite Hw. unfold copy_at, len in *.
    rewrite (proj2 (orb_false_iff _ _))
      by (split; apply Z.ltb_ge; lia).
    cbn [fst snd machine state fuel memory result_]. fold k.
    set (mem := memory m1).
    assert (Hk : (k <= length mem)%nat) by (subst k mem; lia).
    assert (Hpre : length (firstn k mem) = k)
      by (rewrite length_firstn; lia).
    do 4 (split; [reflexivity|]).
    split.
    { rewrite length_app, copy_length, length_firstn, length_skipn. lia. }
    split.
    { rewrite <- Hpre at 1. rewrite take_app_length. reflexivity. }
    assert (Hdrop : skipn k (firstn k mem ++ copy (skipn k mem) data)
                    = copy (skipn k mem) data).
    { rewrite <- Hpre at 1. apply drop_app_length. }
    split.
    + rewrite Nat.add_comm, <- !skipn_skipn. rewrite Hdrop.
      unfold copy. rewrite length_skipn.
      destruct (Nat.le_gt_cases (length data) (length mem - k)) as [Hfit|Hcut].
      * rewrite Nat.min_r by lia. rewrite firstn_all.
        rewrite drop_app_length. reflexivity.
      * rewrite !skipn_all2; [reflexivity | |].
        -- rewrite length_skipn. lia.
        -- rewrite length_app, length_firstn, length_skipn, length_skipn. lia.
    + rewrite Hdrop. unfold copy. rewrite length_skipn.
      destruct (Nat.le_gt_cases (length data) (length mem - k)) as [Hfit|Hcut].
      * rewrite Nat.min_r by lia. rewrite firstn_all.
        rewrite take_app_length.
        rewrite firstn_all2 by lia. reflexivity.
      * rewrite Nat.min_l by lia.
        rewrite (skipn_all2 (n := (length mem - k)%nat))
          by (rewrite length_skipn; lia).
        rewrite app_nil_r. apply firstn_all2.
        rewrite length_firstn. lia.
  - intros Hout. rewrite Hw. unfold copy_at.
    assert (Hb : (offset <? 0) || (len (memory m1) <? offset) = true).
    { apply orb_true_iff. destruct Hout; [left|right]; apply Z.ltb_lt; lia. }
    rewrite Hb. reflexivity.
Qed.

End WithState.

End CallLaws.

(** ** The security rules of [DefaultValidator] *)

Module ValidatorLaws.

Import wasmtime validators LoopFacts ValidatorFacts.

Lemma then_None_iff (a b : option (result unit)) :
  then_ a b = None <-> a = None /\ b = None.
Proof.
  destruct a; simpl; split; try tauto; try discriminate.
Qed.

(** A loop whose body never returns [nil] does not return [nil]. *)
Lemma range_not_Ok {A} (body : A -> option (result unit)) (l : list A) :
  (forall x u, body x <> Some (Ok u)) ->
  forall u, range body l <> Some (Ok u).
Proof.
  intros Hbody u Hr. destruct (range_Some _ _ _ Hr) as [x [_ Hx]].
  exact (Hbody x u Hx).
Qed.

Lemma or_nil_Ok_iff (o : option (result unit)) :
  (forall u, o <> Some (Ok u)) -> (or_nil o = Ok tt <-> o = None).
Proof.
  intros Hno. destruct o as [[[]|e|msg]|]; simpl; split; try discriminate;
    try reflexivity; intros _.
  exfalso. exact (Hno tt eq_refl).
Qed.

Lemma return_if_err_not_Ok (r : result unit) (wrap : error -> error) (u : unit) :
  return_if_err r wrap <> Some (Ok u).
Proof. destruct r; discriminate. Qed.

Lemma return_if_err_None_iff (r : result unit) (wrap : error -> error) :
  return_if_err r wrap = None <-> r = Ok tt.
Proof.
  destruct r as [[]|e|msg]; simpl; split; try discriminate; reflexivity.
Qed.

Lemma then_not_Ok (a b : option (result unit)) :
  (forall u, a <> Some (Ok u)) -> (forall u, b <> Some (Ok u)) ->
  forall u, then_ a b <> Some (Ok u).
Proof. intros Ha Hb u. destruct a; simpl; [apply Ha | apply Hb]. Qed.

(** [validateType] compares the name of the kind with the deny list. *)
Lemma validateType_Ok_iff (kind : ValKind) (rule : SecurityRule) :
  validateType kind rule = Ok tt <-> ~ In (typeName kind) (DenyList rule).
Proof.
  unfold validateType.
  destruct (len (DenyList rule) =? 0) eqn:Hlen.
  - apply Z.eqb_eq in Hlen. unfold len in Hlen.
    destruct (DenyList rule); [|simpl in Hlen; lia].
    split; [intros _ []| reflexivity].
  - clear Hlen. induction (DenyList rule) as [|d l IH]; simpl.
    + split; [intros _ [] | reflexivity].
    + destruct (String.eqb_spec d (typeName kind)) as [->|Hne].
      * simpl. split; [discriminate | intros Hn; exfalso; apply Hn; left; reflexivity].
      * rewrite IH. split; [intros Hn [Heq|Hin]; [congruence | exact (Hn Hin)]|].
        intros Hn Hin. apply Hn. right. exact Hin.
Qed.

Lemma validate_signature_not_Ok (ft : FuncType) (rule : SecurityRule)
  (m1 m2 : string) (u : unit) :
  validate_signature ft rule m1 m2 <> Some (Ok u).
Proof.
  unfold validate_signature. apply then_not_Ok; intros u';
    apply range_not_Ok; intros k u''; apply return_if_err_not_Ok.
Qed.

Lemma validate_signature_None_iff (ft : FuncType) (rule : SecurityRule)
  (m1 m2 : string) :
  validate_signature ft rule m1 m2 = None <->
  (forall kind, In kind (Params ft ++ Results ft) ->
                ~ In (typeName kind) (DenyList rule)).
Proof.
  unfold validate_signature. rewrite then_None_iff, !range_None_iff. split.
  - intros [Hp Hr] kind Hin. apply validateType_Ok_iff.
    apply in_app_or in Hin. destruct Hin as [Hin|Hin].
    + eapply return_if_err_None_iff. exact (Hp kind Hin).
    + eapply return_if_err_None_iff. exact (Hr kind Hin).
  - intros Hall. split; intros kind Hin; apply return_if_err_None_iff;
      apply validateType_Ok_iff; apply Hall; apply in_or_app; tauto.
Qed.

(** X18.  An instruction rule looks at signatures only: it accepts a
    module exactly when no function-typed export or import has a parameter
    or result whose type name is on the rule's deny list.  The type name
    is [i32], [i64], [f32], [f64], [externref] or [funcref], and the empty
    string for a kind that is none of these six (the [switch] has no
    default), so a deny list that holds the empty string rejects such a
    parameter.  Instruction names on the deny list are compared with type
    names and so never match. *)
Theorem validateInstructions_Ok_iff (wmod : Module) (rule : SecurityRule) :
  validateInstructions wmod rule = Ok tt <->
  (forall exp ft kind,
      In exp (Exports wmod) -> exp_Type exp = Func ft ->
      In kind (Params ft ++ Results ft) ->
      ~ In (typeName kind) (DenyList rule)) /\
  (forall imp ft kind,
      In imp (Imports wmod) -> imp_Type imp = Func ft ->
      In kind (Params ft ++ Results ft) ->
      ~ In (typeName kind) (DenyList rule)).
Proof.
  unfold validateInstructions. cbv zeta.
  rewrite or_nil_Ok_iff.
  - rewrite then_None_iff, !range_None_iff. split.
    + intros [He Hi]. split.
      * intros exp ft kind Hin Hty. specialize (He exp Hin).
        rewrite Hty in He. simpl in He.
        apply (proj1 (validate_signature_None_iff _ _ _ _) He).
      * intros imp ft kind Hin Hty. specialize (Hi imp Hin).
        rewrite Hty in Hi. simpl in Hi.
        apply (proj1 (validate_signature_None_iff _ _ _ _) Hi).
    + intros [He Hi]. split.
      * intros exp Hin. destruct (exp_Type exp) as [ft| | |] eqn:Hty;
          try reflexivity. simpl.
        apply validate_signature_None_iff. intros kind. apply (He exp ft kind Hin Hty).
      * intros imp Hin. destruct (imp_Type imp) as [ft| | |] eqn:Hty;
          try reflexivity. simpl.
        apply validate_signature_None_iff. intros kind. apply (Hi imp ft kind Hin Hty).
  - apply then_not_Ok; intros u; apply range_not_Ok; intros x u';
      destruct (FuncType_of _); try discriminate;
      apply validate_signature_not_Ok.
Qed.

Lemma float_check_cases (rule : SecurityRule) (kind : ValKind) :
  float_check rule kind
  = if is_float kind then
      Some (if len (AllowList rule) >? 0 then Ok tt
            else Err (NewValidationError "floating point operations not allowed"
                        (rule_Name rule) None))
    else None.
Proof.
  unfold float_check. destruct (is_float kind); [|reflexivity].
  destruct (len (AllowList rule) >? 0); reflexivity.
Qed.

Lemma len_pos_iff {A} (l : list A) : (len l >? 0) = true <-> l <> [].
Proof.
  unfold len. destruct l; simpl; split; try congruence; try discriminate.
  - intros _. apply Z.gtb_lt. lia.
Qed.

(** With a non-empty allow list the first float found ends the check
    with [nil]. *)
Lemma validateFloatingPoint_allowing (wmod : Module) (rule : SecurityRule) :
  (len (AllowList rule) >? 0) = true ->
  validateFloatingPoint wmod rule = Ok tt.
Proof.
  intros Hallow. unfold validateFloatingPoint. cbv zeta.
  destruct (range _ (Exports wmod)) as [r|] eqn:Hr; [|reflexivity].
  simpl. destruct (range_Some _ _ _ Hr) as [exp [_ Hexp]].
  destruct (FuncType_of (exp_Type exp)) as [ft|]; [|discriminate].
  assert (Hin : forall l r', range (float_check rule) l = Some r' -> r' = Ok tt).
  { intros l r' Hl. destruct (range_Some _ _ _ Hl) as [k [_ Hk]].
    rewrite float_check_cases, Hallow in Hk.
    destruct (is_float k); [congruence | discriminate]. }
  destruct (range (float_check rule) (Params ft)) as [r1|] eqn:Hp;
    simpl in Hexp.
  - injection Hexp as <-. apply (Hin _ _ Hp).
  - apply (Hin _ _ Hexp).
Qed.

(** X19.  A floating-point rule with a non-empty allow list accepts every
    module; with an empty allow list it accepts exactly the modules none of
    whose exported functions has an [f32] or [f64] parameter or result.
    Imported functions are not looked at. *)
Theorem validateFloatingPoint_Ok_iff (wmod : Module) (rule : SecurityRule) :
  validateFloatingPoint wmod rule = Ok tt <->
  AllowList rule <> [] \/
  (forall exp ft kind,
      In exp (Exports wmod) -> exp_Type exp = Func ft ->
      In kind (Params ft ++ Results ft) -> is_float kind = false).
Proof.
  unfold validateFloatingPoint. cbv zeta.
  destruct (len (AllowList rule) >? 0) eqn:Hallow.
  - assert (Hne : AllowList rule <> []) by (apply len_pos_iff; exact Hallow).
    split; [intros _; left; exact Hne|]. intros _.
    apply (validateFloatingPoint_allowing wmod rule Hallow).
  - assert (Hempty : AllowList rule = []).
    { destruct (AllowList rule) as [|a l] eqn:Hl; [reflexivity|].
      assert (Hpos : (len (a :: l) >? 0) = true)
        by (apply len_pos_iff; discriminate).
      rewrite Hpos in Hallow. discriminate. }
    assert (Hno : forall l u, range (float_check rule) l <> Some (Ok u)).
    { intros l. apply range_not_Ok. intros k u.
      rewrite float_check_cases, Hallow. destruct (is_float k); discriminate. }
    assert (Hnone : forall l,
      range (float_check rule) l = None <-> forall k, In k l -> is_float k = false).
    { intros l. rewrite range_None_iff. split; intros Hall k Hk;
        specialize (Hall k Hk); rewrite float_check_cases in *.
      - destruct (is_float k); [discriminate | reflexivity].
      - rewrite Hall. reflexivity. }
    rewrite or_nil_Ok_iff.
    + rewrite range_None_iff. split.
      * intros Hall. right. intros exp ft kind Hin Hty Hk.
        specialize (Hall exp Hin). rewrite Hty in Hall. simpl in Hall.
        apply then_None_iff in Hall. destruct Hall as [Hp Hr].
        apply in_app_or in Hk. destruct Hk as [Hk|Hk].
        -- apply (proj1 (Hnone _) Hp _ Hk).
        -- apply (proj1 (Hnone _) Hr _ Hk).
      * intros [Hne|Hall]; [contradiction|]. intros exp Hin.
        destruct (exp_Type exp) as [ft| | |] eqn:Hty; try reflexivity. simpl.
        apply then_None_iff. split; apply Hnone; intros k Hk;
          apply (Hall exp ft k Hin Hty); apply in_or_app; tauto.
    + apply range_not_Ok. intros exp u.
      destruct (FuncType_of (exp_Type exp)); [|discriminate].
      apply then_not_Ok; intros u'; apply Hno.
Qed.

(** The deny-list loop of [validateMemoryOperations] on one memory. *)
Lemma grow_loop (rule_name : string) (mt : MemoryType) (deny : list string) :
  range
    (fun denied =>
       if String.eqb denied "memory.grow" then
         match mem_Maximum mt with
         | None =>
             Some (Err (NewValidationError
                          "unbounded memory growth not allowed" rule_name None))
         | Some _ => None
         end
       else None) deny
  = if existsb (fun denied => String.eqb denied "memory.grow") deny then
      match mem_Maximum mt with
      | None =>
          Some (Err (NewValidationError
                       "unbounded memory growth not allowed" rule_name None))
      | Some _ => None
      end
    else None.
Proof.
  induction deny as [|d l IH]; [reflexivity|]. simpl.
  destruct (String.eqb d "memory.grow"); simpl; [|exact IH].
  destruct (mem_Maximum mt); [|reflexivity].
  rewrite IH. destruct (existsb _ l); reflexivity.
Qed.

Lemma denies_grow_iff (deny : list string) :
  existsb (fun denied => String.eqb denied "memory.grow") deny = true <->
  In "memory.grow"%string deny.
Proof.
  rewrite existsb_exists. split.
  - intros [d [Hin Heq]]. apply String.eqb_eq in Heq. subst d. exact Hin.
  - intros Hin. exists "memory.grow"%string. split; [exact Hin | reflexivity].
Qed.

Lemma denies_grow_false (deny : list string) :
  ~ In "memory.grow"%string deny ->
  existsb (fun denied => String.eqb denied "memory.grow") deny = false.
Proof.
  intros Hnin. destruct (existsb _ deny) eqn:E; [|reflexivity].
  exfalso. apply Hnin. apply denies_grow_iff. exact E.
Qed.

(** A memory rule that does not deny [memory.grow] accepts everything. *)
Lemma validateMemoryOperations_no_deny (wmod : Module) (rule : SecurityRule) :
  AllowList rule = [] -> ~ In "memory.grow"%string (DenyList rule) ->
  validateMemoryOperations wmod rule = Ok tt.
Proof.
  intros Hallow Hnin. unfold validateMemoryOperations.
  rewrite Hallow. simpl (len [] >? 0).
  replace (range _ (Exports wmod)) with (@None (result unit)); [reflexivity|].
  symmetry. apply range_None_iff. intros exp _.
  destruct (MemoryType_of (exp_Type exp)) as [mt|]; [|reflexivity].
  rewrite grow_loop. rewrite denies_grow_false by exact Hnin. reflexivity.
Qed.

(** X20.  A memory rule with an empty allow list accepts a module exactly
    when [memory.grow] is not on its deny list or every exported memory
    declares a maximum.  With a non-empty allow list only the first
    exported memory is looked at: later memories without a maximum are
    accepted. *)
Theorem validateMemoryOperations_Ok_iff (wmod : Module) (rule : SecurityRule) :
  (AllowList rule = [] ->
   (validateMemoryOperations wmod rule = Ok tt <->
    ~ In "memory.grow"%string (DenyList rule) \/
    (forall exp mt, In exp (Exports wmod) -> exp_Type exp = Memory mt ->
                    mem_Maximum mt <> None))) /\
  (AllowList rule <> [] ->
   forall pre exp mt post,
     Exports wmod = pre ++ exp :: post ->
     (forall e, In e pre -> MemoryType_of (exp_Type e) = None) ->
     exp_Type exp = Memory mt ->
     (validateMemoryOperations wmod rule = Ok tt <->
      ~ In "memory.grow"%string (DenyList rule) \/ mem_Maximum mt <> None)).
Proof.
  unfold validateMemoryOperations. split.
  - intros Hallow. rewrite Hallow. simpl (len [] >? 0).
    rewrite or_nil_Ok_iff.
    + rewrite range_None_iff. split.
      * intros Hall.
        destruct (existsb (fun d => String.eqb d "memory.grow") (DenyList rule))
          eqn:Hdeny.
        2:{ left. intros Hin. apply denies_grow_iff in Hin. congruence. }
        right. intros exp mt Hexp Hty Hmax. specialize (Hall exp Hexp).
        rewrite Hty in Hall. simpl in Hall. rewrite grow_loop in Hall.
        rewrite Hdeny, Hmax in Hall. discriminate.
      * intros Hor exp Hexp.
        destruct (exp_Type exp) as [| |mt|] eqn:Hty; try reflexivity. simpl.
        rewrite grow_loop. destruct Hor as [Hnin|Hall].
        -- rewrite denies_grow_false by exact Hnin. reflexivity.
        -- specialize (Hall exp mt Hexp Hty).
           destruct (existsb _ _); [|reflexivity].
           destruct (mem_Maximum mt); [reflexivity | contradiction].
    + apply range_not_Ok. intros exp u.
      destruct (MemoryType_of (exp_Type exp)) as [mt|]; [|discriminate].
      rewrite grow_loop.
      destruct (existsb _ _); [|discriminate].
      destruct (mem_Maximum mt); discriminate.
  - intros Hallow pre exp mt post Hexports Hpre Hty.
    assert (Hpos : (len (AllowList rule) >? 0) = true)
      by (apply len_pos_iff; exact Hallow).
    rewrite Hexports, range_app.
    replace (range _ pre) with (@None (result unit)).
    2:{ symmetry. apply range_None_iff. intros e He.
        rewrite (Hpre e He). reflexivity. }
    simpl then_ at 1. simpl range. rewrite Hty. simpl MemoryType_of. cbv iota.
    rewrite grow_loop, Hpos.
    destruct (existsb (fun d => String.eqb d "memory.grow") (DenyList rule))
      eqn:Hdeny.
    + apply denies_grow_iff in Hdeny.
      destruct (mem_Maximum mt) as [maxVal|]; simpl.
      * split; [intros _; right; discriminate | reflexivity].
      * split; [discriminate|]. intros [Hn|Hn]; contradiction.
    + simpl. split; [|reflexivity]. intros _. left. intros Hin.
      apply denies_grow_iff in Hin. congruence.
Qed.

(** A rule that lets every module through can be added to the custom
    rules without changing what [ValidateModule] answers. *)
Lemma ValidateModule_AddCustomRule (v : DefaultValidator) (rule : SecurityRule)
  (wasm : bytes) (engine : Engine) :
  (forall wmod, apply_rule wmod rule = None) ->
  ValidateModule (AddCustomRule v rule) wasm engine = ValidateModule v wasm engine.
Proof.
  intros Hrule. unfold ValidateModule, check_size. simpl config.
  destruct (uint32 (len wasm) >? _); [reflexivity|]. simpl then_.
  destruct (NewModule engine wasm) as [wmod|e|msg]; try reflexivity.
  simpl defaultRules. simpl customRules.
  destruct (return_if_err (ValidateSecurityRules wmod (defaultRules v)) _);
    [reflexivity|]. simpl then_.
  assert (Hpos : (len (customRules v ++ [rule]) >? 0) = true)
    by (apply len_pos_iff; destruct (customRules v); discriminate).
  rewrite Hpos.
  assert (Hsame : ValidateSecurityRules wmod (customRules v ++ [rule])
                  = ValidateSecurityRules wmod (customRules v)).
  { unfold ValidateSecurityRules. rewrite range_app. simpl range.
    rewrite Hrule. destruct (range _ (customRules v)); reflexivity. }
  rewrite Hsame.
  destruct (len (customRules v) >? 0) eqn:Hc; [reflexivity|].
  destruct (customRules v) as [|r l] eqn:Hl; [reflexivity|].
  assert (Hp : (len (r :: l) >? 0) = true) by (apply len_pos_iff; discriminate).
  rewrite Hp in Hc. discriminate.
Qed.

(** The rules of the three ready-made options let every module through. *)
Lemma ready_made_step (opt : ValidatorOption) (v : DefaultValidator) :
  ready_made opt ->
  exists rule, opt v = Ok (AddCustomRule v rule) /\
               forall wmod, apply_rule wmod rule = None.
Proof.
  intros [->|[->|[maxPages ->]]]; eexists; (split; [reflexivity|]); intros wmod.
  - unfold apply_rule. simpl String.eqb. cbv iota.
    apply return_if_err_None_iff. apply validateFloatingPoint_allowing.
    reflexivity.
  - unfold apply_rule. simpl String.eqb. cbv iota.
    apply return_if_err_None_iff. apply validateInstructions_passes.
    intros kind. destruct kind; reflexivity.
  - unfold apply_rule. simpl String.eqb. cbv iota.
    apply return_if_err_None_iff.
    apply validateMemoryOperations_no_deny; [reflexivity | intros []].
Qed.

Lemma options_fold (opts : list ValidatorOption) (v0 : DefaultValidator) :
  Forall ready_made opts ->
  exists v,
    fold_left
      (fun acc opt =>
         match acc with
         | Ok v =>
             match opt v with
             | Ok v' => Ok v'
             | Err err =>
                 Err (wrapError "failed to apply validator option: " err)
             | Panic msg => Panic msg
             end
         | other => other
         end)
      opts (Ok v0) = Ok v /\
    length (customRules v) = (length (customRules v0) + length opts)%nat /\
    forall wasm engine,
      ValidateModule v wasm engine = ValidateModule v0 wasm engine.
Proof.
  intros Hall. revert v0.
  induction Hall as [|opt opts Hopt _ IH]; intros v0.
  - exists v0. simpl. split; [reflexivity|]. split; [lia | reflexivity].
  - destruct (ready_made_step opt v0 Hopt) as [rule [Hstep Hrule]].
    destruct (IH (AddCustomRule v0 rule)) as [v [Hfold [Hlen Hsame]]].
    exists v. simpl fold_left. rewrite Hstep. split; [exact Hfold|]. split.
    + rewrite Hlen. simpl customRules. rewrite length_app. simpl. lia.
    + intros wasm engine. rewrite Hsame.
      apply ValidateModule_AddCustomRule. exact Hrule.
Qed.

(** X21.  A validator built by [NewDefaultValidatorWithOptions] from any
    number of the three ready-made options ([WithDeterministicFloatingPoint],
    [WithRestrictedInstructions], [WithCustomMemoryLimits]) is built without
    error, holds one custom rule per option, and answers every module
    exactly as the validator built without options: none of the three
    rules ever rejects a module.  The [Validator] function of the memory
    limit rule is not called, because the rule has type [memory]. *)
Theorem ready_made_options_change_nothing (opts : list ValidatorOption) :
  Forall ready_made opts ->
  exists v,
    NewDefaultValidatorWithOptions opts = Ok v /\
    length (customRules v) = length opts /\
    forall wasm engine,
      ValidateModule v wasm engine
      = ValidateModule {| defaultRules := defaultSecurityRules;
                          customRules := [];
                          config := DefaultValidatorConfig |} wasm engine.
Proof.
  intros Hall. unfold NewDefaultValidatorWithOptions.
  destruct (options_fold opts
              {| defaultRules := defaultSecurityRules;
                 customRules := [];
                 config := DefaultValidatorConfig |} Hall)
    as [v [Hfold [Hlen Hsame]]].
  exists v. split; [exact Hfold|]. split; [exact Hlen | exact Hsame].
Qed.

Lemma check_counts_None_iff (wmod : Module) (limits : ResourceLimits) :
  len (Exports wmod) + len (Imports wmod) < 2 ^ 32 ->
  (check_counts wmod limits = None <->
   len (filter (fun exp => is_func (exp_Type exp)) (Exports wmod))
   + len (filter (fun imp => is_func (imp_Type imp)) (Imports wmod))
   <= MaxFunctions limits /\
   len (Exports wmod) <= MaxExports limits /\
   len (Imports wmod) <= MaxImports limits /\
   len (filter (fun exp => is_global (exp_Type exp)) (Exports wmod))
   + len (filter (fun imp => is_global (imp_Type imp)) (Imports wmod))
   <= MaxGlobals limits).
Proof.
  intros Hsmall.
  pose proof (len_filter_le (fun exp => is_func (exp_Type exp)) (Exports wmod)) as Hfe.
  pose proof (len_filter_le (fun imp => is_func (imp_Type imp)) (Imports wmod)) as Hfi.
  pose proof (len_filter_le (fun exp => is_global (exp_Type exp)) (Exports wmod)) as Hge.
  pose proof (len_filter_le (fun imp => is_global (imp_Type imp)) (Imports wmod)) as Hgi.
  unfold check_counts. cbv zeta.
  rewrite (count_up_filter _ (Exports wmod) 0) by lia.
  rewrite (count_up_filter _ (Imports wmod)) by lia.
  rewrite (count_up_filter _ (Exports wmod) 0) by lia.
  rewrite (count_up_filter _ (Imports wmod)) by lia.
  rewrite !uint32_small by (unfold len in *; lia).
  rewrite !Z.add_0_l.
  repeat match goal with
  | |- context [?a >? ?b] => destruct (Z.gtb_spec a b)
  end; split; try discriminate; try reflexivity; intros; lia.
Qed.

Lemma check_tables_None_iff (wmod : Module) (limits : ResourceLimits) :
  check_tables wmod limits = None <->
  (forall exp tableType,
      In exp (Exports wmod) -> exp_Type exp = Table tableType ->
      uint32 (tab_Minimum tableType) <= MaxTableSize limits /\
      (forall maxVal, tab_Maximum tableType = Some maxVal ->
                      uint32 maxVal <= MaxTableSize limits)).
Proof.
  unfold check_tables. rewrite range_None_iff. split.
  - intros Hall exp tableType Hin Hty. specialize (Hall exp Hin).
    unfold check_table_export in Hall. rewrite Hty in Hall. simpl in Hall.
    destruct (Z.gtb_spec (uint32 (tab_Minimum tableType)) (MaxTableSize limits));
      [discriminate|].
    split; [lia|]. intros maxVal Hmax. rewrite Hmax in Hall.
    destruct (Z.gtb_spec (uint32 maxVal) (MaxTableSize limits));
      [discriminate | lia].
  - intros Hall exp Hin. unfold check_table_export.
    destruct (exp_Type exp) as [ft| |memType|tableType] eqn:Hty; try reflexivity.
    simpl. destruct (Hall exp tableType Hin Hty) as [Hmin Hmax].
    destruct (Z.gtb_spec (uint32 (tab_Minimum tableType)) (MaxTableSize limits));
      [lia|].
    destruct (tab_Maximum tableType) as [maxVal|]; [|reflexivity].
    specialize (Hmax maxVal eq_refl).
    destruct (Z.gtb_spec (uint32 maxVal) (MaxTableSize limits));
      [lia | reflexivity].
Qed.

(** X22.  [ValidateResourceLimits] accepts a module (of fewer than
    [2 ^ 32] exports and imports) exactly when the function-typed entries
    are at most [MaxFunctions], the exports at most [MaxExports], the
    imports at most [MaxImports], the global-typed entries at most
    [MaxGlobals], every exported memory has its minimum and its declared
    maximum at most [MaxMemoryPages], and every exported table has its
    minimum and its declared maximum at most [MaxTableSize].
    [MaxInitialMemoryPages] plays no part, and imported memories and tables
    are not looked at. *)
Theorem ValidateResourceLimits_Ok_iff (wmod : Module) (limits : ResourceLimits) :
  len (Exports wmod) + len (Imports wmod) < 2 ^ 32 ->
  (ValidateResourceLimits wmod limits = Ok tt <->
   len (filter (fun exp => is_func (exp_Type exp)) (Exports wmod))
   + len (filter (fun imp => is_func (imp_Type imp)) (Imports wmod))
   <= MaxFunctions limits /\
   len (Exports wmod) <= MaxExports limits /\
   len (Imports wmod) <= MaxImports limits /\
   len (filter (fun exp => is_global (exp_Type exp)) (Exports wmod))
   + len (filter (fun imp => is_global (imp_Type imp)) (Imports wmod))
   <= MaxGlobals limits /\
   (forall exp memType,
       In exp (Exports wmod) -> exp_Type exp = Memory memType ->
       uint32 (mem_Minimum memType) <= MaxMemoryPages limits /\
       (forall maxVal, mem_Maximum memType = Some maxVal ->
                       uint32 maxVal <= MaxMemoryPages limits)) /\
   (forall exp tableType,
       In exp (Exports wmod) -> exp_Type exp = Table tableType ->
       uint32 (tab_Minimum tableType) <= MaxTableSize limits /\
       (forall maxVal, tab_Maximum tableType = Some maxVal ->
                       uint32 maxVal <= MaxTableSize limits))).
Proof.
  intros Hsmall.
  rewrite <- check_tables_None_iff, <- check_memory_None_iff.
  pose proof (check_counts_None_iff wmod limits Hsmall) as Hcounts.
  unfold ValidateResourceLimits.
  rewrite or_nil_Ok_iff.
  - rewrite !then_None_iff. rewrite Hcounts. tauto.
  - intros u Hu.
    destruct (check_counts wmod limits) as [r|] eqn:Hc; simpl in Hu.
    { destruct (check_counts_error _ _ _ Hc) as [msg ->]. discriminate Hu. }
    unfold check_memory, check_tables in Hu.
    destruct (range (check_memory_export limits) (Exports wmod)) as [r|] eqn:Hm;
      simpl in Hu.
    { destruct (range_Some _ _ _ Hm) as [exp [_ Hexp]].
      destruct (check_memory_export_error _ _ _ Hexp) as [msg ->].
      injection Hu as Hu. discriminate Hu. }
    destruct (range_Some _ _ _ Hu) as [exp [_ Hexp]].
    destruct (check_table_export_error _ _ _ Hexp) as [msg Hmsg].
    discriminate Hmsg.
Qed.

(** X23.  Every error that [ValidateResourceLimits] returns unwraps to
    [ErrResourceLimitExceeded] and prints as ["validation failed for rule
    resource-limits: <message>: resource limit exceeded"]. *)
Theorem ValidateResourceLimits_error (wmod : Module) (limits : ResourceLimits)
  (e : error) :
  ValidateResourceLimits wmod limits = Err e ->
  Unwrap e = Some ErrResourceLimitExceeded /\
  exists msg,
    Error e = ("validation failed for rule resource-limits: " ++ msg
                 ++ ": resource limit exceeded")%string.
Proof.
  intros He.
  destruct (ValidateResourceLimits_total wmod limits) as [Hok|[msg Hmsg]].
  - rewrite Hok in He. discriminate He.
  - rewrite Hmsg in He. injection He as <-.
    split; [reflexivity|]. exists msg. reflexivity.
Qed.

End ValidatorLaws.

(** ** [WasmRuntime]: module cache and [CallContract] *)

Module RuntimeLaws.

Import wasmtime.

(** X24.  The runtime's own [validateModule] counts every export and
    every import, whatever its kind, toward [MaxFunctions]: a parsed module
    (of fewer than [2 ^ 32] entries) passes exactly when exports plus
    imports are at most [MaxFunctions], the imports at most [MaxImports]
    and the exports at most [MaxExports]. *)
Theorem validateModule_Ok_iff (r : WasmRuntime.t) (wasm : bytes)
  (wmod : Module) :
  NewModule (WasmRuntime.engine r) wasm = Ok wmod ->
  len (Exports wmod) + len (Imports wmod) < 2 ^ 32 ->
  (WasmRuntime.validateModule r wasm = Ok tt <->
   len (Exports wmod) + len (Imports wmod)
   <= MaxFunctions (WasmRuntime.limits r) /\
   len (Imports wmod) <= MaxImports (WasmRuntime.limits r) /\
   len (Exports wmod) <= MaxExports (WasmRuntime.limits r)).
Proof.
  intros Hparse Hsmall. unfold WasmRuntime.validateModule.
  rewrite Hparse. cbv zeta.
  assert (He : 0 <= len (Exports wmod)) by (unfold len; lia).
  assert (Hi : 0 <= len (Imports wmod)) by (unfold len; lia).
  rewrite !ValidatorFacts.uint32_small by lia.
  repeat match goal with
  | |- context [?a >? ?b] => destruct (Z.gtb_spec a b)
  end; split; try discriminate; try reflexivity; intros; lia.
Qed.

Section WithCache.
Context {C : Type} `{Cacher C}.

(** X25.  [getModule] answers from the cache without reading the state;
    on a miss it returns a module only when the bytes stored for the id are
    within [MaxContractSize] (as a [uint32]), pass [validateModule] and
    compile, and only then puts the module in the cache.  A failed
    [getModule] puts nothing in the cache. *)
Theorem getModule_caches_validated (r : WasmRuntime.t)
  (GetContractBytes : bytes -> result bytes) (cache : C) (id : bytes) :
  let looked := Cacher_Get cache id in
  (forall wmod, fst looked = Some wmod ->
     WasmRuntime.getModule r GetContractBytes cache id = (Ok wmod, snd looked)) /\
  (fst looked = None ->
   (forall wmod cache',
      WasmRuntime.getModule r GetContractBytes cache id = (Ok wmod, cache') ->
      exists contractBytes,
        GetContractBytes id = Ok contractBytes /\
        uint32 (len contractBytes) <= MaxContractSize (WasmRuntime.limits r) /\
        WasmRuntime.validateModule r contractBytes = Ok tt /\
        NewModule (WasmRuntime.engine r) contractBytes = Ok wmod /\
        cache' = Cacher_Put (snd looked) id wmod) /\
   (is_Ok (fst (WasmRuntime.getModule r GetContractBytes cache id)) = false ->
    snd (WasmRuntime.getModule r GetContractBytes cache id) = snd looked)).
Proof.
  intros looked. subst looked. unfold WasmRuntime.getModule.
  destruct (Cacher_Get cache id) as [[hit|] c1]; simpl fst; simpl snd.
  - split; [|discriminate]. intros wmod [= <-]. reflexivity.
  - split; [discriminate|]. intros _.
    destruct (GetContractBytes id) as [contractBytes|e|msg] eqn:Hbytes;
      [|split; [discriminate | reflexivity]..].
    unfold WasmRuntime.check_size.
    destruct (Z.gtb_spec (uint32 (len contractBytes))
                (MaxContractSize (WasmRuntime.limits r))) as [Hbig|Hfit];
      [split; [discriminate | reflexivity]|].
    destruct (WasmRuntime.validateModule r contractBytes) as [[]|e|msg]
      eqn:Hvalid; [|split; [discriminate | reflexivity]..].
    destruct (NewModule (WasmRuntime.engine r) contractBytes) as [wmod|e|msg]
      eqn:Hnew; [|split; [discriminate | reflexivity]..].
    split; [|discriminate].
    intros wmod' cache' [= <- <-]. exists contractBytes.
    split; [reflexivity|]. split; [lia|]. split; [exact Hvalid|].
    split; [exact Hnew | reflexivity].
Qed.

Section WithState.
Context {S : Type} `{BalanceManager S} `{ContractManager S}.

(** X26.  [CallContract] leaves no call info behind for the store of the
    call, however the guest call ends (result, error or panic), and never
    touches the call info of other stores.  When it fails before the
    instance exists (unknown account, module not found or invalid,
    instantiation failure) the call-info map and the trace are unchanged
    and no result is returned. *)
Theorem CallContract_clears_call_info (r : WasmRuntime.t) (linker : Linker S)
  (key : Z) (callInfo : CallInfo) (rs : RuntimeState S C) :
  let out := CallContract r linker key callInfo rs in
  (forall k, k <> key ->
     getCallInfo (rs_callerInfo (snd out)) k = getCallInfo (rs_callerInfo rs) k) /\
  (getCallInfo (rs_callerInfo (snd out)) key = None \/
   (rs_callerInfo (snd out) = rs_callerInfo rs /\
    rs_trace (snd out) = rs_trace rs /\
    is_Ok (fst out) = false)).
Proof.
  intros out. subst out. unfold CallContract.
  destruct (ContractManager_GetAccountContract _ _) as [contractID|e|msg];
    [|split; [reflexivity | right; repeat split]..].
  destruct (WasmRuntime.getModule _ _ _ _) as [[contractModule|e|msg] cache];
    [|split; [reflexivity | right; repeat split]..].
  destruct (getInstance _ _ _) as [[inst|e|msg] store];
    [|split; [reflexivity | right; repeat split]..].
  destruct (call inst callInfo _) as [res w]. simpl.
  unfold getCallInfo, deleteCallInfo, setCallInfo. split.
  - intros k Hk. rewrite lookup_delete_ne by congruence.
    rewrite lookup_insert_ne by congruence. reflexivity.
  - left. apply lookup_delete_eq.
Qed.

End WithState.

(** X27.  With a [SimulatorState] behind [callInfo.State] and nothing
    cached under the empty id, [CallContract] never reaches a contract:
    [GetAccountContract] answers the empty id for every account that has a
    32-byte contract id, and [GetContractBytes] refuses the empty id.  The
    call fails with ["nil state"], ["invalid contract ID length"] or
    ["empty key"], and state, call info and trace stay as they were. *)
Theorem CallContract_on_SimulatorState `{AddressStringer} (r : WasmRuntime.t)
  (linker : Linker (option SimulatorState.t)) (key : Z) (callInfo : CallInfo)
  (rs : RuntimeState (option SimulatorState.t) C) :
  fst (Cacher_Get (rs_cache rs) []) = None ->
  let out := CallContract r linker key callInfo rs in
  (fst out = Err (errorString "nil state") \/
   fst out = Err (errorString "invalid contract ID length") \/
   fst out = Err (errorString "empty key")) /\
  rs_state (snd out) = rs_state rs /\
  rs_callerInfo (snd out) = rs_callerInfo rs /\
  rs_trace (snd out) = rs_trace rs.
Proof.
  intros Hmiss out.
  assert (Hres :
    out = (Err (errorString "nil state"), rs) \/
    out = (Err (errorString "invalid contract ID length"), rs) \/
    exists cache,
      out = (Err (errorString "empty key"),
             mkRuntimeState (rs_state rs) cache (rs_callerInfo rs)
                            (rs_trace rs))).
  { assert (Hout : out = CallContract r linker key callInfo rs) by reflexivity.
    clearbody out. unfold CallContract in Hout.
    cbn [ContractManager_GetAccountContract ContractManager_GetContractBytes
         SimulatorState_ContractManager] in Hout.
    unfold SimulatorState.GetAccountContract in Hout.
    destruct (rs_state rs) as [st|]; [|left; exact Hout].
    unfold SimulatorState.GetValue at 1 in Hout.
    rewrite KeyFacts.len_slice_nonzero in Hout.
    destruct (SimulatorState.data st !! codec.slice (Contract callInfo))
      as [value|]; [|right; left; exact Hout].
    destruct (len value =? 32); [|right; left; exact Hout].
    right. right. simpl negb in Hout. cbv iota zeta in Hout.
    rewrite GoFacts.copy_nil in Hout.
    unfold WasmRuntime.getModule in Hout.
    destruct (Cacher_Get (rs_cache rs) []) as [hit c1]. simpl in Hmiss.
    subst hit. exists c1. exact Hout. }
  destruct Hres as [->|[->|[cache ->]]]; simpl.
  - split; [left; reflexivity | repeat split].
  - split; [right; left; reflexivity | repeat split].
  - split; [right; right; reflexivity | repeat split].
Qed.

End WithCache.

End RuntimeLaws.

(** ** Balance resources *)

Module ResourceLaws.

Import GoFacts.

(** X28.  [Unmarshal] reads back the amount that [Marshal] wrote, for
    every [uint64] amount, and changes nothing else of the resource; bytes
    after the eighth are ignored, and fewer than eight bytes are refused
    with [ErrInvalidResourceData], the resource being left as it was. *)
Theorem Unmarshal_Marshal (b target : BalanceResource.t) (extra short : bytes) :
  0 <= BalanceResource.amount b < 2 ^ 64 ->
  len short < 8 ->
  (exists data,
      BalanceResource.Marshal b = Ok data /\ len data = 8 /\
      BalanceResource.Unmarshal target (data ++ extra)
      = (Ok tt,
         {| BalanceResource.id := BalanceResource.id target;
            BalanceResource.owner := BalanceResource.owner target;
            BalanceResource.amount := BalanceResource.amount b;
            BalanceResource.moved := BalanceResource.moved target |})) /\
  BalanceResource.Unmarshal target short = (Err ErrInvalidResourceData, target).
Proof.
  intros Hamount Hshort. split.
  - exists (BalanceResource.Data b). split; [reflexivity|].
    split; [reflexivity|].
    unfold BalanceResource.Unmarshal, BalanceResource.Data.
    assert (Hlen : (len (PutUint64_BE (BalanceResource.amount b) ++ extra) <? 8)
                   = false).
    { apply Z.ltb_ge. unfold len. rewrite length_app, length_PutUint64_BE. lia. }
    rewrite Hlen.
    change (Uint64_BE (PutUint64_BE (BalanceResource.amount b) ++ extra))
      with (Uint64_BE (PutUint64_BE (BalanceResource.amount b))).
    rewrite Uint64_BE_PutUint64_BE by exact Hamount. reflexivity.
  - unfold BalanceResource.Unmarshal.
    rewrite (proj2 (Z.ltb_lt _ _) Hshort). reflexivity.
Qed.

(** X29.  [ValidateBalanceNotNegative] accepts the data of a balance
    resource exactly when its amount is not zero: a zero balance is
    refused with [ErrNegativeBalance]. *)
Theorem ValidateBalanceNotNegative_zero (b : BalanceResource.t) :
  0 <= BalanceResource.amount b < 2 ^ 64 ->
  (ValidateBalanceNotNegative (Some (BalanceResource.Data b)) = Ok tt <->
   BalanceResource.amount b <> 0) /\
  (BalanceResource.amount b = 0 ->
   ValidateBalanceNotNegative (Some (BalanceResource.Data b))
   = Err ErrNegativeBalance).
Proof.
  intros Hamount. unfold ValidateBalanceNotNegative, BalanceResource.Data.
  change (len (PutUint64_BE (BalanceResource.amount b)) <? 8) with false.
  cbv iota. rewrite Uint64_BE_PutUint64_BE by exact Hamount.
  destruct (Z.eqb_spec (BalanceResource.amount b) 0) as [Hz|Hnz].
  - split; [split; [discriminate | intros Hn; contradiction] | reflexivity].
  - split; [split; [intros _; exact Hnz | reflexivity] | intros Hz; contradiction].
Qed.

End ResourceLaws.

(** ** The further properties on concrete inputs *)

Module Witnesses.

Import wasmtime validators Fixtures Scenarios.

#[local] Existing Instance raw_stringer.
#[local] Existing Instance map_cache.

(** A value stored under ["a"] is read back. *)
Lemma Insert_Remove_GetValue_witness :
  key_a <> [] /\
  SimulatorState.GetValue
    (snd (SimulatorState.Insert (Some empty_simulator) key_a key_b)) key_a
  = Ok key_b.
Proof.
  assert (Hkey : key_a <> []) by discriminate.
  split; [exact Hkey|].
  exact (proj1 (proj2 (StoreLaws.Insert_Remove_GetValue
                         empty_simulator key_a key_b key_b Hkey))).
Defined.

(** What [addr1]'s contract inserts under ["a"] is not what [addr2]'s
    contract reads under ["a"]. *)
Lemma ContractState_isolation_witness :
  addr1 <> addr2 /\
  ContractState.GetValue
    (GetContractState
       (snd (ContractState.Insert (GetContractState (Some empty_simulator) addr1)
               key_a key_b)) addr2) key_a
  = ContractState.GetValue (GetContractState (Some empty_simulator) addr2) key_a.
Proof.
  assert (Hne : addr1 <> addr2) by (vm_compute; discriminate).
  split; [exact Hne|].
  exact (proj1 (StoreLaws.ContractState_isolation
                  empty_simulator addr1 addr2 key_a key_a key_b Hne)).
Defined.

(** An insert through [addr1]'s view leaves [addr2]'s contract entry. *)
Lemma ContractState_keeps_short_keys_witness :
  (length (codec.slice addr2) <= 33)%nat /\
  SimulatorState.GetAccountContract
    (snd (ContractState.Insert (GetContractState (Some empty_simulator) addr1)
            key_a key_b)) addr2
  = SimulatorState.GetAccountContract (Some empty_simulator) addr2.
Proof.
  assert (Hlen : (length (codec.slice addr2) <= 33)%nat)
    by (rewrite KeyFacts.length_slice; lia).
  split; [exact Hlen|].
  exact (proj1 (proj2 (proj2 (StoreLaws.ContractState_keeps_short_keys
                                empty_simulator addr1 addr2 key_a key_b
                                (codec.slice addr2) Hlen)))).
Defined.

(** A one-byte balance entry makes [GetBalance] panic. *)
Lemma GetBalance_missing_or_short_witness :
  (length [x01] < 8)%nat /\ addr1 <> codec.EmptyAddress /\
  SimulatorState.GetBalance
    (snd (SimulatorState.Insert (Some empty_simulator)
            (SimulatorState.balanceKey addr1) [x01])) addr1
  = Panic "index out of range [7]".
Proof.
  assert (Hlen : (length [x01] < 8)%nat) by (simpl; lia).
  assert (Hne : addr1 <> codec.EmptyAddress) by (vm_compute; discriminate).
  split; [exact Hlen|]. split; [exact Hne|].
  exact (proj1 (proj2 (BalanceLaws.GetBalance_missing_or_short
                         empty_simulator addr1 addr2 [x01] 5 Hlen Hne))).
Defined.

(** [addr1] holds 1000 and sends 400 to [addr2]. *)
Lemma TransferBalance_conserves_witness :
  addr1 <> codec.EmptyAddress /\
  SimulatorState.balanceKey addr1 <> SimulatorState.balanceKey addr2 /\
  SimulatorState.GetBalance (Some funded) addr1 = Ok 1000 /\
  SimulatorState.GetBalance (Some funded) addr2 = Ok 0 /\
  exists st',
    SimulatorState.TransferBalance (Some funded) addr1 addr2 400
    = (Ok tt, Some st') /\
    SimulatorState.GetBalance (Some st') addr1 = Ok 600 /\
    SimulatorState.GetBalance (Some st') addr2 = Ok 400.
Proof.
  assert (Hne : addr1 <> codec.EmptyAddress) by (vm_compute; discriminate).
  assert (Hkeys : SimulatorState.balanceKey addr1
                  <> SimulatorState.balanceKey addr2)
    by (vm_compute; discriminate).
  assert (Hfrom : SimulatorState.GetBalance (Some funded) addr1 = Ok 1000)
    by (vm_compute; reflexivity).
  assert (Hto : SimulatorState.GetBalance (Some funded) addr2 = Ok 0)
    by (vm_compute; reflexivity).
  assert (Hamount : 0 <= 400 <= 1000) by lia.
  assert (Hfit : 0 + 400 < 2 ^ 64) by lia.
  destruct (BalanceLaws.TransferBalance_conserves funded addr1 addr2 400 1000 0
              key_a Hne Hkeys Hfrom Hto Hamount Hfit)
    as (st' & Htransfer & Hbal1 & Hbal2 & _).
  split; [exact Hne|]. split; [exact Hkeys|]. split; [exact Hfrom|].
  split; [exact Hto|].
  exists st'. split; [exact Htransfer|]. split; [exact Hbal1 | exact Hbal2].
Defined.

(** [addr1] sends 400 to itself. *)
Lemma TransferBalance_to_self_witness :
  addr1 <> codec.EmptyAddress /\
  SimulatorState.GetBalance (Some funded) addr1 = Ok 1000 /\
  exists st',
    SimulatorState.TransferBalance (Some funded) addr1 addr1 400
    = (Ok tt, Some st') /\
    SimulatorState.GetBalance (Some st') addr1 = Ok 1000.
Proof.
  assert (Hne : addr1 <> codec.EmptyAddress) by (vm_compute; discriminate).
  assert (Hfrom : SimulatorState.GetBalance (Some funded) addr1 = Ok 1000)
    by (vm_compute; reflexivity).
  assert (Hamount : 0 <= 400 <= 1000) by lia.
  split; [exact Hne|]. split; [exact Hfrom|].
  exact (BalanceLaws.TransferBalance_to_self funded addr1 400 1000
           Hne Hfrom Hamount).
Defined.

(** Minting 1 to an address that holds [2 ^ 64 - 1] leaves it with 0. *)
Lemma mint_wraps_around_witness :
  0 <= 1 < 2 ^ 64 /\
  SimulatorState.GetBalance (Some rich) addr1 = Ok 18446744073709551615 /\
  exists st',
    SimulatorState.TransferBalance (Some rich) codec.EmptyAddress addr1 1
    = (Ok tt, Some st') /\
    SimulatorState.GetBalance (Some st') addr1 = Ok 0.
Proof.
  assert (Hamount : 0 <= 1 < 2 ^ 64) by lia.
  assert (Hto : SimulatorState.GetBalance (Some rich) addr1
                = Ok 18446744073709551615) by (vm_compute; reflexivity).
  assert (Hover : 2 ^ 64 <= 18446744073709551615 + 1) by lia.
  destruct (BalanceLaws.mint_wraps_around rich addr1 1 18446744073709551615
              Hamount Hto Hover) as (st' & Htransfer & Hbal & _).
  split; [exact Hamount|]. split; [exact Hto|].
  exists st'. split; [exact Htransfer | exact Hbal].
Defined.

(** [addr1] holds 100: sending 200 fails, sending 30 arrives. *)
Lemma TestStateManager_TransferBalance_witness :
  TestStateManager.GetBalance poor addr1 = Ok 100 /\
  TestStateManager.GetBalance poor addr2 = Ok 0 /\
  TestStateManager.TransferBalance poor addr1 addr2 200
  = (Err (errorString "insufficient balance"), poor) /\
  TestStateManager.GetBalance
    (snd (TestStateManager.TransferBalance poor addr1 addr2 30)) addr2
  = Ok 30.
Proof.
  assert (Hfrom : TestStateManager.GetBalance poor addr1 = Ok 100)
    by reflexivity.
  assert (Hto : TestStateManager.GetBalance poor addr2 = Ok 0) by reflexivity.
  assert (Hne : addr1 <> addr2) by (vm_compute; discriminate).
  split; [exact Hfrom|]. split; [exact Hto|]. split.
  - apply (proj1 (BalanceLaws.TestStateManager_TransferBalance
                    poor addr1 addr2 200 100 0 Hfrom Hto)). lia.
  - apply (proj2 (BalanceLaws.TestStateManager_TransferBalance
                    poor addr1 addr2 30 100 0 Hfrom Hto)); [lia | exact Hne | lia | lia].
Defined.

(** Ten units of fuel: five added, five consumed. *)
Lemma AddFuel_then_ConsumeFuel_witness :
  let w := set_fuel (world poor 0) 10 in
  let ci := callInfo [] 0 in
  0 <= 5 < 2 ^ 64 /\ 0 <= 10 < 2 ^ 64 /\
  ConsumeFuel ci 5 (snd (AddFuel ci 5 w)) = (Ok tt, set_fuel w 10).
Proof.
  cbv zeta.
  assert (Hn : 0 <= 5 < 2 ^ 64) by lia.
  assert (Hr : 0 <= 10 < 2 ^ 64) by lia.
  split; [exact Hn|]. split; [exact Hr|].
  destruct (FuelLaws.AddFuel_then_ConsumeFuel (callInfo [] 0) 5 10
              (set_fuel (world poor 0) 10) Hn Hr) as [Hmetered _].
  destruct (Hmetered eq_refl) as [Hfit _].
  apply Hfit. lia.
Defined.

(** Ten units of fuel: three and then four consumed. *)
Lemma ConsumeFuel_composes_witness :
  let w := set_fuel (world poor 0) 10 in
  let ci := callInfo [] 0 in
  0 <= 3 /\ 0 <= 4 /\ 10 < 2 ^ 64 /\ fuel (machine w) = Some 10 /\
  snd (ConsumeFuel ci 4 (snd (ConsumeFuel ci 3 w)))
  = snd (ConsumeFuel ci (3 + 4) w).
Proof.
  cbv zeta.
  assert (Ha : 0 <= 3) by lia.
  assert (Hb : 0 <= 4) by lia.
  assert (Hr : 10 < 2 ^ 64) by lia.
  split; [exact Ha|]. split; [exact Hb|]. split; [exact Hr|].
  split; [reflexivity|].
  destruct (FuelLaws.ConsumeFuel_composes (callInfo [] 0) 3 4 10
              (set_fuel (world poor 0) 10) Ha Hb Hr eq_refl) as [_ Hsum].
  apply Hsum. lia.
Defined.

(** The context of [callInfo] and one byte of params. *)
Lemma customSerialize_injective_witness :
  0 <= ctx_Height context < 2 ^ 64 /\
  0 <= ctx_Timestamp context < 2 ^ 64 /\
  customSerialize context [] = Ok prefix /\
  (context = context /\ [x01] = [x01]).
Proof.
  assert (Hh : 0 <= ctx_Height context < 2 ^ 64) by (simpl; lia).
  assert (Ht : 0 <= ctx_Timestamp context < 2 ^ 64) by (simpl; lia).
  assert (Hs : customSerialize context [] = Ok prefix) by reflexivity.
  split; [exact Hh|]. split; [exact Ht|]. split; [exact Hs|].
  exact (CallLaws.customSerialize_injective context context prefix prefix
           [x01] [x01] Hh Hh Ht Ht Hs Hs eq_refl).
Defined.

Lemma guest_keeps_state (offset : Z) name f (m : Machine TestStateManager.t)
  (arg : Z) :
  guest offset name = Some (ExternFunc f) -> state (snd (f m arg)) = state m.
Proof.
  unfold guest.
  destruct (String.eqb name "alloc"); [intros [= <-]; reflexivity|].
  destruct (String.eqb name "memory"); [discriminate|].
  destruct (String.eqb name "run"); [intros [= <-]; reflexivity | discriminate].
Qed.

(** [addr1] holds 100 and attaches 50 to a call that succeeds. *)
Lemma call_does_not_roll_back_witness :
  let w := world poor 256 in
  let ci := callInfo [] 50 in
  Value ci > 0 /\
  fst (TestStateManager.TransferBalance poor addr1 addr2 50) = Ok tt /\
  state (machine (snd (call (guest 16) ci w)))
  = snd (TestStateManager.TransferBalance poor addr1 addr2 50).
Proof.
  cbv zeta.
  assert (Hvalue : Value (callInfo [] 50) > 0) by (simpl; lia).
  split; [exact Hvalue|]. split; [reflexivity|].
  apply (CallLaws.call_does_not_roll_back (guest 16) (callInfo [] 50)
           (world poor 256) 0
           (snd (TestStateManager.TransferBalance poor addr1 addr2 50))
           (guest_keeps_state 16)); [reflexivity | exact Hvalue | reflexivity].
Defined.

(** The same call, for a function the guest does not export. *)
Lemma call_unknown_function_witness :
  let w := world poor 256 in
  let ci := call_missing 50 in
  GetFunc (guest 16) (FunctionName ci) = None /\
  Value ci > 0 /\
  fst (call (guest 16) ci w)
  = Err (errorString "function absent does not exist") /\
  state (machine (snd (call (guest 16) ci w)))
  = snd (TestStateManager.TransferBalance poor addr1 addr2 50).
Proof.
  cbv zeta.
  assert (Hnone : GetFunc (guest 16) (FunctionName (call_missing 50)) = None)
    by reflexivity.
  assert (Hvalue : Value (call_missing 50) > 0) by (simpl; lia).
  split; [exact Hnone|]. split; [exact Hvalue|].
  assert (Htransfer :
    BalanceManager_TransferBalance (state (machine (world poor 256)))
      (Actor (call_missing 50)) (Contract (call_missing 50))
      (Value (call_missing 50))
    = (Ok tt, snd (TestStateManager.TransferBalance poor addr1 addr2 50)))
    by reflexivity.
  erewrite (CallLaws.call_unknown_function (guest 16) (call_missing 50)
              (world poor 256) 0 16
              (snd (TestStateManager.TransferBalance poor addr1 addr2 50))
              (fun m _ => (Ok (ValI32 16), m)) _ _
              Hnone eq_refl Hvalue Htransfer eq_refl eq_refl eq_refl);
    [split; reflexivity | reflexivity].
Defined.

(** Two bytes written at offset 16 of 256 bytes of memory. *)
Lemma writeToMemory_frame_witness :
  let w := world poor 256 in
  let data := bytes_of_string "hi" in
  guest 16 AllocName
  = Some (ExternFunc (fun m _ => (Ok (ValI32 16), m))) /\
  guest 16 MemoryName = Some ExternMemory /\
  fst (writeToMemory (guest 16) data w) = Ok 16 /\
  length (memory (machine (snd (writeToMemory (guest 16) data w))))
  = length (memory (machine w)).
Proof.
  cbv zeta.
  assert (Halloc : guest 16 AllocName
                   = Some (ExternFunc (fun m _ => (Ok (ValI32 16), m))))
    by reflexivity.
  assert (Hmemory : guest 16 MemoryName = Some ExternMemory) by reflexivity.
  split; [exact Halloc|]. split; [exact Hmemory|].
  destruct (CallLaws.writeToMemory_frame (guest 16) (bytes_of_string "hi")
              (world poor 256) _ 16 (machine (world poor 256))
              Halloc Hmemory eq_refl) as [Hin _].
  destruct Hin as (Hfst & _ & _ & _ & Hlen & _); [vm_compute; split; discriminate|].
  split; [exact Hfst | exact Hlen].
Defined.

(** A memory limit of one page and the float option: a module exporting
    two pages of memory is accepted all the same. *)
Lemma ready_made_options_change_nothing_witness :
  let opts := [WithCustomMemoryLimits 1; WithDeterministicFloatingPoint] in
  Forall ready_made opts /\
  exists v,
    NewDefaultValidatorWithOptions opts = Ok v /\
    length (customRules v) = 2%nat /\
    ValidateModule v [] (engine_of two_pages) = Ok tt.
Proof.
  cbv zeta.
  assert (Hall : Forall ready_made
                   [WithCustomMemoryLimits 1; WithDeterministicFloatingPoint]).
  { constructor; [right; right; exists 1; reflexivity|].
    constructor; [left; reflexivity | constructor]. }
  split; [exact Hall|].
  destruct (ValidatorLaws.ready_made_options_change_nothing _ Hall)
    as (v & Hnew & Hlen & Hsame).
  exists v. split; [exact Hnew|]. split; [exact Hlen|].
  rewrite Hsame. reflexivity.
Defined.

(** The small module is within the default limits. *)
Lemma ValidateResourceLimits_Ok_iff_witness :
  len (Exports small_module) + len (Imports small_module) < 2 ^ 32 /\
  ValidateResourceLimits small_module DefaultResourceLimits = Ok tt /\
  len (Exports small_module) <= MaxExports DefaultResourceLimits.
Proof.
  assert (Hsmall : len (Exports small_module) + len (Imports small_module)
                   < 2 ^ 32) by (vm_compute; reflexivity).
  assert (Hok : ValidateResourceLimits small_module DefaultResourceLimits
                = Ok tt) by reflexivity.
  split; [exact Hsmall|]. split; [exact Hok|].
  exact (proj1 (proj2 (proj1 (ValidatorLaws.ValidateResourceLimits_Ok_iff
                                small_module DefaultResourceLimits Hsmall)
                             Hok))).
Defined.

(** Two functions where none is allowed. *)
Lemma ValidateResourceLimits_error_witness :
  let e := resource_limit_error "function count 2 exceeds limit 0" in
  ValidateResourceLimits small_module no_functions = Err e /\
  Unwrap e = Some ErrResourceLimitExceeded.
Proof.
  cbv zeta.
  assert (Herr : ValidateResourceLimits small_module no_functions
                 = Err (resource_limit_error "function count 2 exceeds limit 0"))
    by reflexivity.
  split; [exact Herr|].
  exact (proj1 (ValidatorLaws.ValidateResourceLimits_error _ _ _ Herr)).
Defined.

(** The small module passes the runtime's check under the default limits. *)
Lemma validateModule_Ok_iff_witness :
  let r := WasmRuntime.mk (engine_of small_module) DefaultResourceLimits in
  NewModule (WasmRuntime.engine r) [] = Ok small_module /\
  len (Exports small_module) + len (Imports small_module) < 2 ^ 32 /\
  WasmRuntime.validateModule r [] = Ok tt.
Proof.
  cbv zeta.
  assert (Hsmall : len (Exports small_module) + len (Imports small_module)
                   < 2 ^ 32) by (vm_compute; reflexivity).
  split; [reflexivity|]. split; [exact Hsmall|].
  apply (proj2 (RuntimeLaws.validateModule_Ok_iff
                  (WasmRuntime.mk (engine_of small_module) DefaultResourceLimits)
                  [] small_module eq_refl Hsmall)).
  repeat split; vm_compute; discriminate.
Defined.

(** A call through a fresh runtime on an empty simulator state. *)
Lemma CallContract_on_SimulatorState_witness :
  let r := WasmRuntime.mk (engine_of small_module) DefaultResourceLimits in
  let out := CallContract r failing_linker 1 (callInfo [] 0) fresh_runtime in
  fst (Cacher_Get (rs_cache fresh_runtime) []) = None /\
  (fst out = Err (errorString "nil state") \/
   fst out = Err (errorString "invalid contract ID length") \/
   fst out = Err (errorString "empty key")) /\
  rs_trace (snd out) = [].
Proof.
  cbv zeta.
  assert (Hmiss : fst (Cacher_Get (rs_cache fresh_runtime) []) = None)
    by reflexivity.
  split; [exact Hmiss|].
  destruct (RuntimeLaws.CallContract_on_SimulatorState
              (WasmRuntime.mk (engine_of small_module) DefaultResourceLimits)
              failing_linker 1 (callInfo [] 0) fresh_runtime Hmiss)
    as (Herr & _ & _ & Htrace).
  split; [exact Herr | exact Htrace].
Defined.

(** A parameter of a kind outside the six named ones has the empty type
    name: a deny list holding the empty string rejects it, and the default
    instruction rule does not. *)
Example empty_type_name_is_denied :
  let vector := mkModule [mkExport "f" (Func (mkFuncType [KindOther 4] []))] [] in
  let rule := mkSecurityRule RuleTypeInstruction "no-unnamed" [] [""%string] None in
  validateInstructions vector rule
  = Err (NewValidationError "invalid parameter type in export f" "no-unnamed"
           (Some (errorString "type  is not allowed"))) /\
  ValidateSecurityRules vector defaultSecurityRules = Ok tt.
Proof. cbv zeta. split; reflexivity. Qed.

(** A resource of 100 is read back; one byte is refused. *)
Lemma Unmarshal_Marshal_witness :
  0 <= BalanceResource.amount hundred < 2 ^ 64 /\
  len [x01] < 8 /\
  BalanceResource.Unmarshal nothing [x01] = (Err ErrInvalidResourceData, nothing).
Proof.
  assert (Hamount : 0 <= BalanceResource.amount hundred < 2 ^ 64)
    by (simpl; lia).
  assert (Hshort : len [x01] < 8) by (vm_compute; reflexivity).
  split; [exact Hamount|]. split; [exact Hshort|].
  exact (proj2 (ResourceLaws.Unmarshal_Marshal hundred nothing [] [x01]
                  Hamount Hshort)).
Defined.

(** A balance of zero is refused as negative. *)
Lemma ValidateBalanceNotNegative_zero_witness :
  0 <= BalanceResource.amount nothing < 2 ^ 64 /\
  ValidateBalanceNotNegative (Some (BalanceResource.Data nothing))
  = Err ErrNegativeBalance.
Proof.
  assert (Hamount : 0 <= BalanceResource.amount nothing < 2 ^ 64)
    by (simpl; lia).
  split; [exact Hamount|].
  exact (proj2 (ResourceLaws.ValidateBalanceNotNegative_zero nothing Hamount)
           eq_refl).
Defined.

End Witnesses.
